(** * Auto Ticket: the escalation pipeline of [auto_ticket.py]

    A shallow embedding of the plugin's pipeline: the date normalizer
    [parse_funpay_date], the order scanner [get_old_orders_for_ticket], the
    support client [FunPaySupportAPI], the per-order step
    [_report_deal_problem_raw], the batch loop [report_deal_problems] and the
    three Telegram handlers that touch the [SETTINGS] object.

    Python values are modelled as the code uses them: [str] as a list of code
    points, [int] as [Z], timestamps as rationals, values decoded from JSON
    as a tree, exceptions as an explicit result type. The module-level
    [SETTINGS] object and the outside world (order source, HTTP transport,
    file system, Telegram bot, clock) are an explicit state threaded through
    a small state-and-exception monad, which also records every call on a
    collaborator in a trace.

    Conventions. Every exception is an [Exception], so [except Exception] and
    a bare [except] catch the same. Logging is left out. A run is a single
    task: [asyncio.sleep] is an event of the trace and nothing else runs
    meanwhile. Library functions whose result depends on the platform or on
    a parser outside the plugin are fields of the environment [Env], and the
    theorems hold for every environment. *)

From Stdlib Require Import String Ascii List ZArith QArith Bool Lia.
Import ListNotations.

Set Warnings "-register-all".
Local Open Scope Z_scope.

(** ** Python strings *)

(** A Python [str] is a sequence of Unicode code points. *)
Definition pystr := list N.

(** Decoding of the UTF-8 source literals: [need] continuation bytes are still
    expected for the code point accumulated in [acc]. *)
Fixpoint utf8_go (bs : list N) (need : nat) (acc : N) : pystr :=
  match bs with
  | [] => []
  | b :: r =>
      match need with
      | O =>
          if (b <? 128)%N then b :: utf8_go r 0 0%N
          else if (b <? 224)%N then utf8_go r 1 (b - 192)%N
          else if (b <? 240)%N then utf8_go r 2 (b - 224)%N
          else utf8_go r 3 (b - 240)%N
      | S O => (acc * 64 + (b - 128))%N :: utf8_go r 0 0%N
      | S n => utf8_go r n (acc * 64 + (b - 128))%N
      end
  end.

Definition py (s : string) : pystr :=
  utf8_go (map N_of_ascii (list_ascii_of_string s)) 0 0%N.

Definition pystr_eq_dec : forall a b : pystr, {a = b} + {a <> b} :=
  list_eq_dec N.eq_dec.

Definition str_eqb (a b : pystr) : bool :=
  if pystr_eq_dec a b then true else false.

(** [s.startswith(p)] *)
Fixpoint startswith (s p : pystr) : bool :=
  match p, s with
  | [], _ => true
  | _ :: _, [] => false
  | a :: p', b :: s' => (a =? b)%N && startswith s' p'
  end.

(** [sub in s] for two strings *)
Fixpoint str_contains (s sub : pystr) : bool :=
  startswith s sub ||
  match s with
  | [] => false
  | _ :: r => str_contains r sub
  end.

(** [s.replace(old, new)], every non-overlapping occurrence from the left.
    [skip] counts the characters of an occurrence still to be dropped. *)
Fixpoint replace_go (old new s : pystr) (skip : nat) : pystr :=
  match s with
  | [] => []
  | c :: r =>
      match skip with
      | S k => replace_go old new r k
      | O =>
          if startswith s old
          then new ++ replace_go old new r (length old - 1)
          else c :: replace_go old new r 0
      end
  end.

Definition str_replace (s old new : pystr) : pystr :=
  match old with
  | [] => new ++ flat_map (fun c => c :: new) s
  | _ :: _ => replace_go old new s 0
  end.

(** [s.split(sep)] for a non-empty separator; [cur] is the piece being read,
    in reverse. *)
Fixpoint split_go (sep s : pystr) (skip : nat) (cur : pystr) : list pystr :=
  match s with
  | [] => [rev cur]
  | c :: r =>
      match skip with
      | S k => split_go sep r k cur
      | O =>
          if startswith s sep
          then rev cur :: split_go sep r (length sep - 1) []
          else split_go sep r 0 (c :: cur)
      end
  end.

Definition str_split (s sep : pystr) : list pystr := split_go sep s 0 [].

(** [str.isspace] on one code point (the set CPython strips). *)
Definition is_space (c : N) : bool :=
  ((9 <=? c) && (c <=? 13) || (28 <=? c) && (c <=? 32) ||
   (c =? 133) || (c =? 160) || (c =? 5760) ||
   (8192 <=? c) && (c <=? 8202) || (c =? 8232) || (c =? 8233) ||
   (c =? 8239) || (c =? 8287) || (c =? 12288))%N.

Fixpoint lstrip (s : pystr) : pystr :=
  match s with
  | [] => []
  | c :: r => if is_space c then lstrip r else s
  end.

(** [s.strip()] *)
Definition str_strip (s : pystr) : pystr := rev (lstrip (rev (lstrip s))).

(** ** Exceptions and results *)

Inductive PyExc : Type :=
| ValueError
| TypeError
| AttributeError
| KeyError
| OverflowError
| OtherError (cls : string).

(** The result of a call that may raise. *)
Inductive PyResult (A : Type) : Type :=
| Ok (a : A)
| Raise (e : PyExc).
Arguments Ok {A} a.
Arguments Raise {A} e.

Definition rbind {A B} (r : PyResult A) (k : A -> PyResult B) : PyResult B :=
  match r with
  | Ok a => k a
  | Raise e => Raise e
  end.

(** ** JSON values, as [json.loads] and [Response.json()] build them *)

Inductive json : Type :=
| JNull
| JBool (b : bool)
| JInt (z : Z)
| JFloat (q : Q)
| JStr (s : pystr)
| JArr (items : list json)
| JObj (fields : list (pystr * json)).

(** A [dict] keeps one value per key; in the list the first entry of a key is
    the one the dict holds. *)
Fixpoint dict_get {V} (d : list (pystr * V)) (k : pystr) : option V :=
  match d with
  | [] => None
  | (k', v) :: r => if str_eqb k' k then Some v else dict_get r k
  end.

Fixpoint dict_set {V} (d : list (pystr * V)) (k : pystr) (v : V)
  : list (pystr * V) :=
  match d with
  | [] => [(k, v)]
  | (k', v') :: r =>
      if str_eqb k' k then (k, v) :: r else (k', v') :: dict_set r k v
  end.

(** [x == 'literal'] where [x] is a JSON value. *)
Definition json_eq_str (x : json) (s : pystr) : bool :=
  match x with
  | JStr t => str_eqb t s
  | _ => false
  end.

(** [obj.get(key)] and [obj.get(key, default)]: only a [dict] has [get]. *)
Definition json_get (obj : json) (k : pystr) (default : json)
  : PyResult json :=
  match obj with
  | JObj d =>
      match dict_get d k with
      | Some v => Ok v
      | None => Ok default
      end
  | _ => Raise AttributeError
  end.

(** ['literal' in x]: substring of a [str], element of a [list], key of a
    [dict]; anything else is not iterable. *)
Definition json_contains (x : json) (s : pystr) : PyResult bool :=
  match x with
  | JStr t => Ok (str_contains t s)
  | JArr l => Ok (existsb (fun v => json_eq_str v s) l)
  | JObj d => Ok (existsb (fun kv => str_eqb (fst kv) s) d)
  | _ => Raise TypeError
  end.

(** [obj[key]] *)
Definition json_subscript (obj : json) (k : pystr) : PyResult json :=
  match obj with
  | JObj d =>
      match dict_get d k with
      | Some v => Ok v
      | None => Raise KeyError
      end
  | _ => Raise TypeError
  end.

(** ** Naive [datetime] values *)

Record datetime : Type := mkDatetime {
  dt_year : Z; dt_month : Z; dt_day : Z;
  dt_hour : Z; dt_minute : Z; dt_second : Z; dt_microsecond : Z }.

Definition is_leap (y : Z) : bool :=
  (y mod 4 =? 0) && (negb (y mod 100 =? 0) || (y mod 400 =? 0)).

Definition days_in_month (y m : Z) : Z :=
  if m =? 2 then (if is_leap y then 29 else 28)
  else if (m =? 4) || (m =? 6) || (m =? 9) || (m =? 11) then 30 else 31.

(** The range checks of the [datetime] constructor; a [datetime] of Python
    always passes them. *)
Definition datetime_valid (d : datetime) : bool :=
  (1 <=? dt_year d) && (dt_year d <=? 9999) &&
  (1 <=? dt_month d) && (dt_month d <=? 12) &&
  (1 <=? dt_day d) && (dt_day d <=? days_in_month (dt_year d) (dt_month d)) &&
  (0 <=? dt_hour d) && (dt_hour d <=? 23) &&
  (0 <=? dt_minute d) && (dt_minute d <=? 59) &&
  (0 <=? dt_second d) && (dt_second d <=? 59) &&
  (0 <=? dt_microsecond d) && (dt_microsecond d <=? 999999).

Definition opt_or {A} (o : option A) (a : A) : A :=
  match o with Some x => x | None => a end.

(** [d.replace(year=.., hour=.., minute=.., second=.., microsecond=..)]: the
    fields given replace the old ones and the result is range-checked. *)
Definition dt_replace (d : datetime) (year hour minute second microsecond : option Z)
  : PyResult datetime :=
  let d' := {| dt_year := opt_or year (dt_year d);
               dt_month := dt_month d;
               dt_day := dt_day d;
               dt_hour := opt_or hour (dt_hour d);
               dt_minute := opt_or minute (dt_minute d);
               dt_second := opt_or second (dt_second d);
               dt_microsecond := opt_or microsecond (dt_microsecond d) |} in
  if datetime_valid d' then Ok d' else Raise ValueError.

(** Days between 1970-01-01 and a civil date of the proleptic Gregorian
    calendar, and back. *)
Definition days_from_civil (y m d : Z) : Z :=
  let y' := if m <=? 2 then y - 1 else y in
  let era := y' / 400 in
  let yoe := y' - era * 400 in
  let mp := if 2 <? m then m - 3 else m + 9 in
  let doy := (153 * mp + 2) / 5 + d - 1 in
  let doe := yoe * 365 + yoe / 4 - yoe / 100 + doy in
  era * 146097 + doe - 719468.

Definition civil_from_days (z : Z) : Z * Z * Z :=
  let z' := z + 719468 in
  let era := z' / 146097 in
  let doe := z' - era * 146097 in
  let yoe := (doe - doe / 1460 + doe / 36524 - doe / 146096) / 365 in
  let doy := doe - (365 * yoe + yoe / 4 - yoe / 100) in
  let mp := (5 * doy + 2) / 153 in
  let d := doy - (153 * mp + 2) / 5 + 1 in
  let m := if mp <? 10 then mp + 3 else mp - 9 in
  ((yoe + era * 400 + (if m <=? 2 then 1 else 0), m), d).

Definition datetime_to_micros (d : datetime) : Z :=
  (((days_from_civil (dt_year d) (dt_month d) (dt_day d) * 24 + dt_hour d) * 60
    + dt_minute d) * 60 + dt_second d) * 1000000 + dt_microsecond d.

Definition datetime_of_micros (t : Z) : datetime :=
  let us := t mod 1000000 in
  let s := t / 1000000 in
  let days := s / 86400 in
  let sod := s mod 86400 in
  let '(y, m, d) := civil_from_days days in
  {| dt_year := y; dt_month := m; dt_day := d;
     dt_hour := sod / 3600; dt_minute := (sod mod 3600) / 60;
     dt_second := sod mod 60; dt_microsecond := us |}.

(** [d - timedelta(days=days, hours=hours)]: the [timedelta] must fit its
    day range and the result the years 1..9999, [OverflowError] otherwise. *)
Definition dt_sub_timedelta (d : datetime) (days hours : Z) : PyResult datetime :=
  let secs := days * 86400 + hours * 3600 in
  if (secs / 86400 <? -999999999) || (999999999 <? secs / 86400)
  then Raise OverflowError
  else
    let d' := datetime_of_micros (datetime_to_micros d - secs * 1000000) in
    if (1 <=? dt_year d') && (dt_year d' <=? 9999) then Ok d'
    else Raise OverflowError.

(** ** Numbers returned as timestamps *)

Definition num_eqb (a b : Q) : bool := Qeq_bool a b.
Definition num_ltb (a b : Q) : bool := negb (Qle_bool b a).
Definition num_geb (a b : Q) : bool := Qle_bool b a.

(** [min(l)] of a non-empty list, given as head and tail. *)
Fixpoint num_min (a : Q) (l : list Q) : Q :=
  match l with
  | [] => a
  | b :: r => num_min (if num_ltb b a then b else a) r
  end.

(** ** The data of the plugin *)

(** [class Settings(BaseModel)] *)
Record Settings : Type := mkSettings {
  order_age_hours : Z;
  max_orders_in_ticket : Z;
  sent_order_ids : list pystr }.

(** The defaults of the three fields. *)
Definition Settings_default : Settings :=
  {| order_age_hours := 24; max_orders_in_ticket := 10; sent_order_ids := [] |}.

(** The part of [FunPayAPI.account.Account] the plugin reads. *)
Record Account : Type := mkAccount {
  golden_key : pystr;
  user_agent : option pystr;
  requests_timeout : Z;
  username : pystr;
  locale : pystr }.

Inductive OrderStatuses : Type := PAID | CLOSED | REFUNDED.

Definition status_eqb (a b : OrderStatuses) : bool :=
  match a, b with
  | PAID, PAID | CLOSED, CLOSED | REFUNDED, REFUNDED => true
  | _, _ => false
  end.

(** What [parse_funpay_date] is given: a [datetime] or a string. *)
Inductive DateObj : Type :=
| DDatetime (d : datetime)
| DStr (s : pystr).

(** One entry of a sales page: [str(order_data.id)] and [order_data.date]. *)
Record OrderShortcut : Type := mkOrder {
  o_id : pystr;
  o_date : DateObj }.

(** The value of [acc.get_sales(...)]: [None] stands for a falsy result,
    otherwise [result[0]] (the next cursor) and [result[1]] (the page). *)
Definition SalesResult : Type := option (option pystr * list OrderShortcut).

(** ** HTTP requests and responses (the [requests] library) *)

Record Request : Type := mkRequest {
  rq_method : pystr;
  rq_url : pystr;
  rq_headers : list (pystr * json);
  rq_data : list (pystr * option pystr);
  rq_timeout : Z;
  rq_allow_redirects : option bool }.

(** Header names are kept in their canonical spelling, so the
    case-insensitive [headers.get] is a plain lookup. *)
Record Response : Type := mkResponse {
  status_code : Z;
  resp_headers : list (pystr * pystr);
  resp_cookies : list (pystr * pystr);
  resp_content : pystr }.

(** ** Telegram calls *)

(** The status line handed to [_main_text], by the place that builds it. *)
Inductive StatusText : Type :=
| StNoOldOrders                   (* the default argument *)
| StScanning
| StNoUnconfirmed
| StTicketSent (sent_count : Z) (reported : list pystr) (skipped_count : Z)
| StNoneAvailable
| StAllFailed (total_orders : Z).

(** [_main_text(status_text)] together with [_main_kb()]: the text shows the
    three counters of [SETTINGS] as they are when it is built. *)
Record MainText : Type := mkMainText {
  mt_max_orders : Z;
  mt_age_hours : Z;
  mt_sent_len : Z;
  mt_status : StatusText }.

(** The texts of the callback answers; the last one shows [sent_count]. *)
Inductive CallbackText : Type :=
| CbScanning
| CbEditFailed
| CbSent (sent_count : Z).

Inductive BotCall : Type :=
| EditMessageText (text : MainText)
| AnswerCallbackQuery (text : CallbackText) (show_alert : bool)
| SendMainMenu (text : MainText)
| SendMessage (text : pystr)
| ClearState.

(** ** The outside world *)

(** What the module does to its environment, in the order it does it. *)
Inductive Event : Type :=
| EvNow
| EvGetSales (start_from : option pystr)
| EvGetOrder (deal_id : pystr)
| EvSleep (seconds : Z)
| EvRequest (r : Request)
| EvSave (data : Settings)
| EvBot (c : BotCall).

(** The collaborators of the module. The stateful ones step a world of type
    [World]; every call may raise. The pure ones are library functions whose
    result depends on the platform (time zone, locale, Unicode tables) or on
    a parser that is not part of the plugin. *)
Record Env (World : Type) : Type := mkEnv {
  (* datetime.now() *)
  datetime_now : World -> World * datetime;
  (* datetime.timestamp() of a naive datetime *)
  dt_timestamp : datetime -> PyResult Q;
  (* datetime.strptime(string, format) *)
  dt_strptime : pystr -> pystr -> PyResult datetime;
  (* int(string); None is what a message without text carries *)
  py_int : option pystr -> PyResult Z;
  (* str.lower() *)
  str_lower : pystr -> pystr;
  (* acc.get_sales(start_from=.., state=PAID, locale=.., subcategories={}) *)
  acc_get_sales : World -> option pystr -> World * PyResult SalesResult;
  (* acc.get_order(deal_id).status *)
  acc_get_order : World -> pystr -> World * PyResult OrderStatuses;
  (* getattr(requests, method)(url, headers=.., data=.., timeout=..) *)
  requests_call : World -> Request -> World * PyResult Response;
  (* json.loads(BeautifulSoup(r.content.decode(), "lxml")
                  .find("body").get("data-app-config")) *)
  bs_app_config : Response -> PyResult json;
  (* BeautifulSoup(r.text, "html.parser")
       .find("input", attrs={"name": "ticket[_token]"}).get("value") *)
  bs_ticket_token : Response -> PyResult (option pystr);
  (* r.json() *)
  response_json : Response -> PyResult json;
  (* open(_SETTINGS_FILE, "w") and json.dump of the three fields *)
  settings_dump : World -> Settings -> World * PyResult unit;
  (* a call on the Telegram bot *)
  bot_call : World -> BotCall -> World * PyResult unit }.

Arguments datetime_now {World} _ _.
Arguments dt_timestamp {World} _ _.
Arguments dt_strptime {World} _ _ _.
Arguments py_int {World} _ _.
Arguments str_lower {World} _ _.
Arguments acc_get_sales {World} _ _ _.
Arguments acc_get_order {World} _ _ _.
Arguments requests_call {World} _ _ _.
Arguments bs_app_config {World} _ _.
Arguments bs_ticket_token {World} _ _.
Arguments response_json {World} _ _.
Arguments settings_dump {World} _ _ _.
Arguments bot_call {World} _ _ _.

(** The state a run threads: the world, the module-level [SETTINGS] object and
    the events so far (oldest first). *)
Record St (World : Type) : Type := mkSt {
  world : World;
  SETTINGS : Settings;
  trace : list Event }.
Arguments mkSt {World} _ _ _.
Arguments world {World} _.
Arguments SETTINGS {World} _.
Arguments trace {World} _.

(** How a computation ends: with a value, with an exception, or (for the
    one [while] loop) with its iteration budget used up. *)
Inductive Outcome (A : Type) : Type :=
| Val (a : A)
| Exn (e : PyExc)
| Fuel.
Arguments Val {A} a.
Arguments Exn {A} e.
Arguments Fuel {A}.

Definition M (World A : Type) : Type := St World -> Outcome A * St World.

Section Monad.
Context {World : Type}.

Definition ret {A} (a : A) : M World A := fun st => (Val a, st).

Definition bind {A B} (m : M World A) (k : A -> M World B) : M World B :=
  fun st =>
    match m st with
    | (Val a, st') => k a st'
    | (Exn e, st') => (Exn e, st')
    | (Fuel, st') => (Fuel, st')
    end.

Definition raise {A} (e : PyExc) : M World A := fun st => (Exn e, st).

Definition out_of_fuel {A} : M World A := fun st => (Fuel, st).

(** A pure library call. *)
Definition lift {A} (r : PyResult A) : M World A :=
  match r with
  | Ok a => ret a
  | Raise e => raise e
  end.

(** [try: m except: h]; every exception of the model is an [Exception]. *)
Definition try_except {A} (m : M World A) (h : PyExc -> M World A)
  : M World A :=
  fun st =>
    match m st with
    | (Exn e, st') => h e st'
    | r => r
    end.

Definition emit (ev : Event) : M World unit :=
  fun st => (Val tt, mkSt (world st) (SETTINGS st) (trace st ++ [ev])).

(** A call on a stateful collaborator: it is recorded, then the world
    steps and the call returns or raises. *)
Definition call {A} (ev : Event) (f : World -> World * PyResult A)
  : M World A :=
  fun st =>
    let '(w', r) := f (world st) in
    let st' := mkSt w' (SETTINGS st) (trace st ++ [ev]) in
    match r with
    | Ok a => (Val a, st')
    | Raise e => (Exn e, st')
    end.

Definition read_settings : M World Settings :=
  fun st => (Val (SETTINGS st), st).

Definition write_settings (s : Settings) : M World unit :=
  fun st => (Val tt, mkSt (world st) s (trace st)).
End Monad.

Notation "x <- m ;; k" := (bind m (fun x => k))
  (at level 61, m at next level, right associativity).
Notation "m ;;; k" := (bind m (fun _ => k))
  (at level 61, right associativity).

(** ** String constants of the module *)

Definition S_TODAY : pystr := Eval vm_compute in py "Сегодня".
Definition S_TODAY_AT : pystr := Eval vm_compute in py "Сегодня в ".
Definition S_YESTERDAY : pystr := Eval vm_compute in py "Вчера".
Definition S_YESTERDAY_AT : pystr := Eval vm_compute in py "Вчера в ".
Definition S_AT : pystr := Eval vm_compute in py " в ".
Definition S_COMMA : pystr := Eval vm_compute in py ",".
Definition S_COLON : pystr := Eval vm_compute in py ":".
Definition FMT_DAY_MONTH_AT : pystr := Eval vm_compute in py "%d %b в %H:%M".
Definition FMT_DAY_MONTH_COMMA : pystr := Eval vm_compute in py "%d %b, %H:%M".
Definition FMT_FULL : pystr := Eval vm_compute in py "%Y-%m-%d %H:%M:%S".

Definition S_ACTION : pystr := Eval vm_compute in py "action".
Definition S_MESSAGE : pystr := Eval vm_compute in py "message".
Definition S_URL : pystr := Eval vm_compute in py "url".
Definition S_SUCCESS_PHRASE : pystr := Eval vm_compute in py "заявка отправлена".
Definition S_TICKETS : pystr := Eval vm_compute in py "/tickets/".
Definition S_SLASH : pystr := Eval vm_compute in py "/".
Definition S_GET : pystr := Eval vm_compute in py "get".
Definition S_POST : pystr := Eval vm_compute in py "post".
Definition S_HEAD : pystr := Eval vm_compute in py "head".
Definition S_LOCATION : pystr := Eval vm_compute in py "Location".
Definition S_COOKIE : pystr := Eval vm_compute in py "Cookie".
Definition S_USER_AGENT : pystr := Eval vm_compute in py "User-Agent".
Definition S_PHPSESSID : pystr := Eval vm_compute in py "PHPSESSID".
Definition S_CSRF_KEY : pystr := Eval vm_compute in py "csrfToken".
Definition URL_ROOT : pystr := Eval vm_compute in py "https://support.funpay.com/".
Definition URL_NEW_TICKET : pystr :=
  Eval vm_compute in py "https://support.funpay.com/tickets/new/1".
Definition URL_CREATE_TICKET : pystr :=
  Eval vm_compute in py "https://support.funpay.com/tickets/create/1".
Definition S_BAD_HOURS : pystr :=
  Eval vm_compute in py "Неверно. Введите число 1–720.".
Definition S_BAD_COUNT : pystr :=
  Eval vm_compute in py "Неверно. Введите число 1–50.".

(** [old_orders_ids[:max_count]] *)
Definition py_slice_to {A} (l : list A) (n : Z) : list A :=
  if 0 <=? n then firstn (Z.to_nat n) l
  else firstn (length l - Z.to_nat (- n)) l.

Definition len {A} (l : list A) : Z := Z.of_nat (length l).

(** Truth value of a string or [None]. *)
Definition truthy (o : option pystr) : bool :=
  match o with
  | Some (_ :: _) => true
  | _ => false
  end.

(** [x in l] for a list of strings *)
Definition str_in (x : pystr) (l : list pystr) : bool :=
  existsb (str_eqb x) l.

(** [max_pages] of the scanner *)
Definition max_pages : Z := 10.

Section Program.
Context {World : Type} (env : Env World).

Local Abbreviation M := (M World).

Definition now : M datetime :=
  call EvNow (fun w => let '(w', d) := datetime_now env w in (w', Ok d)).

Definition sleep (seconds : Z) : M unit :=
  emit (EvSleep seconds).

(** *** Date normalizer *)

(** [h, m = map(int, parts)]: the conversions run as the unpacking asks
    for the items, and exactly two items are accepted. *)
Definition unpack_two_ints (parts : list pystr) : PyResult (Z * Z) :=
  match parts with
  | [] => Raise ValueError
  | a :: r =>
      rbind (py_int env (Some a)) (fun h =>
      match r with
      | [] => Raise ValueError
      | b :: r' =>
          rbind (py_int env (Some b)) (fun m =>
          match r' with
          | [] => Ok (h, m)
          | c :: _ => rbind (py_int env (Some c)) (fun _ => Raise ValueError)
          end)
      end)
  end.

(** The body of the [try] of [parse_funpay_date]. *)
Definition parse_date_string (date_str : pystr) (now0 : datetime) : M Q :=
  if startswith date_str S_TODAY then
    let t := str_replace date_str S_TODAY_AT [] in
    hm <- lift (unpack_two_ints (str_split t S_COLON)) ;;
    now1 <- now ;;
    d <- lift (dt_replace now1 None (Some (fst hm)) (Some (snd hm))
                          (Some 0) (Some 0)) ;;
    lift (dt_timestamp env d)
  else if startswith date_str S_YESTERDAY then
    let t := str_replace date_str S_YESTERDAY_AT [] in
    hm <- lift (unpack_two_ints (str_split t S_COLON)) ;;
    y0 <- lift (dt_sub_timedelta now0 1 0) ;;
    yesterday <- lift (dt_replace y0 None (Some 0) (Some 0) (Some 0) (Some 0)) ;;
    d <- lift (dt_replace yesterday None (Some (fst hm)) (Some (snd hm))
                          None None) ;;
    lift (dt_timestamp env d)
  else if str_contains date_str S_AT then
    p <- lift (dt_strptime env date_str FMT_DAY_MONTH_AT) ;;
    d <- lift (dt_replace p (Some (dt_year now0)) None None None None) ;;
    lift (dt_timestamp env d)
  else if str_contains date_str S_COMMA then
    p <- lift (dt_strptime env date_str FMT_DAY_MONTH_COMMA) ;;
    d <- lift (dt_replace p (Some (dt_year now0)) None None None None) ;;
    lift (dt_timestamp env d)
  else
    p <- lift (dt_strptime env date_str FMT_FULL) ;;
    lift (dt_timestamp env p).

Definition parse_funpay_date (date_obj : DateObj) : M Q :=
  match date_obj with
  | DDatetime d => lift (dt_timestamp env d)
  | DStr s =>
      let date_str := str_strip s in
      now0 <- now ;;
      try_except (parse_date_string date_str now0) (fun _ => ret 0%Q)
  end.

(** *** Order scanner *)

(** The [for order_data in result[1]] loop: the identifiers collected so
    far and the timestamps of the page, both extended at the end. *)
Fixpoint scan_page (cutoff_timestamp : Q) (max_count : Z)
         (page : list OrderShortcut)
         (old_orders_ids : list pystr) (batch_timestamps : list Q)
  : M (list pystr * list Q) :=
  match page with
  | [] => ret (old_orders_ids, batch_timestamps)
  | order_data :: rest =>
      order_timestamp <- parse_funpay_date (o_date order_data) ;;
      if num_eqb order_timestamp 0 then
        scan_page cutoff_timestamp max_count rest
                  old_orders_ids batch_timestamps
      else
        let batch_timestamps := batch_timestamps ++ [order_timestamp] in
        let order_id := o_id order_data in
        settings <- read_settings ;;
        let old_orders_ids :=
          if num_ltb order_timestamp cutoff_timestamp
             && negb (str_in order_id (sent_order_ids settings))
          then old_orders_ids ++ [order_id]
          else old_orders_ids in
        if len old_orders_ids >=? max_count
        then ret (old_orders_ids, batch_timestamps)
        else scan_page cutoff_timestamp max_count rest
                       old_orders_ids batch_timestamps
  end.

(** One pass through the body of the [while] loop: it ends by [break]
    or reaches the end of the body, with the locals as they are then. *)
Inductive LoopStep : Type :=
| Break (old_orders_ids : list pystr) (page_count : Z)
| Continue (old_orders_ids : list pystr) (start_from : option pystr)
           (page_count : Z).

Definition scan_body (cutoff_timestamp : Q) (max_count : Z)
           (old_orders_ids : list pystr) (start_from : option pystr)
           (page_count : Z) : M LoopStep :=
  fetched <- try_except
               (result <- call (EvGetSales start_from)
                               (fun w => acc_get_sales env w start_from) ;;
                ret (Some result))
               (fun _ => ret None) ;;
  match fetched with
  | None => ret (Break old_orders_ids page_count)
  | Some result =>
      let page_count := page_count + 1 in
      match result with
      | None | Some (_, []) => ret (Break old_orders_ids page_count)
      | Some (next, (_ :: _) as page) =>
          r <- scan_page cutoff_timestamp max_count page old_orders_ids [] ;;
          let old_orders_ids := fst r in
          let all_newer :=
            match snd r with
            | [] => false
            | t :: ts => num_geb (num_min t ts) cutoff_timestamp
            end in
          if all_newer then ret (Break old_orders_ids page_count)
          else if negb (truthy next)
          then ret (Break old_orders_ids page_count)
          else
            sleep 1 ;;;
            ret (Continue old_orders_ids next page_count)
      end
  end.

(** The [while] loop; [fuel] bounds its iterations. The result is
    [old_orders_ids] and [page_count] at the exit of the loop. *)
Fixpoint scan_pages (fuel : nat) (cutoff_timestamp : Q) (max_count : Z)
         (old_orders_ids : list pystr) (start_from : option pystr)
         (page_count : Z) : M (list pystr * Z) :=
  if (len old_orders_ids <? max_count) && (page_count <? max_pages) then
    match fuel with
    | O => out_of_fuel
    | S fuel' =>
        step <- scan_body cutoff_timestamp max_count
                          old_orders_ids start_from page_count ;;
        match step with
        | Break old_orders_ids page_count =>
            ret (old_orders_ids, page_count)
        | Continue old_orders_ids start_from page_count =>
            scan_pages fuel' cutoff_timestamp max_count
                       old_orders_ids start_from page_count
        end
    end
  else ret (old_orders_ids, page_count).

Definition get_old_orders_for_ticket (age_hours max_count : Z)
  : M (list pystr) :=
  now0 <- now ;;
  cutoff <- lift (dt_sub_timedelta now0 0 age_hours) ;;
  cutoff_timestamp <- lift (dt_timestamp env cutoff) ;;
  r <- scan_pages (Z.to_nat max_pages) cutoff_timestamp max_count [] None 0 ;;
  ret (py_slice_to (fst r) max_count).

(** *** Support client *)

(** [class FunPaySupportAPI] *)
Record FunPaySupportAPI : Type := mkAPI {
  funpay_account : Account;
  api_golden_key : pystr;
  api_user_agent : option pystr;
  api_requests_timeout : Z;
  app_data : json;
  csrf_token : json;
  phpsessid : pystr }.

Definition FunPaySupportAPI_init (acc : Account) : FunPaySupportAPI :=
  {| funpay_account := acc;
     api_golden_key := golden_key acc;
     api_user_agent := user_agent acc;
     api_requests_timeout := requests_timeout acc;
     app_data := JObj [];
     csrf_token := JStr [];
     phpsessid := [] |}.

Definition set_phpsessid (self : FunPaySupportAPI) (v : pystr) :=
  {| funpay_account := funpay_account self;
     api_golden_key := api_golden_key self;
     api_user_agent := api_user_agent self;
     api_requests_timeout := api_requests_timeout self;
     app_data := app_data self;
     csrf_token := csrf_token self;
     phpsessid := v |}.

Definition set_app_data (self : FunPaySupportAPI) (data token : json) :=
  {| funpay_account := funpay_account self;
     api_golden_key := api_golden_key self;
     api_user_agent := api_user_agent self;
     api_requests_timeout := api_requests_timeout self;
     app_data := data;
     csrf_token := token;
     phpsessid := phpsessid self |}.

Definition request (r : Request) : M Response :=
  call (EvRequest r) (fun w => requests_call env w r).

(** The [Cookie] header [method] sets. *)
Definition cookie_header (self : FunPaySupportAPI) (exclude_phpsessid : bool)
  : pystr :=
  py "golden_key=" ++ api_golden_key self ++ py "; cookie_prefs=1" ++
  (if truthy (Some (phpsessid self)) && negb exclude_phpsessid
   then py "; PHPSESSID=" ++ phpsessid self else []).

Definition method_headers (self : FunPaySupportAPI)
           (headers : list (pystr * json)) (exclude_phpsessid : bool)
  : list (pystr * json) :=
  let headers :=
    dict_set headers S_COOKIE (JStr (cookie_header self exclude_phpsessid)) in
  if truthy (api_user_agent self)
  then dict_set headers S_USER_AGENT (JStr (opt_or (api_user_agent self) []))
  else headers.

(** The test that ends the redirect loop:
    [not (300 <= status < 400) or not Location or Location == '/']. *)
Definition stops_following (response : Response) : bool :=
  negb ((300 <=? status_code response) && (status_code response <? 400))
  || negb (truthy (dict_get (resp_headers response) S_LOCATION))
  || str_eqb (opt_or (dict_get (resp_headers response) S_LOCATION) []) S_SLASH.

(** The [for i in range(10)] loop of [method]: [Some response] when it
    ends by [break], [None] when the range is used up (the [else]). *)
Fixpoint follow_redirects (hops : nat) (mk : pystr -> Request) (link : pystr)
  : M (option Response) :=
  match hops with
  | O => ret None
  | S hops' =>
      response <- request (mk link) ;;
      if stops_following response then ret (Some response)
      else follow_redirects hops' mk
             (opt_or (dict_get (resp_headers response) S_LOCATION) [])
  end.

(** The call inside the loop, with [allow_redirects=False]. *)
Definition hop_request (self : FunPaySupportAPI) (meth : pystr)
           (headers : list (pystr * json))
           (payload : list (pystr * option pystr)) (link : pystr) : Request :=
  {| rq_method := meth; rq_url := link; rq_headers := headers;
     rq_data := payload; rq_timeout := api_requests_timeout self;
     rq_allow_redirects := Some false |}.

(** The call of the [else] clause: [allow_redirects] is not passed. *)
Definition final_request (self : FunPaySupportAPI) (meth : pystr)
           (headers : list (pystr * json))
           (payload : list (pystr * option pystr)) (url : pystr) : Request :=
  {| rq_method := meth; rq_url := url; rq_headers := headers;
     rq_data := payload; rq_timeout := api_requests_timeout self;
     rq_allow_redirects := None |}.

Definition method (self : FunPaySupportAPI) (meth url : pystr)
           (headers : list (pystr * json))
           (payload : list (pystr * option pystr))
           (exclude_phpsessid : bool) : M Response :=
  let headers := method_headers self headers exclude_phpsessid in
  r <- follow_redirects 10 (hop_request self meth headers payload) url ;;
  match r with
  | Some response => ret response
  | None => request (final_request self meth headers payload url)
  end.

(** [FunPaySupportAPI.get] *)
Definition api_get (self : FunPaySupportAPI) : M FunPaySupportAPI :=
  r <- method self S_GET URL_ROOT [] [] true ;;
  let self :=
    set_phpsessid self
      (opt_or (dict_get (resp_cookies r) S_PHPSESSID) (phpsessid self)) in
  r <- method self S_GET URL_ROOT [] [] false ;;
  data <- lift (bs_app_config env r) ;;
  token <- lift (json_subscript data S_CSRF_KEY) ;;
  ret (set_app_data self data token).

Definition get_ticket_token (self : FunPaySupportAPI) : M (option pystr) :=
  let headers :=
    [ (py "X-CSRF-Token", csrf_token self);
      (py "Accept", JStr (py "text/html,application/xhtml+xml,application/xml;q=0.9,image/avif,image/webp,image/apng,*/*;q=0.8,application/signed-exchange;v=b3;q=0.7"));
      (py "Accept-Encoding", JStr (py "gzip, deflate, br, zstd"));
      (py "Referer", JStr URL_ROOT) ] in
  r <- method self S_GET URL_NEW_TICKET headers [] false ;;
  lift (bs_ticket_token env r).

Definition create_ticket (self : FunPaySupportAPI) (order_id : option pystr)
           (comment : pystr) : M json :=
  ticket_token <- get_ticket_token self ;;
  let headers :=
    [ (py "Origin", JStr (py "https://support.funpay.com"));
      (py "Accept", JStr (py "application/json"));
      (py "Content-Type",
       JStr (py "application/x-www-form-urlencoded; charset=UTF-8"));
      (py "X-Requested-With", JStr (py "XMLHttpRequest")) ] in
  let payload :=
    [ (py "ticket[fields][1]", Some (username (funpay_account self)));
      (py "ticket[fields][2]",
       Some (if truthy order_id then opt_or order_id [] else []));
      (py "ticket[fields][3]", Some (py "2"));
      (py "ticket[fields][5]", Some (py "201"));
      (py "ticket[comment][body_html]", Some (py "<p>" ++ comment ++ py "</p>"));
      (py "ticket[comment][attachments]", Some []);
      (py "ticket[_token]", ticket_token) ] in
  r <- method self S_POST URL_CREATE_TICKET headers payload false ;;
  lift (response_json env r).

(** *** One order *)

(** [x.lower()] of a JSON value: only a [str] has [lower]. *)
Definition json_lower (x : json) : PyResult pystr :=
  match x with
  | JStr s => Ok (str_lower env s)
  | _ => Raise AttributeError
  end.

(** The condition of the [if] on the ticket response, with the
    left-to-right evaluation of [and]. *)
Definition response_is_success (response_json : json) : PyResult bool :=
  rbind (json_get response_json S_ACTION JNull) (fun action =>
  if json_eq_str action S_MESSAGE then
    rbind (json_get response_json S_MESSAGE (JStr [])) (fun message =>
    rbind (json_lower message) (fun lowered =>
    if str_contains lowered S_SUCCESS_PHRASE then
      rbind (json_get response_json S_URL (JStr [])) (fun url =>
      json_contains url S_TICKETS)
    else Ok false))
  else Ok false).

Definition ticket_comment (deal_id : pystr) : pystr :=
  py "Покупатель не подтверждает выполнение заказа #" ++ deal_id ++ py ".".

(** The inner [try]: [true] when the order is still [PAID]. *)
Definition order_still_paid (deal_id : pystr) : M bool :=
  try_except
    (status <- call (EvGetOrder deal_id)
                    (fun w => acc_get_order env w deal_id) ;;
     ret (status_eqb status PAID))
    (fun _ => ret false).

Definition _report_deal_problem_raw (acc : Account) (deal_id : pystr)
  : M bool :=
  try_except
    (paid <- order_still_paid deal_id ;;
     if negb paid then ret false
     else
       support_api <- api_get (FunPaySupportAPI_init acc) ;;
       response <- create_ticket support_api (Some deal_id)
                                 (ticket_comment deal_id) ;;
       lift (response_is_success response))
    (fun _ => ret false).

(** *** The batch *)

(** The [for i, deal_id in enumerate(orders_ids)] loop from index [i]. *)
Fixpoint report_from (acc : Account) (i : Z) (orders_ids : list pystr)
         (reported_successfully : list pystr) : M (list pystr) :=
  match orders_ids with
  | [] => ret reported_successfully
  | deal_id :: rest =>
      (if 0 <? i then sleep 2 else ret tt) ;;;
      success <- _report_deal_problem_raw acc deal_id ;;
      report_from acc (i + 1) rest
                  (if success then reported_successfully ++ [deal_id]
                   else reported_successfully)
  end.

Definition report_deal_problems (acc : Account) (orders_ids : list pystr)
  : M (list pystr) :=
  report_from acc 0 orders_ids [].

(** *** Settings and the Telegram handlers *)

(** [Settings.save] of the [SETTINGS] object *)
Definition SETTINGS_save : M unit :=
  s <- read_settings ;;
  call (EvSave s) (fun w => settings_dump env w s).

Definition bot (c : BotCall) : M unit :=
  call (EvBot c) (fun w => bot_call env w c).

Definition _main_text (status_text : StatusText) : M MainText :=
  s <- read_settings ;;
  ret {| mt_max_orders := max_orders_in_ticket s;
         mt_age_hours := order_age_hours s;
         mt_sent_len := len (sent_order_ids s);
         mt_status := status_text |}.

Definition _edit (text : MainText) : M unit :=
  try_except (bot (EditMessageText text))
             (fun _ => bot (AnswerCallbackQuery CbEditFailed true)).

(** The last statement of [act_send_ticket]. *)
Definition merge_reported (reported_orders : list pystr) : M unit :=
  if 0 <? len reported_orders then
    s <- read_settings ;;
    write_settings {| order_age_hours := order_age_hours s;
                      max_orders_in_ticket := max_orders_in_ticket s;
                      sent_order_ids := sent_order_ids s ++ reported_orders |} ;;;
    SETTINGS_save
  else ret tt.

(** [act_send_ticket]; the value is the pair of its locals [orders] and
    [reported_orders] (the function itself returns [None]). *)
Definition act_send_ticket (acc : Account) : M (list pystr * list pystr) :=
  bot (AnswerCallbackQuery CbScanning false) ;;;
  text <- _main_text StScanning ;;
  _edit text ;;;
  s <- read_settings ;;
  orders <- get_old_orders_for_ticket (order_age_hours s)
                                      (max_orders_in_ticket s) ;;
  match orders with
  | [] =>
      text <- _main_text StNoUnconfirmed ;;
      _edit text ;;;
      ret ([], [])
  | _ :: _ =>
      reported_orders <- report_deal_problems acc orders ;;
      let total_orders := len orders in
      let sent_count := len reported_orders in
      let skipped_count := total_orders - sent_count in
      let success_text :=
        if 0 <? sent_count
        then StTicketSent sent_count reported_orders skipped_count
        else if skipped_count =? total_orders then StNoneAvailable
        else StAllFailed total_orders in
      text <- _main_text success_text ;;
      _edit text ;;;
      try_except (bot (AnswerCallbackQuery (CbSent sent_count) true))
                 (fun _ => ret tt) ;;;
      merge_reported reported_orders ;;;
      ret (orders, reported_orders)
  end.

(** The message handler [act_edit_time] installs; [text] is [m.text]. *)
Definition edit_time_handler (text : option pystr) : M unit :=
  try_except
    (val <- lift (py_int env text) ;;
     if (1 <=? val) && (val <=? 720) then
       s <- read_settings ;;
       write_settings {| order_age_hours := val;
                         max_orders_in_ticket := max_orders_in_ticket s;
                         sent_order_ids := sent_order_ids s |} ;;;
       SETTINGS_save ;;;
       t <- _main_text StNoOldOrders ;;
       bot (SendMainMenu t)
     else raise ValueError)
    (fun _ => bot (SendMessage S_BAD_HOURS)) ;;;
  bot ClearState.

(** The message handler [act_edit_count] installs. *)
Definition edit_count_handler (text : option pystr) : M unit :=
  try_except
    (val <- lift (py_int env text) ;;
     if (1 <=? val) && (val <=? 50) then
       s <- read_settings ;;
       write_settings {| order_age_hours := order_age_hours s;
                         max_orders_in_ticket := val;
                         sent_order_ids := sent_order_ids s |} ;;;
       SETTINGS_save ;;;
       t <- _main_text StNoOldOrders ;;
       bot (SendMainMenu t)
     else raise ValueError)
    (fun _ => bot (SendMessage S_BAD_COUNT)) ;;;
  bot ClearState.
End Program.

Arguments parse_funpay_date : simpl never.
Arguments scan_body : simpl never.
Arguments max_pages : simpl never.
Arguments get_old_orders_for_ticket : simpl never.
Arguments _report_deal_problem_raw : simpl never.
Arguments method : simpl never.

(** * Observations on runs *)

Definition is_get_sales (ev : Event) : bool :=
  match ev with EvGetSales _ => true | _ => false end.

Definition is_get_order (ev : Event) : bool :=
  match ev with EvGetOrder _ => true | _ => false end.

Definition is_save (ev : Event) : bool :=
  match ev with EvSave _ => true | _ => false end.

Definition is_request (ev : Event) : bool :=
  match ev with EvRequest _ => true | _ => false end.

Definition never_p (ev : Event) : bool := false.

(** The number of page fetches in a trace. *)
Definition fetches (tr : list Event) : nat := length (filter is_get_sales tr).

(** [m] does not assign [SETTINGS] and emits no event selected by [p]. *)
Definition keeps {World A} (p : Event -> bool) (m : M World A) : Prop :=
  forall st,
    SETTINGS (snd (m st)) = SETTINGS st /\
    filter p (trace (snd (m st))) = filter p (trace st).

(** [m] does not assign [SETTINGS] and emits, of the events selected by
    [p], exactly [evs]. *)
Definition emits {World A} (p : Event -> bool) (evs : list Event)
           (m : M World A) : Prop :=
  forall st,
    SETTINGS (snd (m st)) = SETTINGS st /\
    filter p (trace (snd (m st))) = filter p (trace st) ++ evs.

(** [m] never ends for lack of fuel. *)
Definition finishes {World A} (m : M World A) : Prop :=
  forall st, fst (m st) <> Fuel.

(** [m] always returns a value. *)
Definition returns {World A} (m : M World A) : Prop :=
  forall st, exists a st', m st = (Val a, st').

(** No identifier of [ids] is in the sent list of [s]. *)
Definition all_unsent (s : Settings) (ids : list pystr) : Prop :=
  forall id, In id ids -> str_in id (sent_order_ids s) = false.

Definition step_ids (s : LoopStep) : list pystr :=
  match s with Break o _ => o | Continue o _ _ => o end.

(** [sub] is [l] with some elements left out, order and multiplicity kept. *)
Inductive subseq {A : Type} : list A -> list A -> Prop :=
| subseq_nil : subseq [] []
| subseq_skip x sub l : subseq sub l -> subseq sub (x :: l)
| subseq_take x sub l : subseq sub l -> subseq (x :: sub) (x :: l).

(** What the scan loop promises from a state [st] with the locals [old] and
    [pc], for a run that ends in [(o, st')]: [SETTINGS] is untouched, at most
    [max_pages - pc] more pages are fetched, enough fuel ends the loop, and
    identifiers outside the sent list stay so. *)
Definition loop_post {World} (fuel : nat) (old : list pystr) (pc : Z)
           (st : St World) (o : Outcome (list pystr * Z)) (st' : St World)
  : Prop :=
  SETTINGS st' = SETTINGS st /\
  (fetches (trace st') <= fetches (trace st) + Z.to_nat (max_pages - pc))%nat /\
  ((Z.to_nat (max_pages - pc) <= fuel)%nat -> o <> Fuel) /\
  (all_unsent (SETTINGS st) old ->
   forall r, o = Val r -> all_unsent (SETTINGS st) (fst r)).

(** Whether a run touched the ledger: [None] when [SETTINGS] and the saves
    are as before, [Some reported] when [reported] was appended and saved. *)
Definition ledger_step {World} (st st' : St World) (touched : option (list pystr))
  : Prop :=
  match touched with
  | None =>
      SETTINGS st' = SETTINGS st /\
      filter is_save (trace st') = filter is_save (trace st)
  | Some reported =>
      reported <> [] /\
      SETTINGS st' =
      mkSettings (order_age_hours (SETTINGS st))
                 (max_orders_in_ticket (SETTINGS st))
                 (sent_order_ids (SETTINGS st) ++ reported) /\
      filter is_save (trace st')
      = filter is_save (trace st) ++ [EvSave (SETTINGS st')]
  end.

(** The Orchestrator run on a candidate list followed by the merge that
    [act_send_ticket] performs on its result. *)
Definition escalate_and_merge {World} (env : Env World) (acc : Account)
           (orders_ids : list pystr) : M World unit :=
  reported <- report_deal_problems env acc orders_ids ;;
  merge_reported env reported.

(** * The reading of the ticket response *)

(** The [if] on the response (lines 241-246) under the [except Exception]
    of [_report_deal_problem_raw]: what the step returns once the response
    is there. *)
Definition read_ticket_response {World} (env : Env World) (response : json)
  : M World bool :=
  try_except (lift (response_is_success env response)) (fun _ => ret false).

(** "The url field contains the substring", as the specification says it. *)
Definition url_has_ticket_path (u : json) : Prop :=
  exists s, u = JStr s /\ str_contains s S_TICKETS = true.

(** What the [in] of the code accepts for the url field. *)
Definition url_holds_ticket_path (u : json) : Prop :=
  url_has_ticket_path u \/
  (exists l, u = JArr l /\ In (JStr S_TICKETS) l) \/
  (exists o v, u = JObj o /\ In (S_TICKETS, v) o).

(** A response whose action is "message", whose message holds the success
    phrase when lowered and whose url passes [url_ok]. *)
Definition success_shape {World} (env : Env World) (url_ok : json -> Prop)
           (response : json) : Prop :=
  exists d m u,
    response = JObj d /\
    dict_get d S_ACTION = Some (JStr S_MESSAGE) /\
    dict_get d S_MESSAGE = Some (JStr m) /\
    str_contains (str_lower env m) S_SUCCESS_PHRASE = true /\
    dict_get d S_URL = Some u /\
    url_ok u.

(** A success message whose url field is a list. *)
Definition json_url_list : json :=
  JObj [ (S_ACTION, JStr S_MESSAGE);
         (S_MESSAGE, JStr S_SUCCESS_PHRASE);
         (S_URL, JArr [JStr S_TICKETS]) ].

(** * The redirect walk *)

(** The requests of a trace, in order. *)
Definition requests_of (tr : list Event) : list Request :=
  flat_map (fun ev => match ev with EvRequest r => [r] | _ => [] end) tr.

(** Whether the [requests] library follows redirects for a call: as told by
    [allow_redirects], and by default for every verb but [head]. *)
Definition follows_redirects (r : Request) : bool :=
  match rq_allow_redirects r with
  | Some b => b
  | None => negb (str_eqb (rq_method r) S_HEAD)
  end.

Definition location (response : Response) : pystr :=
  opt_or (dict_get (resp_headers response) S_LOCATION) [].

(** [followed env mk n w link reqs w' link']: from the world [w], [n] calls
    in a row, the first to [link], were each answered by a redirect the loop
    follows; they are [reqs], and the walk stands at [link'] in [w']. *)
Inductive followed {World} (env : Env World) (mk : pystr -> Request)
  : nat -> World -> pystr -> list Request -> World -> pystr -> Prop :=
| followed_0 w link : followed env mk 0 w link [] w link
| followed_S n w link w1 response reqs w2 link2 :
    requests_call env w (mk link) = (w1, Ok response) ->
    stops_following response = false ->
    followed env mk n w1 (location response) reqs w2 link2 ->
    followed env mk (S n) w link (mk link :: reqs) w2 link2.

(** A portal that answers every request with a redirect to "/next". *)
Definition response_302 : Response :=
  {| status_code := 302; resp_headers := [(S_LOCATION, py "/next")];
     resp_cookies := []; resp_content := [] |}.

(** * A scripted environment

    The collaborators as test doubles over a world without state: the order
    source, the order lookup and the HTTP transport answer from fixed tables,
    the clock stands still. The library functions are given for the inputs the
    examples use: timestamps in UTC, [int] on ASCII decimal digits,
    [strptime] on the zero-padded full form only, [lower] on the Latin and
    Cyrillic capitals. *)

Definition utc_timestamp (d : datetime) : PyResult Q :=
  Ok (Qmake (datetime_to_micros d) 1000000).

Definition is_digit (c : N) : bool := ((48 <=? c) && (c <=? 57))%N.

(** Decimal digits, single underscores allowed between two digits. *)
Fixpoint digits_value (s : pystr) (acc : Z) (after_digit : bool) : option Z :=
  match s with
  | [] => if after_digit then Some acc else None
  | c :: r =>
      if is_digit c then digits_value r (acc * 10 + (Z.of_N c - 48)) true
      else if (c =? 95)%N && after_digit then
        match r with
        | [] => None
        | _ :: _ => digits_value r acc false
        end
      else None
  end.

Definition int_ascii (x : option pystr) : PyResult Z :=
  match x with
  | None => Raise TypeError
  | Some s =>
      let t := str_strip s in
      let '(neg, body) :=
        match t with
        | 45%N :: r => (true, r)
        | 43%N :: r => (false, r)
        | _ => (false, t)
        end in
      match digits_value body 0 false with
      | Some v => Ok (if neg then - v else v)
      | None => Raise ValueError
      end
  end.

Definition lower_cp (c : N) : N :=
  if ((65 <=? c) && (c <=? 90))%N then (c + 32)%N
  else if ((1040 <=? c) && (c <=? 1071))%N then (c + 32)%N
  else if ((1024 <=? c) && (c <=? 1039))%N then (c + 80)%N
  else c.

Definition lower_basic (s : pystr) : pystr := map lower_cp s.

(** The value of a run of ASCII digits of the given length. *)
Fixpoint fixed_digits (n : nat) (s : pystr) (acc : Z) : option (Z * pystr) :=
  match n with
  | O => Some (acc, s)
  | S n' =>
      match s with
      | c :: r =>
          if is_digit c then fixed_digits n' r (acc * 10 + (Z.of_N c - 48))
          else None
      | [] => None
      end
  end.

Definition expect (c : N) (s : pystr) : option pystr :=
  match s with
  | c' :: r => if (c =? c')%N then Some r else None
  | [] => None
  end.

Definition obind {A B} (o : option A) (k : A -> option B) : option B :=
  match o with Some a => k a | None => None end.

(** [YYYY-MM-DD HH:MM:SS], every field zero-padded. *)
Definition parse_iso (s : pystr) : option datetime :=
  obind (fixed_digits 4 s 0) (fun '(y, s) =>
  obind (expect 45 s) (fun s =>
  obind (fixed_digits 2 s 0) (fun '(mo, s) =>
  obind (expect 45 s) (fun s =>
  obind (fixed_digits 2 s 0) (fun '(d, s) =>
  obind (expect 32 s) (fun s =>
  obind (fixed_digits 2 s 0) (fun '(h, s) =>
  obind (expect 58 s) (fun s =>
  obind (fixed_digits 2 s 0) (fun '(mi, s) =>
  obind (expect 58 s) (fun s =>
  obind (fixed_digits 2 s 0) (fun '(sec, s) =>
  match s with
  | [] => Some (mkDatetime y mo d h mi sec 0)
  | _ :: _ => None
  end))))))))))).

Definition strptime_iso (s fmt : pystr) : PyResult datetime :=
  if str_eqb fmt FMT_FULL then
    match parse_iso s with
    | Some d => if datetime_valid d then Ok d else Raise ValueError
    | None => Raise ValueError
    end
  else Raise ValueError.

Record Script : Type := mkScript {
  sc_now : datetime;
  sc_sales : option pystr -> PyResult SalesResult;
  sc_order : pystr -> PyResult OrderStatuses;
  sc_http : Request -> PyResult Response;
  sc_app_config : Response -> PyResult json;
  sc_ticket_token : Response -> PyResult (option pystr);
  sc_json : Response -> PyResult json;
  sc_dump : Settings -> PyResult unit;
  sc_bot : BotCall -> PyResult unit }.

Definition script_env (sc : Script) : Env unit :=
  {| datetime_now := fun w => (w, sc_now sc);
     dt_timestamp := utc_timestamp;
     dt_strptime := strptime_iso;
     py_int := int_ascii;
     str_lower := lower_basic;
     acc_get_sales := fun w c => (w, sc_sales sc c);
     acc_get_order := fun w i => (w, sc_order sc i);
     requests_call := fun w r => (w, sc_http sc r);
     bs_app_config := sc_app_config sc;
     bs_ticket_token := sc_ticket_token sc;
     response_json := sc_json sc;
     settings_dump := fun w s => (w, sc_dump sc s);
     bot_call := fun w c => (w, sc_bot sc c) |}.

(** The response of a successful submission (scenario C of the spec). *)
Definition json_ticket_sent : json :=
  JObj [ (S_ACTION, JStr S_MESSAGE);
         (S_MESSAGE, JStr (py "Заявка отправлена"));
         (S_URL, JStr (py "/tickets/55")) ].

Definition json_error : json :=
  JObj [ (S_ACTION, JStr (py "error")); (S_MESSAGE, JStr (py "...")) ].

Definition response_200 : Response :=
  {| status_code := 200; resp_headers := []; resp_cookies := [];
     resp_content := [] |}.

(** Noon of 10 May 2024. *)
Definition noon : datetime := mkDatetime 2024 5 10 12 0 0 0.

(** A portal where everything works and every ticket is accepted, and an
    order source with one page of three orders, 30, 2 and 40 hours old
    (scenario A of the spec). *)
Definition page_A : list OrderShortcut :=
  [ mkOrder (py "A30") (DDatetime (mkDatetime 2024 5 9 6 0 0 0));
    mkOrder (py "B02") (DStr (py "2024-05-10 10:00:00"));
    mkOrder (py "C40") (DDatetime (mkDatetime 2024 5 8 20 0 0 0)) ].

Definition happy : Script :=
  {| sc_now := noon;
     sc_sales := fun _ => Ok (Some (None, page_A));
     sc_order := fun _ => Ok PAID;
     sc_http := fun _ => Ok response_200;
     sc_app_config := fun _ => Ok (JObj [(S_CSRF_KEY, JStr (py "csrf"))]);
     sc_ticket_token := fun _ => Ok (Some (py "token"));
     sc_json := fun _ => Ok json_ticket_sent;
     sc_dump := fun _ => Ok tt;
     sc_bot := fun _ => Ok tt |}.

(** A portal that fails differently for each order: the lookup of "bad1"
    raises, "bad2" is no longer paid, and the transport breaks for every
    request that carries "bad3". *)
Definition mentions (needle : pystr) (r : Request) : bool :=
  existsb (fun kv => str_contains (opt_or (snd kv) []) needle) (rq_data r).

Definition flaky : Script :=
  {| sc_now := noon;
     sc_sales := fun _ => Ok (Some (None, page_A));
     sc_order := fun i =>
       if str_eqb i (py "bad1") then Raise (OtherError "RequestFailedError")
       else if str_eqb i (py "bad2") then Ok CLOSED else Ok PAID;
     sc_http := fun r =>
       if mentions (py "bad3") r then Raise (OtherError "ConnectionError")
       else Ok response_200;
     sc_app_config := fun _ => Ok (JObj [(S_CSRF_KEY, JStr (py "csrf"))]);
     sc_ticket_token := fun _ => Ok (Some (py "token"));
     sc_json := fun _ => Ok json_ticket_sent;
     sc_dump := fun _ => Ok tt;
     sc_bot := fun _ => Ok tt |}.

(** The portal of [happy] with every order already closed. *)
Definition all_closed : Script :=
  {| sc_now := noon;
     sc_sales := sc_sales happy;
     sc_order := fun _ => Ok CLOSED;
     sc_http := sc_http happy;
     sc_app_config := sc_app_config happy;
     sc_ticket_token := sc_ticket_token happy;
     sc_json := sc_json happy;
     sc_dump := sc_dump happy;
     sc_bot := sc_bot happy |}.

Definition redirecting : Script :=
  {| sc_now := noon;
     sc_sales := sc_sales happy;
     sc_order := sc_order happy;
     sc_http := fun _ => Ok response_302;
     sc_app_config := sc_app_config happy;
     sc_ticket_token := sc_ticket_token happy;
     sc_json := sc_json happy;
     sc_dump := sc_dump happy;
     sc_bot := sc_bot happy |}.

(** An order source that never ends: every page holds the one order A30
    and names a next page. *)
Definition endless : Script :=
  {| sc_now := noon;
     sc_sales := fun _ =>
       Ok (Some (Some (py "next"),
                 [mkOrder (py "A30") (DDatetime (mkDatetime 2024 5 9 6 0 0 0))]));
     sc_order := sc_order happy;
     sc_http := sc_http happy;
     sc_app_config := sc_app_config happy;
     sc_ticket_token := sc_ticket_token happy;
     sc_json := sc_json happy;
     sc_dump := sc_dump happy;
     sc_bot := sc_bot happy |}.

Definition test_account : Account :=
  {| golden_key := py "key"; user_agent := Some (py "agent");
     requests_timeout := 10; username := py "seller"; locale := py "ru" |}.

Definition start (s : Settings) : St unit := mkSt tt s [].

Definition test_api : FunPaySupportAPI := FunPaySupportAPI_init test_account.

Definition test_hop : pystr -> Request :=
  hop_request test_api S_GET (method_headers test_api [] false) [].

Definition test_final : Request :=
  final_request test_api S_GET (method_headers test_api [] false) [] URL_ROOT.

Definition st0 : St unit := start Settings_default.

(** * The date forms the specification lists

    Written from the words of the specification, to be compared with what
    [parse_funpay_date] accepts: "Today at HH:MM", "Yesterday at HH:MM",
    "D Mon at HH:MM", "D Mon, HH:MM" and "YYYY-MM-DD HH:MM:SS". A number
    field is read generously (one or two digits where the form has two
    letters), a month name is any run of letters. *)

Inductive Pat : Type :=
| PLit (s : pystr)
| PDigits (lo hi : nat)
| PWord.

(** The longest prefix of at most [n] characters that satisfy [f]. *)
Fixpoint take_while (f : N -> bool) (n : nat) (s : pystr) : pystr * pystr :=
  match n, s with
  | S n', c :: r =>
      if f c then let '(a, b) := take_while f n' r in (c :: a, b)
      else ([], s)
  | _, _ => ([], s)
  end.

Definition is_letter (c : N) : bool :=
  negb (is_space c || is_digit c || (c =? 44)%N || (c =? 58)%N).

Fixpoint match_pats (ps : list Pat) (s : pystr) : bool :=
  match ps with
  | [] => match s with [] => true | _ :: _ => false end
  | PLit l :: ps' =>
      startswith s l && match_pats ps' (skipn (length l) s)
  | PDigits lo hi :: ps' =>
      let '(a, b) := take_while is_digit hi s in
      (lo <=? length a)%nat && match_pats ps' b
  | PWord :: ps' =>
      let '(a, b) := take_while is_letter (length s) s in
      (1 <=? length a)%nat && match_pats ps' b
  end.

Definition P_HH_MM : list Pat := [PDigits 1 2; PLit S_COLON; PDigits 1 2].

Definition supported_forms : list (list Pat) :=
  [ PLit S_TODAY_AT :: P_HH_MM;
    PLit S_YESTERDAY_AT :: P_HH_MM;
    [PDigits 1 2; PLit [32%N]; PWord; PLit S_AT] ++ P_HH_MM;
    [PDigits 1 2; PLit [32%N]; PWord; PLit [44%N; 32%N]] ++ P_HH_MM;
    [ PDigits 4 4; PLit [45%N]; PDigits 1 2; PLit [45%N]; PDigits 1 2;
      PLit [32%N]; PDigits 1 2; PLit S_COLON; PDigits 1 2; PLit S_COLON;
      PDigits 1 2 ] ].

Definition supported_shape (s : pystr) : bool :=
  existsb (fun ps => match_pats ps (str_strip s)) supported_forms.

(** A string that starts like a date of today and repeats the prefix. *)
Definition today_twice : pystr :=
  Eval vm_compute in py "Сегодня в Сегодня в 12:30".

(** * The selection of the scanner, for pages dated by [datetime] *)

Definition is_sleep (ev : Event) : bool :=
  match ev with EvSleep _ => true | _ => false end.

(** Everything but a clock reading, a page fetch and a sleep. *)
Definition is_outside_scan (ev : Event) : bool :=
  match ev with
  | EvNow | EvGetSales _ | EvSleep _ => false
  | _ => true
  end.

(** The timestamp of an order whose date is a [datetime] that
    [timestamp()] accepts. *)
Definition order_stamp {World} (env : Env World) (od : OrderShortcut)
  : option Q :=
  match o_date od with
  | DDatetime d =>
      match dt_timestamp env d with
      | Ok t => Some t
      | Raise _ => None
      end
  | DStr _ => None
  end.

(** An order the scanner selects: its timestamp is not the sentinel, it is
    before the cutoff, and its identifier is not in [sent]. *)
Definition eligible {World} (env : Env World) (cutoff : Q)
           (sent : list pystr) (od : OrderShortcut) : bool :=
  match order_stamp env od with
  | Some t =>
      negb (num_eqb t 0) && num_ltb t cutoff && negb (str_in (o_id od) sent)
  | None => false
  end.

(** The timestamps of a page that are not the sentinel, in page order. *)
Fixpoint page_stamps {World} (env : Env World) (page : list OrderShortcut)
  : list Q :=
  match page with
  | [] => []
  | od :: rest =>
      match order_stamp env od with
      | Some t => if num_eqb t 0 then page_stamps env rest
                  else t :: page_stamps env rest
      | None => page_stamps env rest
      end
  end.

(** The identifiers a page contributes when [room] more are wanted. *)
Definition selected {World} (env : Env World) (cutoff : Q)
           (sent : list pystr) (room : Z) (page : list OrderShortcut)
  : list pystr :=
  firstn (Z.to_nat room) (map o_id (filter (eligible env cutoff sent) page)).

(** A first fetch that brings nothing: it raises, or the result is falsy,
    or the page is empty. *)
Definition fruitless (r : PyResult SalesResult) : Prop :=
  match r with
  | Raise _ | Ok None | Ok (Some (_, [])) => True
  | Ok (Some (_, _ :: _)) => False
  end.

(** The portal of [happy] behind another order source. *)
Definition with_source (f : option pystr -> PyResult SalesResult) : Script :=
  {| sc_now := noon;
     sc_sales := f;
     sc_order := sc_order happy;
     sc_http := sc_http happy;
     sc_app_config := sc_app_config happy;
     sc_ticket_token := sc_ticket_token happy;
     sc_json := sc_json happy;
     sc_dump := sc_dump happy;
     sc_bot := sc_bot happy |}.

(** Three orders 30, 2 and 40 hours old, all dated by [datetime]. *)
Definition page_D : list OrderShortcut :=
  [ mkOrder (py "A30") (DDatetime (mkDatetime 2024 5 9 6 0 0 0));
    mkOrder (py "B02") (DDatetime (mkDatetime 2024 5 10 10 0 0 0));
    mkOrder (py "C40") (DDatetime (mkDatetime 2024 5 8 20 0 0 0)) ].

(** Two orders of the last hours. *)
Definition page_new : list OrderShortcut :=
  [ mkOrder (py "N01") (DDatetime (mkDatetime 2024 5 10 11 0 0 0));
    mkOrder (py "N02") (DDatetime (mkDatetime 2024 5 10 10 0 0 0)) ].

(** 12:00 of 9 May 2024, the cutoff of a 24 hour scan at [noon]. *)
Definition cutoff_24 : Q := Qmake 1715256000000000 1000000.

(** * Observations on the support client *)

(** What every request of one [method] call has in common. *)
Definition built_by (self : FunPaySupportAPI) (meth : pystr)
           (headers : list (pystr * json))
           (payload : list (pystr * option pystr)) (r : Request) : Prop :=
  rq_method r = meth /\ rq_headers r = headers /\ rq_data r = payload /\
  rq_timeout r = api_requests_timeout self.

(** [m] calls the [requests] library at most [n] times. Every call of
    [requests.get] or [requests.post] is one [EvRequest] of the trace,
    whatever the library sends on the wire for it: a call that lets the
    library follow redirects itself is counted once. *)
Definition calls_at_most {World A} (n : nat) (m : M World A) : Prop :=
  forall st,
    (length (requests_of (trace (snd (m st))))
     <= length (requests_of (trace st)) + n)%nat.

(** The payload of [create_ticket]. *)
Definition ticket_payload (self : FunPaySupportAPI) (order_id : option pystr)
           (comment : pystr) (ticket_token : option pystr)
  : list (pystr * option pystr) :=
  [ (py "ticket[fields][1]", Some (username (funpay_account self)));
    (py "ticket[fields][2]",
     Some (if truthy order_id then opt_or order_id [] else []));
    (py "ticket[fields][3]", Some (py "2"));
    (py "ticket[fields][5]", Some (py "201"));
    (py "ticket[comment][body_html]", Some (py "<p>" ++ comment ++ py "</p>"));
    (py "ticket[comment][attachments]", Some []);
    (py "ticket[_token]", ticket_token) ].

Definition K_TOKEN : pystr := Eval vm_compute in py "ticket[_token]".
Definition K_ORDER : pystr := Eval vm_compute in py "ticket[fields][2]".
Definition K_REPORTER : pystr := Eval vm_compute in py "ticket[fields][1]".

(** What [create_ticket] does to the trace, in calls of the [requests]
    library: it reads the form of a new ticket with one or more calls of
    [requests.get] without payload; if it calls [requests.post] at all, the
    first of these calls goes to the creation URL and all of them carry the
    payload of the ticket, in which the token is one that was parsed from a
    response; there are at most 22 calls in all. *)
Definition ticket_exchange {World} (env : Env World) (self : FunPaySupportAPI)
           (order_id : option pystr) (comment : pystr)
           (before after : list Event) : Prop :=
  exists form rest posts,
    after = before ++ map EvRequest ((form :: rest) ++ posts) /\
    rq_url form = URL_NEW_TICKET /\
    Forall (fun r => rq_method r = S_GET /\ rq_data r = []) (form :: rest) /\
    (posts = [] \/
     exists response token,
       bs_ticket_token env response = Ok token /\
       (exists post more, posts = post :: more /\
                          rq_url post = URL_CREATE_TICKET) /\
       Forall (fun r =>
                 rq_method r = S_POST /\
                 rq_data r = ticket_payload self order_id comment token)
              posts) /\
    (length ((form :: rest) ++ posts) <= 22)%nat.

(** The constraints [Field(ge=1, le=720)] and [Field(ge=1, le=50)] of the
    two numeric fields of [Settings]. *)
Definition in_bounds (s : Settings) : Prop :=
  1 <= order_age_hours s <= 720 /\ 1 <= max_orders_in_ticket s <= 50.

Definition is_bot (ev : Event) : bool :=
  match ev with EvBot _ => true | _ => false end.

(** A storage that cannot be written: every [Settings.save] raises. *)
Definition read_only_disk : Script :=
  {| sc_now := noon;
     sc_sales := sc_sales happy;
     sc_order := sc_order happy;
     sc_http := sc_http happy;
     sc_app_config := sc_app_config happy;
     sc_ticket_token := sc_ticket_token happy;
     sc_json := sc_json happy;
     sc_dump := fun _ => Raise (OtherError "PermissionError");
     sc_bot := sc_bot happy |}.

Definition K_COMMENT : pystr := Eval vm_compute in py "ticket[comment][body_html]".

(** A request without payload. *)
Definition plain_get (r : Request) : Prop :=
  rq_method r = S_GET /\ rq_data r = [].

(** A request that posts the ticket form of [self] for [order_id]. *)
Definition ticket_post (self : FunPaySupportAPI) (order_id : option pystr)
           (comment : pystr) (r : Request) : Prop :=
  rq_method r = S_POST /\
  exists token, rq_data r = ticket_payload self order_id comment token.

(** What a request of the step for [deal_id] may be: a [get] without
    payload, or a [post] of a ticket in the seller's name about [deal_id]. *)
Definition about_order (acc : Account) (deal_id : pystr) (r : Request) : Prop :=
  plain_get r \/
  (rq_method r = S_POST /\
   dict_get (rq_data r) K_REPORTER = Some (Some (username acc)) /\
   dict_get (rq_data r) K_ORDER = Some (Some deal_id) /\
   dict_get (rq_data r) K_COMMENT
   = Some (Some (py "<p>" ++ ticket_comment deal_id ++ py "</p>"))).

(** The cursors of a run of fetches that starts at [start]: none at all,
    or [start] followed by cursors that are all truthy. *)
Definition cursor_chain (start : option pystr) (l : list (option pystr))
  : Prop :=
  l = [] \/
  exists rest, l = start :: rest /\ Forall (fun c => truthy c = true) rest.

(** * The batch, step by step *)

(** The batch as a chain of steps: from index [i], each identifier is
    handed to [_report_deal_problem_raw], after a sleep of two seconds when
    the index is positive, in the state the previous step left; the result
    holds the identifiers whose step answered [True]. *)
Inductive batch_steps {World} (env : Env World) (acc : Account)
  : Z -> list pystr -> St World -> list pystr -> St World -> Prop :=
| batch_done i st : batch_steps env acc i [] st [] st
| batch_step i deal_id rest st success st1 reported st2 :
    _report_deal_problem_raw env acc deal_id
      (if 0 <? i then snd (sleep 2 st) else st) = (Val success, st1) ->
    batch_steps env acc (i + 1) rest st1 reported st2 ->
    batch_steps env acc i (deal_id :: rest) st
                (if success then deal_id :: reported else reported) st2.

(** A support backend that always reports success: every order is still
    [PAID], every call of the transport returns a response, every page
    yields its configuration with a [csrfToken] entry and its form token,
    and every answer to a submission decodes to a response the step reads
    as a success. *)
Definition backend_always_succeeds {World} (env : Env World) : Prop :=
  (forall w deal_id, snd (acc_get_order env w deal_id) = Ok PAID) /\
  (forall w r, exists response, snd (requests_call env w r) = Ok response) /\
  (forall response, exists data token,
      bs_app_config env response = Ok data /\
      json_subscript data S_CSRF_KEY = Ok token) /\
  (forall response, exists token, bs_ticket_token env response = Ok token) /\
  (forall response, exists answer,
      response_json env response = Ok answer /\
      response_is_success env answer = Ok true).

(** An order source that lists the same order twice on its only page. *)
Definition page_twice : list OrderShortcut :=
  [ mkOrder (py "A30") (DDatetime (mkDatetime 2024 5 9 6 0 0 0));
    mkOrder (py "A30") (DDatetime (mkDatetime 2024 5 9 6 0 0 0)) ].

(** [segs] laid end to end, with [sep] between two consecutive ones. *)
Definition joined (sep : Event) (segs : list (list Event)) : list Event :=
  match segs with
  | [] => []
  | first :: rest => first ++ flat_map (cons sep) rest
  end.

(** The events of the step for one order: the lookup of the order, then
    calls of the [requests] library and nothing else. *)
Definition order_segment (deal_id : pystr) (seg : list Event) : Prop :=
  exists reqs, seg = EvGetOrder deal_id :: map EvRequest reqs.

(** * Properties *)

Lemma str_eqb_eq (a b : pystr) : str_eqb a b = true <-> a = b.
Proof.
  unfold str_eqb. destruct (pystr_eq_dec a b); split; congruence.
Qed.

Lemma str_in_In x l : str_in x l = true <-> In x l.
Proof.
  unfold str_in. rewrite existsb_exists. split.
  - intros [y [Hy E]]. apply str_eqb_eq in E. subst. exact Hy.
  - intros H. exists x. split; [exact H | apply str_eqb_eq; reflexivity].
Qed.

(** ** What a computation leaves alone *)

Section Keeps.
Context {World : Type}.
Variable p : Event -> bool.

Lemma keeps_ret {A} (a : A) : keeps p (@ret World A a).
Proof. intros st; split; reflexivity. Qed.

Lemma keeps_raise {A} (e : PyExc) : keeps p (@raise World A e).
Proof. intros st; split; reflexivity. Qed.

Lemma keeps_lift {A} (r : PyResult A) : keeps p (@lift World A r).
Proof. destruct r; [apply keeps_ret | apply keeps_raise]. Qed.

Lemma keeps_read_settings : keeps p (@read_settings World).
Proof. intros st; split; reflexivity. Qed.

Lemma keeps_bind {A B} (m : M World A) (k : A -> M World B) :
  keeps p m -> (forall a, keeps p (k a)) -> keeps p (bind m k).
Proof.
  intros Hm Hk st. unfold bind.
  destruct (Hm st) as [Hs Ht].
  destruct (m st) as [[a | e |] st1]; simpl in *; auto.
  destruct (Hk a st1) as [Hs' Ht']. split; congruence.
Qed.

Lemma keeps_try_except {A} (m : M World A) (h : PyExc -> M World A) :
  keeps p m -> (forall e, keeps p (h e)) -> keeps p (try_except m h).
Proof.
  intros Hm Hh st. unfold try_except.
  destruct (Hm st) as [Hs Ht].
  destruct (m st) as [[a | e |] st1]; simpl in *; auto.
  destruct (Hh e st1) as [Hs' Ht']. split; congruence.
Qed.

Lemma call_state {A} (ev : Event) (f : World -> World * PyResult A) st :
  SETTINGS (snd (call ev f st)) = SETTINGS st /\
  trace (snd (call ev f st)) = trace st ++ [ev].
Proof.
  unfold call. destruct (f (world st)) as [w' [a | e]]; split; reflexivity.
Qed.

Lemma keeps_call {A} (ev : Event) (f : World -> World * PyResult A) :
  p ev = false -> keeps p (call ev f).
Proof.
  intros Hp st. destruct (call_state ev f st) as [Hs Ht]. split; auto.
  rewrite Ht, filter_app. simpl. rewrite Hp. apply app_nil_r.
Qed.

Lemma keeps_emit (ev : Event) : p ev = false -> keeps p (@emit World ev).
Proof.
  intros Hp st. split; [reflexivity |].
  simpl. rewrite filter_app. simpl. rewrite Hp. apply app_nil_r.
Qed.
End Keeps.

(** Goals [keeps p m] for straight-line code; facts about the callees are
    taken from the context. *)
Ltac keeps_tac :=
  repeat first
    [ match goal with H : context [keeps] |- _ => solve [apply H] end
    | apply keeps_ret | apply keeps_raise | apply keeps_lift
    | apply keeps_read_settings
    | apply keeps_emit; first [reflexivity | solve [auto]]
    | apply keeps_call; first [reflexivity | solve [auto]]
    | apply keeps_bind; [| intros ?]
    | apply keeps_try_except; [| intros ?]
    | match goal with
      | |- keeps _ (if ?b then _ else _) => destruct b
      | |- keeps _ (match ?x with _ => _ end) => destruct x
      end ].

(** ** Computations without the loop budget *)

Section Finishes.
Context {World : Type}.

Lemma finishes_ret {A} (a : A) : finishes (@ret World A a).
Proof. intros st; discriminate. Qed.

Lemma finishes_raise {A} (e : PyExc) : finishes (@raise World A e).
Proof. intros st; discriminate. Qed.

Lemma finishes_lift {A} (r : PyResult A) : finishes (@lift World A r).
Proof. destruct r; [apply finishes_ret | apply finishes_raise]. Qed.

Lemma finishes_read_settings : finishes (@read_settings World).
Proof. intros st; discriminate. Qed.

Lemma finishes_write_settings s : finishes (@write_settings World s).
Proof. intros st; discriminate. Qed.

Lemma finishes_emit ev : finishes (@emit World ev).
Proof. intros st; discriminate. Qed.

Lemma finishes_call {A} ev (f : World -> World * PyResult A) :
  finishes (call ev f).
Proof.
  intros st. unfold call.
  destruct (f (world st)) as [w' [a | e]]; discriminate.
Qed.

Lemma finishes_bind {A B} (m : M World A) (k : A -> M World B) :
  finishes m -> (forall a, finishes (k a)) -> finishes (bind m k).
Proof.
  intros Hm Hk st. unfold bind. specialize (Hm st).
  destruct (m st) as [[a | e |] st1]; simpl in *;
    [apply Hk | discriminate | congruence].
Qed.

Lemma finishes_try_except {A} (m : M World A) (h : PyExc -> M World A) :
  finishes m -> (forall e, finishes (h e)) -> finishes (try_except m h).
Proof.
  intros Hm Hh st. unfold try_except. specialize (Hm st).
  destruct (m st) as [[a | e |] st1]; simpl in *;
    [discriminate | apply Hh | congruence].
Qed.
End Finishes.

(** Goals [finishes m] for straight-line code. *)
Ltac finishes_tac :=
  repeat first
    [ match goal with H : context [finishes] |- _ => solve [apply H] end
    | apply finishes_ret | apply finishes_raise | apply finishes_lift
    | apply finishes_read_settings | apply finishes_write_settings
    | apply finishes_emit | apply finishes_call
    | apply finishes_bind; [| intros ?]
    | apply finishes_try_except; [| intros ?]
    | match goal with
      | |- finishes (if ?b then _ else _) => destruct b
      | |- finishes (match ?x with _ => _ end) => destruct x
      end ].

(** Steps the outermost [bind] of the run in hypothesis [H]. *)
Ltac bind_step H a st1 E :=
  match type of H with
  | bind ?m ?k ?st = _ =>
      unfold bind in H at 1;
      destruct (m st) as [[a | ? | ] st1] eqn:E
  end.

Ltac split5 := split; [| split; [| split; [| split]]].

(** ** The scanner *)

Section ScannerFacts.
Context {World : Type} (env : Env World).
Variable p : Event -> bool.
Hypothesis p_now : p EvNow = false.

Lemma keeps_now : keeps p (now env).
Proof. apply keeps_call, p_now. Qed.

Lemma keeps_parse_date_string s d : keeps p (parse_date_string env s d).
Proof.
  unfold parse_date_string.
  pose proof keeps_now.
  keeps_tac.
Qed.

Lemma keeps_parse_funpay_date d : keeps p (parse_funpay_date env d).
Proof.
  unfold parse_funpay_date.
  pose proof keeps_now. pose proof keeps_parse_date_string.
  keeps_tac.
Qed.

Lemma keeps_scan_page cutoff max_count page :
  forall old batch, keeps p (scan_page env cutoff max_count page old batch).
Proof.
  induction page as [| od rest IH]; intros old batch; simpl.
  - apply keeps_ret.
  - pose proof keeps_parse_funpay_date.
    keeps_tac.
Qed.
End ScannerFacts.

Section ScannerFinishes.
Context {World : Type} (env : Env World).

Lemma finishes_now : finishes (now env).
Proof. apply finishes_call. Qed.

Lemma finishes_parse_funpay_date d : finishes (parse_funpay_date env d).
Proof.
  unfold parse_funpay_date, parse_date_string.
  pose proof finishes_now.
  finishes_tac.
Qed.

Lemma finishes_scan_page cutoff max_count page :
  forall old batch, finishes (scan_page env cutoff max_count page old batch).
Proof.
  induction page as [| od rest IH]; intros old batch; simpl.
  - apply finishes_ret.
  - pose proof finishes_parse_funpay_date.
    finishes_tac.
Qed.
End ScannerFinishes.

Lemma all_unsent_app s ids id :
  all_unsent s ids -> str_in id (sent_order_ids s) = false ->
  all_unsent s (ids ++ [id]).
Proof.
  intros H Hid x Hx. apply in_app_or in Hx. destruct Hx as [Hx | [<- | []]]; auto.
Qed.

Section ScannerInvariants.
Context {World : Type} (env : Env World).

(** A page only appends identifiers that are not in the sent list. *)
Lemma scan_page_unsent cutoff max_count page :
  forall old batch st r st',
    scan_page env cutoff max_count page old batch st = (Val r, st') ->
    all_unsent (SETTINGS st) old ->
    all_unsent (SETTINGS st) (fst r).
Proof.
  induction page as [| od rest IH]; intros old batch st r st' Hrun Hold.
  - simpl in Hrun. inversion Hrun; subst. exact Hold.
  - simpl in Hrun. unfold bind in Hrun.
    destruct (keeps_parse_funpay_date env never_p eq_refl (o_date od) st)
      as [Hs _].
    destruct (parse_funpay_date env (o_date od) st) as [[ts | e |] st1];
      try discriminate.
    simpl in Hs.
    destruct (num_eqb ts 0).
    + rewrite <- Hs. eapply IH; [exact Hrun | rewrite Hs; exact Hold].
    + unfold read_settings in Hrun. simpl in Hrun.
      assert (Hnew : all_unsent (SETTINGS st1)
                (if num_ltb ts cutoff &&
                    negb (str_in (o_id od) (sent_order_ids (SETTINGS st1)))
                 then old ++ [o_id od] else old)).
      { destruct (num_ltb ts cutoff); simpl.
        - destruct (str_in (o_id od) (sent_order_ids (SETTINGS st1))) eqn:E;
            simpl.
          + rewrite Hs; exact Hold.
          + apply all_unsent_app; [rewrite Hs; exact Hold | exact E].
        - rewrite Hs; exact Hold. }
      destruct (len _ >=? max_count).
      * inversion Hrun; subst. simpl. rewrite <- Hs. exact Hnew.
      * rewrite <- Hs. eapply IH; [exact Hrun | exact Hnew].
Qed.
Lemma fetches_snoc tr ev :
  fetches (tr ++ [ev]) = (fetches tr + if is_get_sales ev then 1 else 0)%nat.
Proof.
  unfold fetches. rewrite filter_app, length_app. simpl.
  destruct (is_get_sales ev); reflexivity.
Qed.

(** The guarded call of [acc.get_sales]: it never raises, and it is one
    fetch. *)
Lemma fetch_step start st :
  exists a st1,
    try_except
      (result <- call (EvGetSales start)
                      (fun w : World => acc_get_sales env w start) ;;
       ret (Some result))
      (fun _ : PyExc => ret None) st = (Val a, st1) /\
    SETTINGS st1 = SETTINGS st /\
    trace st1 = trace st ++ [EvGetSales start].
Proof.
  unfold try_except, bind, call, ret.
  destruct (acc_get_sales env (world st) start) as [w' [a | e]];
    eexists; eexists; repeat split.
Qed.

(** One pass of the loop body: exactly one fetch, [SETTINGS] untouched,
    never out of fuel, and a pass that goes on has counted its page. *)
Lemma scan_body_spec cutoff max_count old start pc st o st' :
  scan_body env cutoff max_count old start pc st = (o, st') ->
  SETTINGS st' = SETTINGS st /\
  fetches (trace st') = S (fetches (trace st)) /\
  o <> Fuel /\
  (forall old' next pc', o = Val (Continue old' next pc') -> pc' = pc + 1) /\
  (all_unsent (SETTINGS st) old ->
   forall step, o = Val step -> all_unsent (SETTINGS st) (step_ids step)).
Proof.
  unfold scan_body. intros H.
  destruct (fetch_step start st) as [a [st1 [E1 [S1 T1]]]].
  unfold bind in H at 1. rewrite E1 in H.
  assert (F1 : fetches (trace st1) = S (fetches (trace st)))
    by (rewrite T1, fetches_snoc; simpl; lia).
  assert (Done : forall pc0, (Val (Break old pc0), st1) = (o, st') ->
     SETTINGS st' = SETTINGS st /\
     fetches (trace st') = S (fetches (trace st)) /\
     o <> Fuel /\
     (forall old' next pc', o = Val (Continue old' next pc') -> pc' = pc + 1) /\
     (all_unsent (SETTINGS st) old ->
      forall step, o = Val step -> all_unsent (SETTINGS st) (step_ids step))).
  { intros pc0 E. inversion E; subst.
    split5; auto; try discriminate.
    intros Hu step Es. inversion Es; subst. exact Hu. }
  destruct a as [[[next [| od page]] |] |]; try (apply (Done _ H)).
  clear Done.
  destruct (keeps_scan_page env is_get_sales eq_refl cutoff max_count
              (od :: page) old [] st1) as [Hs Hp].
  pose proof (scan_page_unsent cutoff max_count (od :: page) old [] st1) as Hu.
  bind_step H r st2 E2; cbn [snd] in Hs, Hp.
  - assert (F2 : fetches (trace st2) = S (fetches (trace st)))
      by (unfold fetches in *; rewrite Hp; exact F1).
    assert (U2 : all_unsent (SETTINGS st) old -> all_unsent (SETTINGS st) (fst r)).
    { intros U. rewrite <- S1. eapply Hu; [reflexivity | rewrite S1; exact U]. }
    destruct (match snd r with [] => false | _ => _ end);
      [| destruct (negb (truthy next))].
    + inversion H; subst. split5; try congruence.
      intros U step Es. inversion Es; subst. auto.
    + inversion H; subst. split5; try congruence.
      intros U step Es. inversion Es; subst. auto.
    + unfold bind, sleep, emit, ret in H. inversion H; subst.
      cbn [SETTINGS trace]. rewrite fetches_snoc. simpl.
      split5; try congruence; try lia.
      intros U step Es. inversion Es; subst. auto.
  - inversion H; subst. split5; try congruence; try discriminate.
    unfold fetches in *; rewrite Hp; exact F1.
  - exfalso. apply (finishes_scan_page env cutoff max_count (od :: page) old [] st1).
    rewrite E2. reflexivity.
Qed.

Lemma loop_post_exit fuel old pc (st : St World) :
  loop_post fuel old pc st (Val (old, pc)) st.
Proof.
  split; [reflexivity | split; [lia | split; [discriminate |]]].
  intros U r E. inversion E; subst. exact U.
Qed.

(** The loop: [SETTINGS] untouched, at most [max_pages - page_count] more
    fetches, identifiers outside the sent list, and enough fuel ends it. *)
Lemma scan_pages_spec fuel :
  forall cutoff max_count old start pc st o st',
    scan_pages env fuel cutoff max_count old start pc st = (o, st') ->
    loop_post fuel old pc st o st'.
Proof.
  induction fuel as [| fuel IH]; intros cutoff max_count old start pc st o st' H;
    cbn [scan_pages] in H;
    (destruct (_ && _) eqn:G;
     [| inversion H; subst; apply loop_post_exit]);
    apply andb_prop in G; destruct G as [_ G]; apply Z.ltb_lt in G.
  - inversion H; subst.
    split; [reflexivity | split; [lia | split; [lia |]]].
    intros; discriminate.
  - bind_step H step st1 E1;
      destruct (scan_body_spec _ _ _ _ _ _ _ _ E1) as [S1 [F1 [N1 [P1 U1]]]].
    + destruct step as [old1 pc1 | old1 next pc1].
      * inversion H; subst.
        split; [assumption | split; [lia | split; [discriminate |]]].
        intros U r E; inversion E; subst. apply (U1 U _ eq_refl).
      * specialize (P1 _ _ _ eq_refl). subst pc1.
        destruct (IH _ _ _ _ _ _ _ _ H) as [S2 [F2 [N2 U2]]].
        split; [congruence | split; [lia | split]].
        -- intros Hf. apply N2. lia.
        -- intros U r E. rewrite <- S1. apply U2; [| exact E].
           rewrite S1. apply (U1 U _ eq_refl).
    + inversion H; subst.
      split; [assumption | split; [lia | split; [discriminate |]]].
      intros; discriminate.
    + congruence.
Qed.
End ScannerInvariants.


Lemma in_firstn {A} (x : A) n : forall l, In x (firstn n l) -> In x l.
Proof.
  induction n as [| n IH]; intros [| a l] H; simpl in *; try contradiction.
  destruct H as [H | H]; [left; exact H | right; apply IH, H].
Qed.

Lemma py_slice_to_incl {A} (l : list A) n x : In x (py_slice_to l n) -> In x l.
Proof.
  unfold py_slice_to. destruct (0 <=? n); intros H; eapply in_firstn; exact H.
Qed.

Lemma py_slice_to_length {A} (l : list A) n :
  0 <= n -> len (py_slice_to l n) <= n.
Proof.
  intros Hn. unfold py_slice_to, len.
  destruct (0 <=? n) eqn:E; [| apply Z.leb_gt in E; lia].
  rewrite length_firstn. lia.
Qed.

Section ScannerTop.
Context {World : Type} (env : Env World).

(** The scanner as a whole: it leaves [SETTINGS] alone, fetches at most
    [max_pages] pages, ends within its budget, and what it returns is outside
    the sent list and cut to [max_count]. *)
Lemma get_old_orders_for_ticket_spec age_hours max_count st o st' :
  get_old_orders_for_ticket env age_hours max_count st = (o, st') ->
  SETTINGS st' = SETTINGS st /\
  (fetches (trace st') <= fetches (trace st) + Z.to_nat max_pages)%nat /\
  o <> Fuel /\
  (forall ids, o = Val ids ->
     all_unsent (SETTINGS st) ids /\ (0 <= max_count -> len ids <= max_count)).
Proof.
  unfold get_old_orders_for_ticket. intros H.
  assert (Hnow : forall st0,
            exists d, now env st0 =
                      (Val d, mkSt (fst (datetime_now env (world st0)))
                                   (SETTINGS st0) (trace st0 ++ [EvNow]))).
  { intros st0. unfold now, call.
    destruct (datetime_now env (world st0)) as [w' d]. eexists; reflexivity. }
  destruct (Hnow st) as [d Ed].
  unfold bind in H at 1. rewrite Ed in H.
  set (st1 := mkSt _ _ _) in *.
  assert (S1 : SETTINGS st1 = SETTINGS st) by reflexivity.
  assert (F1 : fetches (trace st1) = fetches (trace st))
    by (unfold st1; cbn [trace]; rewrite fetches_snoc; simpl; lia).
  clearbody st1. clear Ed Hnow.
  unfold bind in H at 1.
  destruct (dt_sub_timedelta d 0 age_hours) as [c | e]; cbn [lift ret raise] in H;
    [| inversion H; subst; repeat split; try congruence; try lia; discriminate].
  unfold bind in H at 1.
  destruct (dt_timestamp env c) as [ts | e]; cbn [lift ret raise] in H;
    [| inversion H; subst; repeat split; try congruence; try lia; discriminate].
  bind_step H r st2 E2;
    destruct (scan_pages_spec env _ _ _ _ _ _ _ _ _ E2) as [S2 [F2 [N2 U2]]];
    rewrite Z.sub_0_r in *.
  - inversion H; subst.
    split; [congruence | split; [lia | split; [discriminate |]]].
    intros ids E. inversion E; subst. split.
    + intros id Hin. apply py_slice_to_incl in Hin.
      rewrite <- S1. eapply U2; [| reflexivity | exact Hin].
      intros x [].
    + apply py_slice_to_length.
  - inversion H; subst.
    split; [congruence | split; [lia | split; discriminate]].
  - exfalso. apply N2; [lia | reflexivity].
Qed.
End ScannerTop.

(** C1. The identifiers the scanner returns are never in
    [SETTINGS.sent_order_ids] as it is when the scan starts. *)
Theorem scanner_skips_sent {World} (env : Env World) age_hours max_count
        (st st' : St World) (ids : list pystr) :
  get_old_orders_for_ticket env age_hours max_count st = (Val ids, st') ->
  forall id, In id ids -> ~ In id (sent_order_ids (SETTINGS st)).
Proof.
  intros H id Hin Hsent.
  destruct (get_old_orders_for_ticket_spec env _ _ _ _ _ H) as [_ [_ [_ P]]].
  destruct (P ids eq_refl) as [U _].
  apply str_in_In in Hsent. rewrite (U id Hin) in Hsent. discriminate.
Qed.

(** Scenario B of the spec: with order A30 already escalated, the same page
    yields C40 only. *)
Lemma scanner_skips_sent_witness :
  fst (get_old_orders_for_ticket (script_env happy) 24 10
         (start (mkSettings 24 10 [py "A30"]))) = Val [py "C40"] /\
  ~ In (py "C40") [py "A30"].
Proof.
  split; [vm_compute; reflexivity |].
  apply (scanner_skips_sent (script_env happy) 24 10
           (start (mkSettings 24 10 [py "A30"]))
           (snd (get_old_orders_for_ticket (script_env happy) 24 10
                   (start (mkSettings 24 10 [py "A30"]))))
           [py "C40"]).
  - vm_compute; reflexivity.
  - left; reflexivity.
Defined.

(** C6. For a batch size between 1 and 50 the scanner returns at most that
    many identifiers. *)
Theorem scanner_batch_bound {World} (env : Env World) age_hours max_count
        (st st' : St World) (ids : list pystr) :
  1 <= max_count <= 50 ->
  get_old_orders_for_ticket env age_hours max_count st = (Val ids, st') ->
  len ids <= max_count.
Proof.
  intros Hb H.
  destruct (get_old_orders_for_ticket_spec env _ _ _ _ _ H) as [_ [_ [_ P]]].
  destruct (P ids eq_refl) as [_ L]. apply L. lia.
Qed.

(** With a batch size of 1 the page of scenario A yields its first stale
    order only. *)
Lemma scanner_batch_bound_witness :
  fst (get_old_orders_for_ticket (script_env happy) 24 1
         (start Settings_default)) = Val [py "A30"] /\
  len [py "A30"] <= 1.
Proof.
  split; [vm_compute; reflexivity |].
  apply (scanner_batch_bound (script_env happy) 24 1 (start Settings_default)
           (snd (get_old_orders_for_ticket (script_env happy) 24 1
                   (start Settings_default)))
           [py "A30"]).
  - lia.
  - vm_compute; reflexivity.
Defined.

(** C7. Whatever the cutoff, the batch size and the order source, a scan
    ends within its loop budget and calls [acc.get_sales] at most 10 times. *)
Theorem scanner_page_ceiling {World} (env : Env World) age_hours max_count
        (st : St World) :
  fst (get_old_orders_for_ticket env age_hours max_count st) <> Fuel /\
  (fetches (trace (snd (get_old_orders_for_ticket env age_hours max_count st)))
   <= fetches (trace st) + 10)%nat.
Proof.
  destruct (get_old_orders_for_ticket env age_hours max_count st) as [o st']
    eqn:H.
  destruct (get_old_orders_for_ticket_spec env _ _ _ _ _ H) as [_ [F [N _]]].
  split; [exact N | exact F].
Qed.



(** *** When the scanner returns *)

(** The clock never fails. *)
Lemma now_returns {World} (env : Env World) st :
  exists d st1, now env st = (Val d, st1).
Proof.
  unfold now, call. destruct (datetime_now env (world st)) as [w' d].
  eexists; eexists; reflexivity.
Qed.

Section Returns.
Context {World : Type}.

Lemma returns_ret {A} (a : A) : returns (@ret World A a).
Proof. intros st. eexists; eexists; reflexivity. Qed.

Lemma returns_bind {A B} (m : M World A) (k : A -> M World B) :
  returns m -> (forall a, returns (k a)) -> returns (bind m k).
Proof.
  intros Hm Hk st. unfold bind. destruct (Hm st) as [a [st1 E]]. rewrite E.
  apply Hk.
Qed.

(** A handler that returns makes the whole [try] return. *)
Lemma returns_try_except {A} (m : M World A) (h : PyExc -> M World A) :
  finishes m -> (forall e, returns (h e)) -> returns (try_except m h).
Proof.
  intros Hm Hh st. unfold try_except. specialize (Hm st).
  destruct (m st) as [[a | e |] st1]; cbn [fst] in Hm.
  - eexists; eexists; reflexivity.
  - apply Hh.
  - congruence.
Qed.

Lemma returns_read_settings : returns (@read_settings World).
Proof. intros st. eexists; eexists; reflexivity. Qed.

Lemma returns_emit ev : returns (@emit World ev).
Proof. intros st. eexists; eexists; reflexivity. Qed.
End Returns.

Section ScannerReturns.
Context {World : Type} (env : Env World).
Hypothesis timestamp_total : forall d, exists t, dt_timestamp env d = Ok t.

Lemma returns_now : returns (now env).
Proof. intros st. apply now_returns. Qed.

Lemma returns_parse_funpay_date date_obj :
  returns (parse_funpay_date env date_obj).
Proof.
  destruct date_obj as [d | s]; unfold parse_funpay_date.
  - destruct (timestamp_total d) as [t ->]. apply returns_ret.
  - apply returns_bind; [apply returns_now | intros d].
    apply returns_try_except; [| intros; apply returns_ret].
    unfold parse_date_string. pose proof (finishes_now env). finishes_tac.
Qed.

Lemma returns_scan_page cutoff max_count page :
  forall old batch, returns (scan_page env cutoff max_count page old batch).
Proof.
  induction page as [| od rest IH]; intros old batch; cbn [scan_page].
  - apply returns_ret.
  - apply returns_bind; [apply returns_parse_funpay_date | intros ts].
    destruct (num_eqb ts 0); [apply IH |].
    apply returns_bind; [apply returns_read_settings | intros s].
    cbv zeta. destruct (len _ >=? max_count); [apply returns_ret | apply IH].
Qed.

Lemma returns_scan_body cutoff max_count old start pc :
  returns (scan_body env cutoff max_count old start pc).
Proof.
  unfold scan_body.
  apply returns_bind.
  - intros st. destruct (fetch_step env start st) as [a [st1 [E _]]]. eauto.
  - intros [[[next [| od page]] |] |]; try apply returns_ret.
    apply returns_bind; [apply returns_scan_page | intros r].
    cbv zeta.
    destruct (match snd r with [] => false | _ => _ end); [apply returns_ret |].
    destruct (negb (truthy next)); [apply returns_ret |].
    apply returns_bind; [apply returns_emit | intros; apply returns_ret].
Qed.

Lemma returns_scan_pages fuel cutoff max_count old start pc st :
  (Z.to_nat (max_pages - pc) <= fuel)%nat ->
  exists r st', scan_pages env fuel cutoff max_count old start pc st = (Val r, st').
Proof.
  revert cutoff max_count old start pc st.
  induction fuel as [| fuel IH]; intros cutoff max_count old start pc st Hf;
    cbn [scan_pages];
    (destruct (_ && _) eqn:G; [| unfold ret; eauto]);
    apply andb_prop in G; destruct G as [_ G]; apply Z.ltb_lt in G.
  - lia.
  - unfold bind.
    destruct (returns_scan_body cutoff max_count old start pc st)
      as [step [st1 E]].
    destruct (scan_body_spec env _ _ _ _ _ _ _ _ E) as [_ [_ [_ [P _]]]].
    rewrite E. destruct step as [o1 p1 | o1 n1 p1]; [unfold ret; eauto |].
    specialize (P _ _ _ eq_refl). subst p1. apply IH. lia.
Qed.

(** With a clock, a time arithmetic and a [timestamp()] that do not raise,
    the scanner returns a list. *)
Lemma scanner_returns age_hours max_count st cutoff :
  dt_sub_timedelta (snd (datetime_now env (world st))) 0 age_hours = Ok cutoff ->
  exists ids st',
    get_old_orders_for_ticket env age_hours max_count st = (Val ids, st').
Proof.
  intros Hc. unfold get_old_orders_for_ticket, bind at 1, now, call.
  destruct (datetime_now env (world st)) as [w' d]. cbn [snd] in Hc.
  unfold bind at 1. rewrite Hc. cbn [lift ret].
  unfold bind at 1. destruct (timestamp_total cutoff) as [t ->]. cbn [lift ret].
  unfold bind.
  match goal with |- context [scan_pages env ?f ?c ?m ?o ?s ?p ?st0] =>
    destruct (returns_scan_pages f c m o s p st0) as [r [st1 E]];
      [rewrite Z.sub_0_r; lia | rewrite E] end.
  unfold ret. eauto.
Qed.
End ScannerReturns.

(** Scenario A of the spec: one page with orders 30, 2 and 40 hours old, a
    cutoff of 24 hours and a batch of 10: the first and the third are
    returned, in the order of the page. *)
Example scenario_A :
  fst (get_old_orders_for_ticket (script_env happy) 24 10 st0)
  = Val [py "A30"; py "C40"].
Proof. vm_compute. reflexivity. Qed.

(** The ceiling is reached: with A30 already escalated and a source that
    never ends, the scan stops after exactly 10 fetches with nothing found. *)
Example ten_fetches_reached :
  let run := get_old_orders_for_ticket (script_env endless) 24 10
               (start (mkSettings 24 10 [py "A30"])) in
  fst run = Val [] /\ fetches (trace (snd run)) = 10%nat.
Proof. vm_compute. split; reflexivity. Qed.

(** ** The date normalizer *)

(** C5, as the specification states it, fails: this string is of none of
    the listed forms and is given the timestamp of 12:30 today, not 0. *)
Lemma unsupported_shape_parsed :
  supported_shape today_twice = false /\
  fst (parse_funpay_date (script_env happy) (DStr today_twice)
         (start Settings_default))
  = Val (Qmake 1715344200000000 1000000) /\
  num_eqb (Qmake 1715344200000000 1000000) 0 = false.
Proof. vm_compute. repeat split. Qed.

(** C5, amended. A string never makes [parse_funpay_date] raise: it returns
    a number, and exactly 0 whenever a step of the parsing raises. A
    [datetime] is answered by its own [timestamp()], outside the handler. *)
Theorem parse_funpay_date_contained {World} (env : Env World) (st : St World) :
  (forall s, exists v st', parse_funpay_date env (DStr s) st = (Val v, st')) /\
  (forall s d st1 e st2,
      now env st = (Val d, st1) ->
      parse_date_string env (str_strip s) d st1 = (Exn e, st2) ->
      parse_funpay_date env (DStr s) st = (Val 0%Q, st2)) /\
  (forall d, parse_funpay_date env (DDatetime d) st
             = lift (dt_timestamp env d) st).
Proof.
  split; [| split].
  - intros s. unfold parse_funpay_date.
    destruct (now_returns env st) as [d [st1 E]].
    unfold bind. rewrite E. unfold try_except.
    destruct (parse_date_string env (str_strip s) d st1) as [[v | e |] st2] eqn:P.
    + eexists; eexists; reflexivity.
    + eexists; eexists; reflexivity.
    + exfalso.
      assert (F : finishes (parse_date_string env (str_strip s) d)).
      { unfold parse_date_string. pose proof (finishes_now env).
        finishes_tac. }
      apply (F st1). rewrite P. reflexivity.
  - intros s d st1 e st2 E P. unfold parse_funpay_date, bind.
    rewrite E. unfold try_except. rewrite P. reflexivity.
  - intros d. reflexivity.
Qed.

(** A string that names no date is answered with 0. *)
Lemma parse_funpay_date_contained_witness :
  parse_funpay_date (script_env happy) (DStr (py "garbage"))
                    (start Settings_default)
  = (Val 0%Q, mkSt tt Settings_default [EvNow]).
Proof.
  apply (proj1 (proj2 (parse_funpay_date_contained (script_env happy)
                         (start Settings_default)))
           (py "garbage") noon (mkSt tt Settings_default [EvNow])
           ValueError (mkSt tt Settings_default [EvNow])).
  - vm_compute; reflexivity.
  - vm_compute; reflexivity.
Defined.


(** ** The ticket response *)

Lemma json_eq_str_true v s : json_eq_str v s = true <-> v = JStr s.
Proof.
  destruct v; simpl; split; try discriminate; try (intros H; inversion H; fail).
  - intros H. apply str_eqb_eq in H. congruence.
  - intros H. inversion H; subst. apply str_eqb_eq. reflexivity.
Qed.

Lemma existsb_json_eq_str l s :
  existsb (fun v => json_eq_str v s) l = true <-> In (JStr s) l.
Proof.
  rewrite existsb_exists. split.
  - intros [v [Hin E]]. apply json_eq_str_true in E. subst. exact Hin.
  - intros H. exists (JStr s). split; [exact H | apply json_eq_str_true; reflexivity].
Qed.

Lemma existsb_key {V} (d : list (pystr * V)) s :
  existsb (fun kv => str_eqb (fst kv) s) d = true <-> exists v, In (s, v) d.
Proof.
  rewrite existsb_exists. split.
  - intros [[k v] [Hin E]]. simpl in E. apply str_eqb_eq in E. subst. eauto.
  - intros [v H]. exists (s, v). split; [exact H | apply str_eqb_eq; reflexivity].
Qed.

(** What [in] answers for the url field. *)
Lemma json_contains_tickets u :
  match json_contains u S_TICKETS with
  | Ok b => b = true <-> url_holds_ticket_path u
  | Raise _ => ~ url_holds_ticket_path u
  end.
Proof.
  unfold url_holds_ticket_path, url_has_ticket_path.
  destruct u; simpl.
  1-4: intros [[s0 [E _]] | [[l [E _]] | [o [v [E _]]]]]; discriminate.
  - split.
    + intros H. left. eauto.
    + intros [[s0 [E H]] | [[l [E _]] | [o [v [E _]]]]]; try discriminate.
      inversion E; subst. exact H.
  - rewrite existsb_json_eq_str. split.
    + intros H. right; left. eauto.
    + intros [[s0 [E _]] | [[l [E H]] | [o [v [E _]]]]]; try discriminate.
      inversion E; subst. exact H.
  - rewrite existsb_key. split.
    + intros [v H]. right; right. eauto.
    + intros [[s0 [E _]] | [[l [E _]] | [o [v [E H]]]]]; try discriminate.
      inversion E; subst. eauto.
Qed.

Lemma str_contains_nil_tickets : str_contains [] S_TICKETS = false.
Proof. reflexivity. Qed.

Lemma str_contains_nil_phrase : str_contains [] S_SUCCESS_PHRASE = false.
Proof. reflexivity. Qed.

(** The condition on the response: [Ok true] exactly on the accepted
    shape; elsewhere [Ok false] or an exception. *)
Lemma response_is_success_spec {World} (env : Env World) (response : json) :
  str_lower env [] = [] ->
  response_is_success env response = Ok true <->
  success_shape env url_holds_ticket_path response.
Proof.
  intros Hlow. unfold success_shape. split.
  - unfold response_is_success, json_get.
    destruct response as [| b | z | q | s | l | d]; try discriminate.
    destruct (dict_get d S_ACTION) as [a |] eqn:EA; cbn [rbind];
      [| discriminate].
    destruct (json_eq_str a S_MESSAGE) eqn:EqA; [| discriminate].
    apply json_eq_str_true in EqA. subst a.
    destruct (dict_get d S_MESSAGE) as [m |] eqn:EM; cbn [rbind].
    + destruct m as [| b | z | q | m | l | o]; try discriminate.
      cbn [json_lower rbind].
      destruct (str_contains (str_lower env m) S_SUCCESS_PHRASE) eqn:EP;
        [| discriminate].
      destruct (dict_get d S_URL) as [u |] eqn:EU; cbn [rbind].
      * intros H. pose proof (json_contains_tickets u) as J.
        rewrite H in J. exists d, m, u. intuition.
      * cbn [json_contains]. rewrite str_contains_nil_tickets. discriminate.
    + cbn [json_lower rbind]. rewrite Hlow, str_contains_nil_phrase.
      discriminate.
  - intros [d [m [u [-> [EA [EM [EP [EU HU]]]]]]]].
    unfold response_is_success, json_get.
    rewrite EA; cbn [rbind].
    rewrite (proj2 (json_eq_str_true _ _) eq_refl).
    rewrite EM; cbn [rbind json_lower]. rewrite EP.
    rewrite EU; cbn [rbind].
    pose proof (json_contains_tickets u) as J.
    destruct (json_contains u S_TICKETS) as [b | e].
    + f_equal. apply J, HU.
    + contradiction.
Qed.

(** The step is this reading once the order is found paid, the session is
    set up and the portal has answered the submission. *)
Lemma report_raw_reads_response {World} (env : Env World) acc deal_id
      (st st1 st2 st3 : St World) api response :
  order_still_paid env deal_id st = (Val true, st1) ->
  api_get env (FunPaySupportAPI_init acc) st1 = (Val api, st2) ->
  create_ticket env api (Some deal_id) (ticket_comment deal_id) st2
  = (Val response, st3) ->
  _report_deal_problem_raw env acc deal_id st
  = read_ticket_response env response st3.
Proof.
  intros H1 H2 H3.
  unfold _report_deal_problem_raw, read_ticket_response, try_except, bind.
  rewrite H1. cbn [negb]. rewrite H2, H3. reflexivity.
Qed.

(** C4, amended. The step reads a response as a success exactly when the
    action is "message", the lowered message holds the success phrase and
    the url field holds "/tickets/" in the sense of [in]: as a substring of a
    string, as an element of a list, as a key of an object. Any other
    response, missing fields included, is a failure and nothing is raised. *)
Theorem ticket_response_reading {World} (env : Env World) (response : json)
        (st : St World) :
  str_lower env [] = [] ->
  exists b,
    read_ticket_response env response st = (Val b, st) /\
    (b = true <-> success_shape env url_holds_ticket_path response).
Proof.
  intros Hlow. unfold read_ticket_response, try_except.
  pose proof (response_is_success_spec env response Hlow) as S.
  destruct (response_is_success env response) as [b | e]; cbn [lift ret raise].
  - exists b. split; [reflexivity |]. rewrite <- S. split; congruence.
  - exists false. split; [reflexivity |]. rewrite <- S. split; discriminate.
Qed.

(** Scenario C of the spec: the success response is read as a success. *)
Lemma ticket_response_reading_witness :
  read_ticket_response (script_env happy) json_ticket_sent
                       (start Settings_default)
  = (Val true, start Settings_default) /\
  success_shape (script_env happy) url_holds_ticket_path json_ticket_sent.
Proof.
  destruct (ticket_response_reading (script_env happy) json_ticket_sent
              (start Settings_default) eq_refl) as [b [E [H _]]].
  assert (Hb : b = true) by (vm_compute in E; congruence).
  subst b. split; [exact E | exact (H eq_refl)].
Defined.

(** C4, as the specification states it, fails: a response whose url field
    is the list ["/tickets/"] has no url string with that substring, and the
    step reads it as a success. *)
Lemma list_url_accepted :
  read_ticket_response (script_env happy) json_url_list (start Settings_default)
  = (Val true, start Settings_default) /\
  ~ success_shape (script_env happy) url_has_ticket_path json_url_list.
Proof.
  split; [vm_compute; reflexivity |].
  intros [d [m [u [E [_ [_ [_ [EU [s [Es _]]]]]]]]]].
  inversion E; subst d. vm_compute in EU. congruence.
Qed.

(** ** The support client and the batch *)

Lemma subseq_In {A} (sub l : list A) x : subseq sub l -> In x sub -> In x l.
Proof.
  induction 1 as [| y sub l _ IH | y sub l _ IH]; simpl; intros H; auto.
  destruct H as [H | H]; auto.
Qed.

Lemma subseq_NoDup {A} (sub l : list A) : subseq sub l -> NoDup l -> NoDup sub.
Proof.
  induction 1 as [| y sub l Hs IH | y sub l Hs IH]; intros N.
  - constructor.
  - inversion N; subst. auto.
  - inversion N; subst. constructor; auto.
    intros Hin. eapply subseq_In in Hin; eauto.
Qed.

Lemma subseq_nil_l {A} (l : list A) : subseq [] l.
Proof. induction l; constructor; auto. Qed.

Lemma subseq_refl {A} (l : list A) : subseq l l.
Proof. induction l; [apply subseq_nil | apply subseq_take; assumption]. Qed.

Section Support.
Context {World : Type} (env : Env World).
Variable p : Event -> bool.
Hypothesis p_request : forall r, p (EvRequest r) = false.

Lemma keeps_request r : keeps p (request env r).
Proof. apply keeps_call, p_request. Qed.

Lemma keeps_follow_redirects hops mk :
  forall link, keeps p (follow_redirects env hops mk link).
Proof.
  induction hops as [| n IH]; intros link; simpl.
  - apply keeps_ret.
  - pose proof keeps_request. keeps_tac.
Qed.

Lemma keeps_method self meth url headers payload excl :
  keeps p (method env self meth url headers payload excl).
Proof.
  unfold method. pose proof keeps_request. pose proof keeps_follow_redirects.
  keeps_tac.
Qed.

Lemma keeps_api_get self : keeps p (api_get env self).
Proof. unfold api_get. pose proof keeps_method. keeps_tac. Qed.

Lemma keeps_create_ticket self order_id comment :
  keeps p (create_ticket env self order_id comment).
Proof.
  unfold create_ticket, get_ticket_token. pose proof keeps_method. keeps_tac.
Qed.
End Support.

Section SupportFinishes.
Context {World : Type} (env : Env World).

Lemma finishes_follow_redirects hops mk :
  forall link, finishes (follow_redirects env hops mk link).
Proof.
  induction hops as [| n IH]; intros link; simpl; unfold request; finishes_tac.
Qed.

Lemma finishes_method self meth url headers payload excl :
  finishes (method env self meth url headers payload excl).
Proof.
  unfold method, request. pose proof finishes_follow_redirects. finishes_tac.
Qed.

Lemma finishes_api_get self : finishes (api_get env self).
Proof. unfold api_get. pose proof finishes_method. finishes_tac. Qed.

Lemma finishes_create_ticket self order_id comment :
  finishes (create_ticket env self order_id comment).
Proof.
  unfold create_ticket, get_ticket_token. pose proof finishes_method.
  finishes_tac.
Qed.
End SupportFinishes.

Section Orchestrator.
Context {World : Type} (env : Env World).

(** The step never raises and never runs out of budget. *)
Lemma report_raw_returns acc deal_id st :
  exists b st', _report_deal_problem_raw env acc deal_id st = (Val b, st').
Proof.
  unfold _report_deal_problem_raw, try_except.
  match goal with |- context [?m st] =>
    assert (F : finishes m) end.
  { unfold order_still_paid.
    pose proof (finishes_api_get env). pose proof (finishes_create_ticket env).
    finishes_tac. }
  specialize (F st).
  match goal with |- context [let (_, _) := ?m st in _] =>
    destruct (m st) as [[b | e |] st1] end.
  - eauto.
  - unfold ret. eauto.
  - exfalso. apply F. reflexivity.
Qed.

Lemma keeps_report_raw p acc deal_id :
  (forall r, p (EvRequest r) = false) -> p (EvGetOrder deal_id) = false ->
  keeps p (_report_deal_problem_raw env acc deal_id).
Proof.
  intros Hr Ho. unfold _report_deal_problem_raw, order_still_paid.
  pose proof (keeps_api_get env p Hr). pose proof (keeps_create_ticket env p Hr).
  keeps_tac.
Qed.

Lemma emits_call {A} p ev (f : World -> World * PyResult A) :
  p ev = true -> emits p [ev] (call ev f).
Proof.
  intros Hp st. destruct (call_state ev f st) as [Hs Ht]. split; auto.
  rewrite Ht, filter_app. simpl. rewrite Hp. reflexivity.
Qed.

Lemma emits_bind {A B} p evs (m : M World A) (k : A -> M World B) :
  emits p evs m -> (forall a, keeps p (k a)) -> emits p evs (bind m k).
Proof.
  intros Hm Hk st. unfold bind.
  destruct (Hm st) as [Hs Ht].
  destruct (m st) as [[a | e |] st1]; simpl in *; auto.
  destruct (Hk a st1) as [Hs' Ht']. split; congruence.
Qed.

Lemma emits_try_except {A} p evs (m : M World A) (h : PyExc -> M World A) :
  emits p evs m -> (forall e, keeps p (h e)) -> emits p evs (try_except m h).
Proof.
  intros Hm Hh st. unfold try_except.
  destruct (Hm st) as [Hs Ht].
  destruct (m st) as [[a | e |] st1]; simpl in *; auto.
  destruct (Hh e st1) as [Hs' Ht']. split; congruence.
Qed.

(** The step looks the order up exactly once and leaves [SETTINGS] alone. *)
Lemma report_raw_one_lookup acc deal_id :
  emits is_get_order [EvGetOrder deal_id]
        (_report_deal_problem_raw env acc deal_id).
Proof.
  unfold _report_deal_problem_raw, order_still_paid.
  apply emits_try_except; [| intros; apply keeps_ret].
  apply emits_bind.
  - apply emits_try_except; [| intros; apply keeps_ret].
    apply emits_bind; [apply emits_call; reflexivity | intros; apply keeps_ret].
  - intros paid.
    pose proof (keeps_api_get env is_get_order (fun _ => eq_refl)).
    pose proof (keeps_create_ticket env is_get_order (fun _ => eq_refl)).
    keeps_tac.
Qed.

(** The batch loop: every identifier is looked up, in order; the result
    extends [reported] by a subsequence of the identifiers; nothing is
    raised, saved or assigned. *)
Lemma report_from_spec acc ids :
  forall i reported st,
  exists extra st',
    report_from env acc i ids reported st = (Val (reported ++ extra), st') /\
    subseq extra ids /\
    SETTINGS st' = SETTINGS st /\
    filter is_get_order (trace st')
    = filter is_get_order (trace st) ++ map EvGetOrder ids /\
    filter is_save (trace st') = filter is_save (trace st).
Proof.
  induction ids as [| deal_id rest IH]; intros i reported st.
  - exists [], st. cbn [report_from ret map]. rewrite !app_nil_r.
    repeat split. constructor.
  - cbn [report_from]. unfold bind at 1.
    assert (Hs : exists st0,
               (if 0 <? i then sleep 2 else ret tt) st = (Val tt, st0) /\
               SETTINGS st0 = SETTINGS st /\
               filter is_get_order (trace st0) = filter is_get_order (trace st) /\
               filter is_save (trace st0) = filter is_save (trace st)).
    { destruct (0 <? i).
      - eexists. split; [reflexivity |]. cbn [SETTINGS trace].
        rewrite !filter_app. simpl. rewrite !app_nil_r. auto.
      - exists st. auto. }
    destruct Hs as [st0 [E0 [S0 [O0 V0]]]]. rewrite E0.
    unfold bind at 1.
    destruct (report_raw_returns acc deal_id st0) as [b [st1 E1]].
    destruct (report_raw_one_lookup acc deal_id st0) as [S1 O1].
    destruct (keeps_report_raw is_save acc deal_id (fun _ => eq_refl) eq_refl st0)
      as [_ V1].
    rewrite E1 in *. cbn [snd] in *.
    destruct (IH (i + 1) (if b then reported ++ [deal_id] else reported) st1)
      as [extra [st' [E [Sub [S2 [O2 V2]]]]]].
    rewrite E.
    exists (if b then deal_id :: extra else extra), st'.
    split; [| split; [| split; [| split]]].
    + destruct b; [rewrite <- app_assoc |]; reflexivity.
    + destruct b; constructor; exact Sub.
    + congruence.
    + rewrite O2, O1, O0. rewrite <- app_assoc. reflexivity.
    + congruence.
Qed.
End Orchestrator.

Section Containment.
Context {World : Type} (env : Env World).

(** A lookup that raises, or an order that is not [PAID]. *)
Lemma report_raw_unpaid acc deal_id (st : St World) w r :
  acc_get_order env (world st) deal_id = (w, r) -> r <> Ok PAID ->
  fst (_report_deal_problem_raw env acc deal_id st) = Val false.
Proof.
  intros Hg Hr.
  unfold _report_deal_problem_raw, try_except, bind, order_still_paid,
    try_except, bind, call.
  rewrite Hg. destruct r as [[| |] | e]; try congruence; reflexivity.
Qed.

(** The bootstrap raises. *)
Lemma report_raw_bootstrap_fails acc deal_id (st st1 st2 : St World) e :
  order_still_paid env deal_id st = (Val true, st1) ->
  api_get env (FunPaySupportAPI_init acc) st1 = (Exn e, st2) ->
  _report_deal_problem_raw env acc deal_id st = (Val false, st2).
Proof.
  intros H1 H2. unfold _report_deal_problem_raw, try_except, bind.
  rewrite H1. cbn [negb]. rewrite H2. reflexivity.
Qed.

(** The submission raises. *)
Lemma report_raw_submission_fails acc deal_id (st st1 st2 st3 : St World)
      api e :
  order_still_paid env deal_id st = (Val true, st1) ->
  api_get env (FunPaySupportAPI_init acc) st1 = (Val api, st2) ->
  create_ticket env api (Some deal_id) (ticket_comment deal_id) st2
  = (Exn e, st3) ->
  _report_deal_problem_raw env acc deal_id st = (Val false, st3).
Proof.
  intros H1 H2 H3. unfold _report_deal_problem_raw, try_except, bind.
  rewrite H1. cbn [negb]. rewrite H2, H3. reflexivity.
Qed.

(** The portal answers: the step is the reading of the answer, [False]
    when the reading raises. *)
Lemma report_raw_answered acc deal_id (st st1 st2 st3 : St World)
      api response :
  order_still_paid env deal_id st = (Val true, st1) ->
  api_get env (FunPaySupportAPI_init acc) st1 = (Val api, st2) ->
  create_ticket env api (Some deal_id) (ticket_comment deal_id) st2
  = (Val response, st3) ->
  _report_deal_problem_raw env acc deal_id st
  = (Val match response_is_success env response with
         | Ok b => b
         | Raise _ => false
         end, st3).
Proof.
  intros H1 H2 H3. unfold _report_deal_problem_raw, try_except, bind.
  rewrite H1. cbn [negb]. rewrite H2, H3.
  destruct (response_is_success env response); reflexivity.
Qed.

(** The loop is the chain of its steps. *)
Lemma report_from_steps acc ids :
  forall i reported st,
  exists extra st',
    report_from env acc i ids reported st = (Val (reported ++ extra), st') /\
    batch_steps env acc i ids st extra st'.
Proof.
  induction ids as [| deal_id rest IH]; intros i reported st.
  - exists [], st. cbn [report_from ret]. rewrite app_nil_r.
    split; [reflexivity | constructor].
  - cbn [report_from]. unfold bind at 1.
    assert (E0 : (if 0 <? i then sleep 2 else ret tt) st
                 = (Val tt, if 0 <? i then snd (sleep 2 st) else st))
      by (destruct (0 <? i); reflexivity).
    rewrite E0. unfold bind at 1.
    destruct (report_raw_returns env acc deal_id
                (if 0 <? i then snd (sleep 2 st) else st)) as [b [st1 E1]].
    rewrite E1.
    destruct (IH (i + 1) (if b then reported ++ [deal_id] else reported) st1)
      as [extra [st' [E S]]].
    rewrite E.
    exists (if b then deal_id :: extra else extra), st'. split.
    + destruct b; [rewrite <- app_assoc |]; reflexivity.
    + apply batch_step with (st1 := st1); assumption.
Qed.
End Containment.

(** C8. The per-order step never raises and answers [False] for every
    failure: a lookup that raises or finds the order no longer [PAID], a
    session bootstrap that raises, a submission that raises; once the portal
    has answered, the step is the reading of the answer, [False] when the
    reading raises. So the batch returns normally: it is the chain of the
    steps of all its identifiers, in order, each started in the state the
    previous one left, and its result holds the identifiers whose step
    answered [True]. *)
Theorem batch_contains_failures {World} (env : Env World) (acc : Account)
        (orders_ids : list pystr) (st : St World) :
  (forall deal_id st0,
      (exists b st1,
          _report_deal_problem_raw env acc deal_id st0 = (Val b, st1)) /\
      (forall w r,
          acc_get_order env (world st0) deal_id = (w, r) -> r <> Ok PAID ->
          fst (_report_deal_problem_raw env acc deal_id st0) = Val false) /\
      (forall st1 e st2,
          order_still_paid env deal_id st0 = (Val true, st1) ->
          api_get env (FunPaySupportAPI_init acc) st1 = (Exn e, st2) ->
          _report_deal_problem_raw env acc deal_id st0 = (Val false, st2)) /\
      (forall st1 api st2 e st3,
          order_still_paid env deal_id st0 = (Val true, st1) ->
          api_get env (FunPaySupportAPI_init acc) st1 = (Val api, st2) ->
          create_ticket env api (Some deal_id) (ticket_comment deal_id) st2
          = (Exn e, st3) ->
          _report_deal_problem_raw env acc deal_id st0 = (Val false, st3)) /\
      (forall st1 api st2 response st3,
          order_still_paid env deal_id st0 = (Val true, st1) ->
          api_get env (FunPaySupportAPI_init acc) st1 = (Val api, st2) ->
          create_ticket env api (Some deal_id) (ticket_comment deal_id) st2
          = (Val response, st3) ->
          _report_deal_problem_raw env acc deal_id st0
          = (Val match response_is_success env response with
                 | Ok b => b
                 | Raise _ => false
                 end, st3))) /\
  exists reported st',
    report_deal_problems env acc orders_ids st = (Val reported, st') /\
    batch_steps env acc 0 orders_ids st reported st' /\
    filter is_get_order (trace st')
    = filter is_get_order (trace st) ++ map EvGetOrder orders_ids /\
    subseq reported orders_ids.
Proof.
  split.
  - intros deal_id st0. split; [apply report_raw_returns |].
    split; [intros w r; apply report_raw_unpaid |].
    split; [intros st1 e st2; apply report_raw_bootstrap_fails |].
    split; [intros st1 api st2 e st3; apply report_raw_submission_fails |].
    intros st1 api st2 response st3. apply report_raw_answered.
  - unfold report_deal_problems.
    destruct (report_from_spec env acc orders_ids 0 [] st)
      as [extra [st' [E [Sub [_ [O _]]]]]].
    destruct (report_from_steps env acc orders_ids 0 [] st)
      as [extra' [st'' [E' S]]].
    rewrite E in E'. inversion E'; subst.
    exists extra', st''. auto.
Qed.

(** The lookup of "bad1" raises, "bad2" is closed, the transport breaks on
    the submission for "bad3": each step answers [False], and the batch
    still escalates the fourth order. *)
Lemma batch_contains_failures_witness :
  fst (_report_deal_problem_raw (script_env flaky) test_account (py "bad1") st0)
  = Val false /\
  fst (_report_deal_problem_raw (script_env flaky) test_account (py "bad2") st0)
  = Val false /\
  fst (_report_deal_problem_raw (script_env flaky) test_account (py "bad3") st0)
  = Val false /\
  fst (report_deal_problems (script_env flaky) test_account
         [py "bad1"; py "bad2"; py "bad3"; py "good"] st0)
  = Val [py "good"].
Proof.
  pose proof (batch_contains_failures (script_env flaky) test_account
                [py "bad1"; py "bad2"; py "bad3"; py "good"] st0) as [Step Batch].
  split; [| split; [| split]].
  - apply (proj1 (proj2 (Step (py "bad1") st0))
             tt (Raise (OtherError "RequestFailedError")));
      [reflexivity | discriminate].
  - apply (proj1 (proj2 (Step (py "bad2") st0)) tt (Ok CLOSED));
      [reflexivity | discriminate].
  - destruct (Step (py "bad3") st0) as [_ [_ [_ [Sub _]]]].
    rewrite (Sub (snd (order_still_paid (script_env flaky) (py "bad3") st0))
                 (match fst (api_get (script_env flaky)
                                (FunPaySupportAPI_init test_account)
                                (snd (order_still_paid (script_env flaky)
                                        (py "bad3") st0))) with
                  | Val api => api
                  | _ => test_api
                  end)
                 (snd (api_get (script_env flaky)
                         (FunPaySupportAPI_init test_account)
                         (snd (order_still_paid (script_env flaky)
                                 (py "bad3") st0))))
                 (OtherError "ConnectionError")
                 (snd (_report_deal_problem_raw (script_env flaky)
                         test_account (py "bad3") st0)));
      [reflexivity | vm_compute; reflexivity | vm_compute; reflexivity
       | vm_compute; reflexivity].
  - destruct Batch as [reported [st' [E _]]].
    revert E. vm_compute. intros E. inversion E. reflexivity.
Defined.

(** Three orders fail in three ways and the fourth is still escalated. *)
Example failures_do_not_abort :
  fst (report_deal_problems (script_env flaky) test_account
         [py "bad1"; py "bad2"; py "bad3"; py "good"] (start Settings_default))
  = Val [py "good"].
Proof. vm_compute. reflexivity. Qed.

(** ** The send button and the ledger *)

(** What a finished run says about a computation that [keeps]. *)
Lemma keeps_run {World A} p (m : M World A) st o st' :
  keeps p m -> m st = (o, st') ->
  SETTINGS st' = SETTINGS st /\ filter p (trace st') = filter p (trace st).
Proof. intros K E. specialize (K st). rewrite E in K. exact K. Qed.

Lemma finishes_run {World A} (m : M World A) st st' :
  finishes m -> m st = (Fuel, st') -> False.
Proof. intros F E. apply (F st). rewrite E. reflexivity. Qed.

Ltac stop Stop H := inversion H; subst; apply Stop; congruence.
Ltac nofuel E F := exfalso; eapply finishes_run; [apply F | exact E].

Section Handlers.
Context {World : Type} (env : Env World).

Lemma keeps_scan_body p cutoff max_count old start pc :
  p EvNow = false -> p (EvGetSales start) = false -> p (EvSleep 1) = false ->
  keeps p (scan_body env cutoff max_count old start pc).
Proof.
  intros Hn Hg Hs. unfold scan_body, sleep.
  pose proof (keeps_scan_page env p Hn).
  keeps_tac.
Qed.

Lemma keeps_scan_pages p fuel :
  p EvNow = false -> (forall c, p (EvGetSales c) = false) ->
  p (EvSleep 1) = false ->
  forall cutoff max_count old start pc,
    keeps p (scan_pages env fuel cutoff max_count old start pc).
Proof.
  intros Hn Hg Hs.
  induction fuel as [| fuel IH]; intros; cbn [scan_pages].
  - destruct (_ && _); [intros st; split; reflexivity | apply keeps_ret].
  - pose proof (fun c m o s pc => keeps_scan_body p c m o s pc Hn (Hg s) Hs).
    keeps_tac.
Qed.

Lemma keeps_get_old_orders_for_ticket p age_hours max_count :
  p EvNow = false -> (forall c, p (EvGetSales c) = false) ->
  p (EvSleep 1) = false ->
  keeps p (get_old_orders_for_ticket env age_hours max_count).
Proof.
  intros Hn Hg Hs. unfold get_old_orders_for_ticket.
  pose proof (keeps_now env p Hn).
  pose proof (keeps_scan_pages p (Z.to_nat max_pages) Hn Hg Hs).
  keeps_tac.
Qed.

Lemma keeps_bot p c : p (EvBot c) = false -> keeps p (bot env c).
Proof. intros H. apply keeps_call, H. Qed.

Lemma finishes_bot c : finishes (bot env c).
Proof. apply finishes_call. Qed.

Lemma finishes_edit text : finishes (_edit env text).
Proof. unfold _edit. pose proof finishes_bot. finishes_tac. Qed.

Lemma keeps_main_text p status : keeps p (@_main_text World status).
Proof. unfold _main_text. keeps_tac. Qed.

Lemma keeps_edit p text :
  (forall c, p (EvBot c) = false) -> keeps p (_edit env text).
Proof. intros H. unfold _edit. pose proof (fun c => keeps_bot p c (H c)). keeps_tac. Qed.

Lemma keeps_report_deal_problems acc ids st o st' :
  report_deal_problems env acc ids st = (o, st') ->
  exists reported,
    o = Val reported /\ subseq reported ids /\
    SETTINGS st' = SETTINGS st /\
    filter is_save (trace st') = filter is_save (trace st).
Proof.
  unfold report_deal_problems. intros H.
  destruct (report_from_spec env acc ids 0 [] st)
    as [extra [st1 [E [Sub [S1 [_ V1]]]]]].
  rewrite E in H. inversion H; subst. eauto.
Qed.

(** The merge: nothing at all for an empty list, otherwise the list is
    appended to [sent_order_ids] and the settings are saved once. *)
Lemma merge_reported_spec reported st o st' :
  merge_reported env reported st = (o, st') ->
  o <> Fuel /\
  match reported with
  | [] => st' = st /\ o = Val tt
  | _ :: _ =>
      SETTINGS st' =
      mkSettings (order_age_hours (SETTINGS st))
                 (max_orders_in_ticket (SETTINGS st))
                 (sent_order_ids (SETTINGS st) ++ reported) /\
      filter is_save (trace st')
      = filter is_save (trace st) ++ [EvSave (SETTINGS st')]
  end.
Proof.
  unfold merge_reported. destruct reported as [| x r].
  - cbn. intros H. inversion H; subst. split; [discriminate | auto].
  - assert (L : (0 <? len (x :: r)) = true)
      by (apply Z.ltb_lt; unfold len; cbn [length]; lia).
    rewrite L.
    unfold bind, read_settings, write_settings, SETTINGS_save, read_settings,
      bind, call. cbn [SETTINGS world trace].
    destruct (settings_dump env (world st) _) as [w' [[] | e]];
      intros H; inversion H; subst; cbn [SETTINGS trace];
      (split; [discriminate | split; [reflexivity |]]);
      rewrite filter_app; reflexivity.
Qed.

Lemma ledger_step_keeps (st st1 st' : St World) t :
  SETTINGS st1 = SETTINGS st ->
  filter is_save (trace st1) = filter is_save (trace st) ->
  ledger_step st1 st' t -> ledger_step st st' t.
Proof.
  intros S V. destruct t as [r |]; unfold ledger_step.
  - intros [N [S' V']]. split; [exact N | split];
      [rewrite S', S; reflexivity | rewrite V', V; reflexivity].
  - intros [S' V']. split; congruence.
Qed.

(** One press of the send button. *)
Lemma act_send_ticket_spec acc st o st' :
  act_send_ticket env acc st = (o, st') ->
  o <> Fuel /\
  exists touched,
    ledger_step st st' touched /\
    (forall orders reported, o = Val (orders, reported) ->
       all_unsent (SETTINGS st) orders /\
       subseq reported orders /\
       touched = match reported with [] => None | _ :: _ => Some reported end).
Proof.
  unfold act_send_ticket. intros H.
  assert (Kb : forall c, keeps is_save (bot env c))
    by (intros; apply keeps_bot; reflexivity).
  assert (Ke : forall t, keeps is_save (_edit env t))
    by (intros; apply keeps_edit; reflexivity).
  assert (Stop : forall (e : PyExc) st1,
            SETTINGS st1 = SETTINGS st ->
            filter is_save (trace st1) = filter is_save (trace st) ->
            @Exn (list pystr * list pystr) e <> Fuel /\
            exists touched,
              ledger_step st st1 touched /\
              (forall orders reported, Exn e = Val (orders, reported) ->
                 all_unsent (SETTINGS st) orders /\
                 subseq reported orders /\
                 touched = match reported with
                           | [] => None | _ :: _ => Some reported end)).
  { intros e st1 S V. split; [discriminate |]. exists None.
    split; [split; assumption | intros; discriminate]. }
  bind_step H u1 st1 E1;
    destruct (keeps_run _ _ _ _ _ (Kb _) E1) as [S1 V1];
    [| stop Stop H | nofuel E1 finishes_bot].
  unfold bind in H at 1. unfold _main_text at 1, bind at 1, read_settings at 1 in H.
  cbn [ret] in H.
  bind_step H u2 st2 E2;
    destruct (keeps_run _ _ _ _ _ (Ke _) E2) as [S2 V2];
    [| stop Stop H | nofuel E2 finishes_edit].
  unfold bind in H at 1. unfold read_settings at 1 in H.
  bind_step H orders st3 E3;
    destruct (keeps_run _ _ _ _ _
                (keeps_get_old_orders_for_ticket is_save _ _ eq_refl
                   (fun _ => eq_refl) eq_refl) E3) as [S3 V3];
    destruct (get_old_orders_for_ticket_spec env _ _ _ _ _ E3)
      as [_ [_ [N3 U3]]];
    [| stop Stop H | congruence].
  destruct (U3 _ eq_refl) as [Un _]. rewrite S2, S1 in Un. clear U3 N3.
  destruct orders as [| o1 orders].
  - unfold bind in H at 1. unfold _main_text at 1, bind at 1, read_settings at 1 in H.
    cbn [ret] in H.
    bind_step H u4 st4 E4;
      destruct (keeps_run _ _ _ _ _ (Ke _) E4) as [S4 V4];
      [| stop Stop H | nofuel E4 finishes_edit].
    inversion H; subst. split; [discriminate |]. exists None.
    split; [split; congruence |].
    intros os rs E. inversion E; subst. repeat split; [exact Un | constructor].
  - bind_step H reported st4 E4;
      destruct (keeps_report_deal_problems _ _ _ _ _ E4)
        as [rep [Er [Sub [S4 V4]]]]; try discriminate.
    inversion Er; subst rep. clear Er.
    unfold bind in H at 1. unfold _main_text at 1, bind at 1, read_settings at 1 in H.
    cbn [ret] in H.
    bind_step H u5 st5 E5;
      destruct (keeps_run _ _ _ _ _ (Ke _) E5) as [S5 V5];
      [| stop Stop H | nofuel E5 finishes_edit].
    bind_step H u6 st6 E6.
    2: { exfalso. revert E6. unfold try_except.
         destruct (bot env _ st5) as [[? | ? |] ?] eqn:B; discriminate. }
    2: { exfalso. revert E6. unfold try_except.
         destruct (bot env _ st5) as [[? | ? |] ?] eqn:B; try discriminate.
         intros _. nofuel B finishes_bot. }
    assert (K6 : SETTINGS st6 = SETTINGS st5 /\
                 filter is_save (trace st6) = filter is_save (trace st5)).
    { eapply keeps_run; [| exact E6].
      apply keeps_try_except; [apply Kb | intros; apply keeps_ret]. }
    destruct K6 as [S6 V6].
    assert (S : SETTINGS st6 = SETTINGS st) by congruence.
    assert (V : filter is_save (trace st6) = filter is_save (trace st))
      by congruence.
    bind_step H u7 st7 E7;
      destruct (merge_reported_spec _ _ _ _ E7) as [N7 M7]; try congruence.
    + inversion H; subst. split; [discriminate |].
      exists (match reported with [] => None | _ :: _ => Some reported end).
      split.
      * apply (ledger_step_keeps st st6 st' _ S V).
        destruct reported as [| r0 rs]; cbn.
        -- destruct M7 as [-> _]. auto.
        -- destruct M7 as [M V7]. repeat split; [discriminate | exact M | exact V7].
      * intros os rs E. inversion E; subst. auto.
    + inversion H; subst. split; [discriminate |].
      exists (match reported with [] => None | _ :: _ => Some reported end).
      split.
      * apply (ledger_step_keeps st st6 st' _ S V).
        destruct reported as [| r0 rs]; cbn.
        -- destruct M7 as [_ M7]. discriminate.
        -- destruct M7 as [M V7]. repeat split; [discriminate | exact M | exact V7].
      * intros; discriminate.
Qed.
End Handlers.

(** C10. A run of [act_send_ticket] in which no order was escalated leaves
    [SETTINGS] as it was and saves nothing; whatever the run does, the ledger
    is either untouched or extended by a non-empty list and saved once. *)
Theorem no_success_leaves_ledger {World} (env : Env World) (acc : Account)
        (st : St World) :
  (forall orders reported st',
      act_send_ticket env acc st = (Val (orders, reported), st') ->
      len reported = 0 ->
      SETTINGS st' = SETTINGS st /\
      filter is_save (trace st') = filter is_save (trace st)) /\
  (forall o st',
      act_send_ticket env acc st = (o, st') ->
      exists touched, ledger_step st st' touched).
Proof.
  split.
  - intros orders reported st' H L.
    destruct (act_send_ticket_spec env acc st _ st' H) as [_ [t [Ls P]]].
    destruct (P _ _ eq_refl) as [_ [_ ->]].
    destruct reported; [exact Ls | discriminate].
  - intros o st' H.
    destruct (act_send_ticket_spec env acc st _ st' H) as [_ [t [Ls _]]].
    eauto.
Qed.

(** With every order closed in the meantime, two candidates are found,
    none is escalated, and nothing is saved. *)
Lemma no_success_leaves_ledger_witness :
  fst (act_send_ticket (script_env all_closed) test_account
         (start Settings_default)) = Val ([py "A30"; py "C40"], []) /\
  SETTINGS (snd (act_send_ticket (script_env all_closed) test_account
                   (start Settings_default))) = Settings_default /\
  filter is_save
    (trace (snd (act_send_ticket (script_env all_closed) test_account
                   (start Settings_default)))) = [].
Proof.
  split; [vm_compute; reflexivity |].
  apply (proj1 (no_success_leaves_ledger (script_env all_closed) test_account
                  (start Settings_default))
           [py "A30"; py "C40"] []).
  - vm_compute; reflexivity.
  - reflexivity.
Defined.

(** C2, as the specification states it, fails: the merge is a plain
    [extend], so the same candidate handed to the Orchestrator twice, with
    every ticket accepted, is stored twice. *)
Lemma same_candidates_stored_twice :
  fst (report_deal_problems (script_env happy) test_account [py "A30"]
         (start Settings_default)) = Val [py "A30"] /\
  sent_order_ids
    (SETTINGS (snd ((escalate_and_merge (script_env happy) test_account
                       [py "A30"] ;;;
                     escalate_and_merge (script_env happy) test_account
                       [py "A30"]) (start Settings_default))))
  = [py "A30"; py "A30"] /\
  ~ NoDup [py "A30"; py "A30"].
Proof.
  split; [vm_compute; reflexivity |].
  split; [vm_compute; reflexivity |].
  intros N. inversion N as [| x l Hin _]; subst. apply Hin. left; reflexivity.
Qed.

Section AlwaysSucceeds.
Context {World : Type} (env : Env World).
Hypothesis transport_answers :
  forall w r, exists response, snd (requests_call env w r) = Ok response.

Lemma request_answers r (st : St World) :
  exists response st', request env r st = (Val response, st').
Proof.
  unfold request, call.
  destruct (transport_answers (world st) r) as [response E].
  destruct (requests_call env (world st) r) as [w' x]. cbn [snd] in E.
  subst x. eauto.
Qed.

Lemma follow_redirects_answers mk hops :
  forall link (st : St World),
  exists r st', follow_redirects env hops mk link st = (Val r, st').
Proof.
  induction hops as [| n IH]; intros link st; cbn [follow_redirects].
  - unfold ret. eauto.
  - unfold bind.
    destruct (request_answers (mk link) st) as [response [st1 ->]].
    destruct (stops_following response); [unfold ret; eauto | apply IH].
Qed.

Lemma method_answers self meth url headers payload excl (st : St World) :
  exists response st',
    method env self meth url headers payload excl st = (Val response, st').
Proof.
  unfold method, bind.
  destruct (follow_redirects_answers
              (hop_request self meth (method_headers self headers excl) payload)
              10 url st) as [[response |] [st1 ->]].
  - unfold ret. eauto.
  - apply request_answers.
Qed.
End AlwaysSucceeds.

Section SameCandidates.
Context {World : Type} (env : Env World).
Hypothesis backend : backend_always_succeeds env.

Lemma api_get_answers self (st : St World) :
  exists api st', api_get env self st = (Val api, st').
Proof.
  destruct backend as [_ [Tr [Cfg _]]].
  unfold api_get. unfold bind at 1.
  destruct (method_answers env Tr self S_GET URL_ROOT [] [] true st)
    as [r1 [st1 ->]].
  unfold bind at 1.
  match goal with
  | |- context [method env ?s S_GET URL_ROOT [] [] false st1] =>
      destruct (method_answers env Tr s S_GET URL_ROOT [] [] false st1)
        as [r2 [st2 ->]]
  end.
  unfold bind. destruct (Cfg r2) as [data [token [E1 E2]]].
  rewrite E1. cbn [lift ret]. rewrite E2. cbn [lift ret].
  unfold ret. eexists; eexists; reflexivity.
Qed.

Lemma create_ticket_answers self order_id comment (st : St World) :
  exists answer st',
    create_ticket env self order_id comment st = (Val answer, st') /\
    response_is_success env answer = Ok true.
Proof.
  destruct backend as [_ [Tr [_ [Tok Ans]]]].
  unfold create_ticket, get_ticket_token. unfold bind at 1. unfold bind at 1.
  match goal with
  | |- context [method env self S_GET URL_NEW_TICKET ?h [] false st] =>
      destruct (method_answers env Tr self S_GET URL_NEW_TICKET h [] false st)
        as [r1 [st1 ->]]
  end.
  destruct (Tok r1) as [tk ->]. cbn [lift ret]. unfold bind.
  match goal with
  | |- context [method env self S_POST URL_CREATE_TICKET ?h ?p false st1] =>
      destruct (method_answers env Tr self S_POST URL_CREATE_TICKET h p false st1)
        as [r2 [st2 ->]]
  end.
  destruct (Ans r2) as [answer [E S]]. rewrite E. cbn [lift ret].
  unfold ret. exists answer. eexists. split; [reflexivity | exact S].
Qed.

(** With such a backend the step answers [True] for every order. *)
Lemma report_raw_succeeds acc deal_id (st : St World) :
  exists st', _report_deal_problem_raw env acc deal_id st = (Val true, st').
Proof.
  assert (P : exists st1, order_still_paid env deal_id st = (Val true, st1)).
  { destruct backend as [Paid _].
    unfold order_still_paid, try_except, bind, call.
    pose proof (Paid (world st) deal_id) as P.
    destruct (acc_get_order env (world st) deal_id) as [w1 s]. cbn [snd] in P.
    subst s. cbn [ret status_eqb]. eauto. }
  destruct P as [st1 P].
  destruct (api_get_answers (FunPaySupportAPI_init acc) st1) as [api [st2 G]].
  destruct (create_ticket_answers api (Some deal_id) (ticket_comment deal_id) st2)
    as [answer [st3 [C S]]].
  exists st3. unfold _report_deal_problem_raw, try_except, bind.
  rewrite P. cbn [negb]. rewrite G, C, S. reflexivity.
Qed.

(** So the batch reports every identifier it is given. *)
Lemma report_from_all acc ids :
  forall i reported (st : St World),
  exists st', report_from env acc i ids reported st = (Val (reported ++ ids), st').
Proof.
  induction ids as [| deal_id rest IH]; intros i reported st.
  - cbn [report_from]. rewrite app_nil_r. unfold ret. eauto.
  - cbn [report_from]. unfold bind at 1.
    assert (E0 : exists st0, (if 0 <? i then sleep 2 else ret tt) st = (Val tt, st0))
      by (destruct (0 <? i); eexists; reflexivity).
    destruct E0 as [st0 ->]. unfold bind at 1.
    destruct (report_raw_succeeds acc deal_id st0) as [st1 ->].
    destruct (IH (i + 1) (reported ++ [deal_id]) st1) as [st' ->].
    rewrite <- app_assoc. cbn [app]. eauto.
Qed.

Lemma report_deal_problems_all acc ids (st : St World) o st' :
  report_deal_problems env acc ids st = (o, st') -> o = Val ids.
Proof.
  unfold report_deal_problems. intros H.
  destruct (report_from_all acc ids 0 [] st) as [st1 E].
  rewrite E in H. inversion H. reflexivity.
Qed.
End SameCandidates.

Section Merge.
Context {World : Type} (env : Env World).

(** The merge appends, whether or not the save that follows raises. *)
Lemma merge_reported_appends reported (st : St World) o st' :
  merge_reported env reported st = (o, st') ->
  sent_order_ids (SETTINGS st') = sent_order_ids (SETTINGS st) ++ reported.
Proof.
  intros H. destruct (merge_reported_spec env reported st o st' H) as [_ M].
  destruct reported as [| r rs].
  - destruct M as [-> _]. rewrite app_nil_r. reflexivity.
  - destruct M as [-> _]. reflexivity.
Qed.

Lemma escalate_and_merge_appends acc ids (st : St World) o st' :
  backend_always_succeeds env ->
  escalate_and_merge env acc ids st = (o, st') ->
  sent_order_ids (SETTINGS st') = sent_order_ids (SETTINGS st) ++ ids.
Proof.
  intros B H. unfold escalate_and_merge in H.
  unfold bind in H.
  destruct (report_deal_problems env acc ids st) as [r st1] eqn:E.
  destruct (keeps_report_deal_problems env acc ids st r st1 E)
    as [rep [-> [_ [S1 _]]]].
  pose proof (report_deal_problems_all env B acc ids st _ _ E) as R.
  inversion R; subst rep.
  rewrite (merge_reported_appends ids st1 o st' H), S1. reflexivity.
Qed.

(** The batch of a press: its result is what a run of
    [report_deal_problems] on the scanned orders returned. *)
Lemma act_send_ticket_batch acc (st : St World) orders reported st' :
  act_send_ticket env acc st = (Val (orders, reported), st') ->
  (orders = [] /\ reported = []) \/
  exists sa sb,
    report_deal_problems env acc orders sa = (Val reported, sb).
Proof.
  unfold act_send_ticket. intros H.
  bind_step H u1 st1 E1; try discriminate.
  unfold bind in H at 1. unfold _main_text at 1, bind at 1, read_settings at 1 in H.
  cbn [ret] in H.
  bind_step H u2 st2 E2; try discriminate.
  unfold bind in H at 1. unfold read_settings at 1 in H.
  bind_step H os st3 E3; try discriminate.
  destruct os as [| o1 os].
  - unfold bind in H at 1. unfold _main_text at 1, bind at 1, read_settings at 1 in H.
    cbn [ret] in H.
    bind_step H u4 st4 E4; try discriminate.
    inversion H; subst. left. auto.
  - bind_step H rep st4 E4; try discriminate.
    unfold bind in H at 1. unfold _main_text at 1, bind at 1, read_settings at 1 in H.
    cbn [ret] in H.
    bind_step H u5 st5 E5; try discriminate.
    bind_step H u6 st6 E6; try discriminate.
    bind_step H u7 st7 E7; try discriminate.
    inversion H; subst. right. eauto.
Qed.

(** One finished press with a backend that always reports success. *)
Lemma act_send_ticket_stores_all acc (st st' : St World) orders reported :
  backend_always_succeeds env ->
  act_send_ticket env acc st = (Val (orders, reported), st') ->
  reported = orders /\
  sent_order_ids (SETTINGS st')
  = sent_order_ids (SETTINGS st) ++ orders /\
  (forall x, In x orders -> ~ In x (sent_order_ids (SETTINGS st))).
Proof.
  intros B H.
  assert (R : reported = orders).
  { destruct (act_send_ticket_batch acc st _ _ _ H) as [[-> ->] | [sa [sb E]]];
      [reflexivity |].
    pose proof (report_deal_problems_all env B acc orders sa _ _ E) as V.
    inversion V. reflexivity. }
  destruct (act_send_ticket_spec env acc st _ st' H) as [_ [t [Ls P]]].
  destruct (P _ _ eq_refl) as [U [_ ->]]. subst reported.
  split; [reflexivity |]. split.
  - destruct orders as [| r rs]; unfold ledger_step in Ls.
    + destruct Ls as [-> _]. rewrite app_nil_r. reflexivity.
    + destruct Ls as [_ [-> _]]. reflexivity.
  - intros x Hx Hs. apply str_in_In in Hs. rewrite (U x Hx) in Hs. discriminate.
Qed.
End Merge.

Lemma NoDup_app_iff {A} (a b : list A) :
  (forall x, In x b -> ~ In x a) ->
  (NoDup (a ++ b) <-> NoDup a /\ NoDup b).
Proof.
  intros D. split.
  - intros N. split; [eapply NoDup_app_remove_r | eapply NoDup_app_remove_l];
      exact N.
  - intros [Na Nb]. induction a as [| x a IH]; [exact Nb |].
    cbn [app]. inversion Na; subst. constructor.
    + intros Hin. apply in_app_or in Hin. destruct Hin as [Hin | Hin]; [auto |].
      apply (D x Hin). left; reflexivity.
    + apply IH; [| assumption]. intros y Hy Ha. apply (D y Hy). right; exact Ha.
Qed.

Lemma twice_not_NoDup {A} (a ids : list A) :
  ids <> [] -> ~ NoDup (a ++ ids ++ ids).
Proof.
  intros Hne N. destruct ids as [| x ids]; [congruence |].
  apply NoDup_app_remove_l in N. cbn [app] in N. inversion N as [| ? ? Hin _]; subst.
  apply Hin, in_or_app. right. left; reflexivity.
Qed.

(** C2, amended. With a support backend that always reports success, the
    Orchestrator run twice on the same candidate list, each run merged,
    leaves the ledger extended by the list twice: every candidate is stored
    twice. Two presses of the send button, each with the candidates its own
    scan finds, store every candidate of both scans, and no candidate of
    the second scan is in the ledger the first press left; the ledger is
    free of duplicates afterwards exactly when it was before and neither scan
    returned an identifier twice. *)
Theorem two_runs_no_duplicates {World} (env : Env World) (acc : Account)
        (st : St World) :
  backend_always_succeeds env ->
  (forall orders_ids o1 st1 o2 st2,
      escalate_and_merge env acc orders_ids st = (o1, st1) ->
      escalate_and_merge env acc orders_ids st1 = (o2, st2) ->
      sent_order_ids (SETTINGS st2)
      = sent_order_ids (SETTINGS st) ++ orders_ids ++ orders_ids /\
      (orders_ids <> [] -> ~ NoDup (sent_order_ids (SETTINGS st2)))) /\
  (forall orders1 reported1 st1 orders2 reported2 st2,
      act_send_ticket env acc st = (Val (orders1, reported1), st1) ->
      act_send_ticket env acc st1 = (Val (orders2, reported2), st2) ->
      reported1 = orders1 /\ reported2 = orders2 /\
      sent_order_ids (SETTINGS st2)
      = sent_order_ids (SETTINGS st) ++ orders1 ++ orders2 /\
      (forall x, In x orders2 ->
                 ~ In x (sent_order_ids (SETTINGS st) ++ orders1)) /\
      (NoDup (sent_order_ids (SETTINGS st2)) <->
       NoDup (sent_order_ids (SETTINGS st)) /\
       NoDup orders1 /\ NoDup orders2)).
Proof.
  intros B. split.
  - intros ids o1 st1 o2 st2 H1 H2.
    pose proof (escalate_and_merge_appends env acc ids st o1 st1 B H1) as E1.
    pose proof (escalate_and_merge_appends env acc ids st1 o2 st2 B H2) as E2.
    assert (E : sent_order_ids (SETTINGS st2)
                = sent_order_ids (SETTINGS st) ++ ids ++ ids)
      by (rewrite E2, E1, <- app_assoc; reflexivity).
    split; [exact E |]. rewrite E. apply twice_not_NoDup.
  - intros orders1 reported1 st1 orders2 reported2 st2 H1 H2.
    destruct (act_send_ticket_stores_all env acc st st1 _ _ B H1)
      as [R1 [E1 D1]].
    destruct (act_send_ticket_stores_all env acc st1 st2 _ _ B H2)
      as [R2 [E2 D2]].
    rewrite E1 in D2, E2.
    split; [exact R1 |]. split; [exact R2 |].
    split; [rewrite E2, <- app_assoc; reflexivity |].
    split; [exact D2 |].
    rewrite E2. rewrite (NoDup_app_iff _ _ D2), (NoDup_app_iff _ _ D1).
    tauto.
Qed.

(** Every ticket is accepted. Handing A30 to the Orchestrator twice stores
    it twice; two presses of the send button store A30 and C40 once each,
    because the second scan finds no candidate. *)
Lemma two_runs_no_duplicates_witness :
  sent_order_ids
    (SETTINGS (snd ((escalate_and_merge (script_env happy) test_account
                       [py "A30"] ;;;
                     escalate_and_merge (script_env happy) test_account
                       [py "A30"]) st0)))
  = [] ++ [py "A30"] ++ [py "A30"] /\
  sent_order_ids
    (SETTINGS (snd ((act_send_ticket (script_env happy) test_account ;;;
                     act_send_ticket (script_env happy) test_account) st0)))
  = [] ++ [py "A30"; py "C40"] ++ [].
Proof.
  assert (B : backend_always_succeeds (script_env happy)).
  { unfold backend_always_succeeds. cbn.
    repeat split; intros; repeat eexists; vm_compute; reflexivity. }
  destruct (two_runs_no_duplicates (script_env happy) test_account st0 B)
    as [Same Scanned].
  split.
  - apply (Same [py "A30"] (Val tt)
             (snd (escalate_and_merge (script_env happy) test_account
                     [py "A30"] st0))
             (Val tt)); vm_compute; reflexivity.
  - apply (Scanned [py "A30"; py "C40"] [py "A30"; py "C40"]
             (snd (act_send_ticket (script_env happy) test_account st0))
             [] []); vm_compute; reflexivity.
Defined.

(** A source that lists A30 twice on one page: the scanner checks an order
    against the ledger, not against what it has collected, so one press
    escalates A30 twice and stores it twice. *)
Example repeated_listing_stored_twice :
  fst (act_send_ticket
         (script_env (with_source (fun _ => Ok (Some (None, page_twice)))))
         test_account st0)
  = Val ([py "A30"; py "A30"], [py "A30"; py "A30"]) /\
  sent_order_ids
    (SETTINGS (snd (act_send_ticket
                      (script_env (with_source
                                     (fun _ => Ok (Some (None, page_twice)))))
                      test_account st0)))
  = [py "A30"; py "A30"].
Proof. split; vm_compute; reflexivity. Qed.

(** ** The two settings handlers *)

(** Case analysis on every answer of a collaborator in the goal. *)
Ltac answers :=
  repeat match goal with
         | |- context [settings_dump ?e ?w ?s] =>
             destruct (settings_dump e w s) as [? [[] | ?]]
         | |- context [bot_call ?e ?w ?c] =>
             destruct (bot_call e w c) as [? [[] | ?]]
         end.

Ltac run_handler :=
  unfold try_except, bind, lift, ret, raise, read_settings, write_settings,
    SETTINGS_save, _main_text, bot, call, bind, read_settings, ret;
  cbn [SETTINGS world trace fst snd].

Section Edits.
Context {World : Type} (env : Env World).

Lemma edit_time_accepts text val st :
  py_int env text = Ok val -> 1 <= val <= 720 ->
  let st' := snd (edit_time_handler env text st) in
  SETTINGS st' = mkSettings val (max_orders_in_ticket (SETTINGS st))
                            (sent_order_ids (SETTINGS st)) /\
  filter is_save (trace st') = filter is_save (trace st) ++ [EvSave (SETTINGS st')].
Proof.
  intros Hi Hb. unfold edit_time_handler. run_handler. rewrite Hi.
  assert (B : (1 <=? val) && (val <=? 720) = true)
    by (apply andb_true_intro; split; apply Z.leb_le; lia).
  rewrite B. cbn [SETTINGS world trace fst snd].
  answers; cbn [SETTINGS world trace fst snd];
    (split; [reflexivity |]);
    repeat rewrite filter_app; cbn [filter is_save]; 
    repeat rewrite app_nil_r; reflexivity.
Qed.

Lemma edit_time_rejects text st :
  (forall val, py_int env text = Ok val -> ~ 1 <= val <= 720) ->
  let st' := snd (edit_time_handler env text st) in
  SETTINGS st' = SETTINGS st /\
  filter is_save (trace st') = filter is_save (trace st).
Proof.
  intros Hi. unfold edit_time_handler. run_handler.
  destruct (py_int env text) as [val | e].
  - assert (B : (1 <=? val) && (val <=? 720) = false).
    { apply andb_false_iff. specialize (Hi val eq_refl).
      destruct (Z.leb_spec 1 val); [right; apply Z.leb_gt; lia | left; reflexivity]. }
    rewrite B. cbn [SETTINGS world trace fst snd].
    answers; cbn [SETTINGS world trace fst snd];
      (split; [reflexivity |]);
      repeat rewrite filter_app; cbn [filter is_save];
      repeat rewrite app_nil_r; reflexivity.
  - answers; cbn [SETTINGS world trace fst snd];
      (split; [reflexivity |]);
      repeat rewrite filter_app; cbn [filter is_save];
      repeat rewrite app_nil_r; reflexivity.
Qed.

Lemma edit_count_accepts text val st :
  py_int env text = Ok val -> 1 <= val <= 50 ->
  let st' := snd (edit_count_handler env text st) in
  SETTINGS st' = mkSettings (order_age_hours (SETTINGS st)) val
                            (sent_order_ids (SETTINGS st)) /\
  filter is_save (trace st') = filter is_save (trace st) ++ [EvSave (SETTINGS st')].
Proof.
  intros Hi Hb. unfold edit_count_handler. run_handler. rewrite Hi.
  assert (B : (1 <=? val) && (val <=? 50) = true)
    by (apply andb_true_intro; split; apply Z.leb_le; lia).
  rewrite B. cbn [SETTINGS world trace fst snd].
  answers; cbn [SETTINGS world trace fst snd];
    (split; [reflexivity |]);
    repeat rewrite filter_app; cbn [filter is_save];
    repeat rewrite app_nil_r; reflexivity.
Qed.

Lemma edit_count_rejects text st :
  (forall val, py_int env text = Ok val -> ~ 1 <= val <= 50) ->
  let st' := snd (edit_count_handler env text st) in
  SETTINGS st' = SETTINGS st /\
  filter is_save (trace st') = filter is_save (trace st).
Proof.
  intros Hi. unfold edit_count_handler. run_handler.
  destruct (py_int env text) as [val | e].
  - assert (B : (1 <=? val) && (val <=? 50) = false).
    { apply andb_false_iff. specialize (Hi val eq_refl).
      destruct (Z.leb_spec 1 val); [right; apply Z.leb_gt; lia | left; reflexivity]. }
    rewrite B. cbn [SETTINGS world trace fst snd].
    answers; cbn [SETTINGS world trace fst snd];
      (split; [reflexivity |]);
      repeat rewrite filter_app; cbn [filter is_save];
      repeat rewrite app_nil_r; reflexivity.
  - answers; cbn [SETTINGS world trace fst snd];
      (split; [reflexivity |]);
      repeat rewrite filter_app; cbn [filter is_save];
      repeat rewrite app_nil_r; reflexivity.
Qed.
End Edits.

(** C9. A value the handler reads as an integer is accepted exactly inside
    the bounds, 1..720 for the age and 1..50 for the batch size: an accepted
    value is assigned to its field and the settings are saved once; a
    rejected one leaves [SETTINGS] as it was and saves nothing. *)
Theorem settings_edits_bounded {World} (env : Env World) (text : option pystr)
        (val : Z) (st : St World) :
  py_int env text = Ok val ->
  let after_time := snd (edit_time_handler env text st) in
  let after_count := snd (edit_count_handler env text st) in
  (1 <= val <= 720 ->
   SETTINGS after_time
   = mkSettings val (max_orders_in_ticket (SETTINGS st))
                (sent_order_ids (SETTINGS st)) /\
   filter is_save (trace after_time)
   = filter is_save (trace st) ++ [EvSave (SETTINGS after_time)]) /\
  (~ 1 <= val <= 720 ->
   SETTINGS after_time = SETTINGS st /\
   filter is_save (trace after_time) = filter is_save (trace st)) /\
  (1 <= val <= 50 ->
   SETTINGS after_count
   = mkSettings (order_age_hours (SETTINGS st)) val
                (sent_order_ids (SETTINGS st)) /\
   filter is_save (trace after_count)
   = filter is_save (trace st) ++ [EvSave (SETTINGS after_count)]) /\
  (~ 1 <= val <= 50 ->
   SETTINGS after_count = SETTINGS st /\
   filter is_save (trace after_count) = filter is_save (trace st)).
Proof.
  intros Hi. cbv zeta. split; [| split; [| split]].
  - apply edit_time_accepts, Hi.
  - intros Hb. apply edit_time_rejects. intros v Hv. congruence.
  - apply edit_count_accepts, Hi.
  - intros Hb. apply edit_count_rejects. intros v Hv. congruence.
Qed.

(** 720 hours and 50 orders are accepted, 721 and 51 are not. *)
Lemma settings_edits_bounded_witness :
  SETTINGS (snd (edit_time_handler (script_env happy) (Some (py "720")) st0))
  = mkSettings 720 10 [] /\
  SETTINGS (snd (edit_time_handler (script_env happy) (Some (py "721")) st0))
  = Settings_default /\
  filter is_save
    (trace (snd (edit_time_handler (script_env happy) (Some (py "721")) st0)))
  = [] /\
  SETTINGS (snd (edit_count_handler (script_env happy) (Some (py "50")) st0))
  = mkSettings 24 50 [] /\
  SETTINGS (snd (edit_count_handler (script_env happy) (Some (py "51")) st0))
  = Settings_default /\
  filter is_save
    (trace (snd (edit_count_handler (script_env happy) (Some (py "51")) st0)))
  = [].
Proof.
  pose proof (settings_edits_bounded (script_env happy) (Some (py "720")) 720
                st0 eq_refl) as H720.
  pose proof (settings_edits_bounded (script_env happy) (Some (py "721")) 721
                st0 eq_refl) as H721.
  pose proof (settings_edits_bounded (script_env happy) (Some (py "50")) 50
                st0 eq_refl) as H50.
  pose proof (settings_edits_bounded (script_env happy) (Some (py "51")) 51
                st0 eq_refl) as H51.
  cbv zeta in *.
  destruct H720 as [A720 _]. destruct H721 as [_ [R721 _]].
  destruct H50 as [_ [_ [A50 _]]]. destruct H51 as [_ [_ [_ R51]]].
  destruct (A720 ltac:(lia)) as [E1 _].
  destruct (R721 ltac:(lia)) as [E2 E3].
  destruct (A50 ltac:(lia)) as [E4 _].
  destruct (R51 ltac:(lia)) as [E5 E6].
  repeat split; assumption.
Defined.

(** The boundary values of the specification, and two texts that are no
    valid value at all. *)
Example edit_boundaries :
  map (fun t => order_age_hours
                  (SETTINGS (snd (edit_time_handler (script_env happy)
                                    (Some (py t)) st0))))
      ["1"; "720"; "0"; "721"; "abc"]%string
  = [1; 720; 24; 24; 24] /\
  map (fun t => max_orders_in_ticket
                  (SETTINGS (snd (edit_count_handler (script_env happy)
                                    (Some (py t)) st0))))
      ["1"; "50"; "0"; "51"; "-3"]%string
  = [1; 50; 10; 10; 10].
Proof. vm_compute. split; reflexivity. Qed.

(** ** The redirect walk of [method] *)

Lemma requests_of_app tr1 tr2 :
  requests_of (tr1 ++ tr2) = requests_of tr1 ++ requests_of tr2.
Proof. unfold requests_of. apply flat_map_app. Qed.

Lemma requests_of_map reqs : requests_of (map EvRequest reqs) = reqs.
Proof. induction reqs as [| r l IH]; simpl; [| rewrite IH]; reflexivity. Qed.

(** When the loop goes on: a redirect status and a target other than "/". *)
Lemma stops_following_false response :
  stops_following response = false <->
  300 <= status_code response < 400 /\
  exists target,
    dict_get (resp_headers response) S_LOCATION = Some target /\
    target <> [] /\ target <> S_SLASH.
Proof.
  unfold stops_following. rewrite !orb_false_iff, negb_false_iff, andb_true_iff.
  rewrite Z.leb_le, Z.ltb_lt, negb_false_iff.
  destruct (dict_get (resp_headers response) S_LOCATION) as [t |]; cbn [truthy opt_or].
  - split.
    + intros [[Hs Ht] He]. split; [exact Hs |]. exists t.
      split; [reflexivity |]. split.
      * destruct t; [discriminate | discriminate].
      * intros ->. rewrite (proj2 (str_eqb_eq _ _) eq_refl) in He. discriminate.
    + intros [Hs [t' [E [Hn Hne]]]]. inversion E; subst t'.
      repeat split; try apply Hs.
      * destruct t; [contradiction | reflexivity].
      * destruct (str_eqb t S_SLASH) eqn:Q; [| reflexivity].
        apply str_eqb_eq in Q. contradiction.
  - split.
    + intros [[_ Ht] _]. discriminate.
    + intros [_ [t [E _]]]. discriminate.
Qed.

Section Redirects.
Context {World : Type} (env : Env World).

Lemma follow_redirects_followed mk k w link reqs w' link' :
  followed env mk k w link reqs w' link' ->
  forall m st, world st = w ->
    follow_redirects env (k + m) mk link st
    = follow_redirects env m mk link'
        (mkSt w' (SETTINGS st) (trace st ++ map EvRequest reqs)).
Proof.
  induction 1 as [w link | n w link w1 response reqs w2 link2 Hc Hs _ IH];
    intros m st Hw.
  - cbn [map Nat.add]. rewrite app_nil_r. subst w. destruct st; reflexivity.
  - cbn [Nat.add follow_redirects]. unfold bind at 1, request, call.
    rewrite Hw, Hc, Hs. fold (location response).
    rewrite IH by reflexivity. cbn [SETTINGS trace map].
    rewrite <- app_assoc. reflexivity.
Qed.

(** The loop issues at most [hops] requests. *)
Lemma follow_redirects_bound mk hops :
  forall link st,
    (length (requests_of (trace (snd (follow_redirects env hops mk link st))))
     <= length (requests_of (trace st)) + hops)%nat /\
    forall r, In r (requests_of (trace (snd (follow_redirects env hops mk link st)))) ->
              In r (requests_of (trace st)) \/ exists l, r = mk l.
Proof.
  induction hops as [| n IH]; intros link st; cbn [follow_redirects].
  - cbn. split; [lia | auto].
  - unfold bind, request.
    destruct (call_state (EvRequest (mk link))
                (fun w => requests_call env w (mk link)) st) as [_ T].
    destruct (call _ _ st) as [[response | e |] st1]; cbn [snd] in *.
    + assert (L : requests_of (trace st1) = requests_of (trace st) ++ [mk link])
        by (rewrite T, requests_of_app; reflexivity).
      destruct (stops_following response).
      * cbn [ret snd]. rewrite L, length_app. cbn. split; [lia |].
        intros r Hin. apply in_app_or in Hin. destruct Hin as [? | [<- | []]]; eauto.
      * destruct (IH (location response) st1) as [B I]. 
        unfold location in *. rewrite L, length_app in B. cbn in B. split; [lia |].
        intros r Hin. destruct (I r Hin) as [Hin' | ?]; auto.
        rewrite L in Hin'. apply in_app_or in Hin'.
        destruct Hin' as [? | [<- | []]]; eauto.
    + rewrite T, requests_of_app, length_app. cbn. split; [lia |].
      intros r Hin. apply in_app_or in Hin. destruct Hin as [? | [<- | []]]; eauto.
    + rewrite T, requests_of_app, length_app. cbn. split; [lia |].
      intros r Hin. apply in_app_or in Hin. destruct Hin as [? | [<- | []]]; eauto.
Qed.

Lemma request_state r st :
  SETTINGS (snd (request env r st)) = SETTINGS st /\
  trace (snd (request env r st)) = trace st ++ [EvRequest r].
Proof. apply call_state. Qed.
End Redirects.

(** C3, amended. [method] walks redirects itself: every call of the loop
    disables the library's own following, a response is followed only when
    its status is 300..399 and its [Location] is present, non-empty and not
    "/", and a response that is not followed is returned at once. At most 10
    calls are made this way. When all 10 were followed, the request is
    issued once more to the original URL, this time without
    [allow_redirects], so under the library's default, and what that call
    gives is the result. A run makes at most 11 calls. *)
Theorem method_redirect_walk {World} (env : Env World)
        (self : FunPaySupportAPI) (meth url : pystr)
        (headers : list (pystr * json)) (payload : list (pystr * option pystr))
        (exclude_phpsessid : bool) (st : St World) :
  let sent_headers := method_headers self headers exclude_phpsessid in
  let hop := hop_request self meth sent_headers payload in
  let final := final_request self meth sent_headers payload url in
  let run := method env self meth url headers payload exclude_phpsessid st in
  (forall response,
      stops_following response = false <->
      300 <= status_code response < 400 /\
      exists target,
        dict_get (resp_headers response) S_LOCATION = Some target /\
        target <> [] /\ target <> S_SLASH) /\
  (length (requests_of (trace (snd run)))
   <= length (requests_of (trace st)) + 11)%nat /\
  (forall k reqs w1 link1 w2 response,
      (k < 10)%nat ->
      followed env hop k (world st) url reqs w1 link1 ->
      requests_call env w1 (hop link1) = (w2, Ok response) ->
      stops_following response = true ->
      run = (Val response,
             mkSt w2 (SETTINGS st)
                  (trace st ++ map EvRequest (reqs ++ [hop link1])))) /\
  (forall reqs w1 link1,
      followed env hop 10 (world st) url reqs w1 link1 ->
      run = request env final
              (mkSt w1 (SETTINGS st) (trace st ++ map EvRequest reqs))) /\
  rq_allow_redirects final = None /\ rq_url final = url.
Proof.
  cbv zeta. split; [exact stops_following_false |].
  split; [| split; [| split; [| split; reflexivity]]].
  - unfold method, bind.
    destruct (follow_redirects_bound env
                (hop_request self meth (method_headers self headers exclude_phpsessid) payload)
                10 url st) as [B _].
    destruct (follow_redirects env 10 _ url st) as [[[response |] | e |] st1];
      unfold ret; cbn [snd] in *; try lia.
    destruct (request_state env
                (final_request self meth
                   (method_headers self headers exclude_phpsessid) payload url) st1)
      as [_ T].
    rewrite T, requests_of_app, length_app. cbn. lia.
  - intros k reqs w1 link1 w2 response Hk F Hc Hs.
    unfold method, bind.
    replace 10%nat with (k + S (9 - k))%nat by lia.
    rewrite (follow_redirects_followed env _ _ _ _ _ _ _ F (S (9 - k)) st eq_refl).
    cbn [follow_redirects]. unfold bind, request, call. cbn [world SETTINGS trace].
    rewrite Hc, Hs. cbn [ret]. rewrite map_app, app_assoc. reflexivity.
  - intros reqs w1 link1 F.
    unfold method, bind.
    replace 10%nat with (10 + 0)%nat by lia.
    rewrite (follow_redirects_followed env _ _ _ _ _ _ _ F 0%nat st eq_refl).
    cbn [follow_redirects ret]. reflexivity.
Qed.

Lemma followed_redirecting n :
  forall link, exists reqs link',
    followed (script_env redirecting) test_hop n tt link reqs tt link' /\
    length reqs = n.
Proof.
  induction n as [| n IH]; intros link.
  - exists [], link. split; [constructor | reflexivity].
  - destruct (IH (location response_302)) as [reqs [link' [F L]]].
    exists (test_hop link :: reqs), link'. split.
    + eapply followed_S; [reflexivity | reflexivity | exact F].
    + cbn. rewrite L. reflexivity.
Qed.

(** Against a portal that always redirects, ten hops are followed and the
    answer to the eleventh call is returned as it is. *)
Lemma method_redirect_walk_witness :
  exists reqs,
    length reqs = 10%nat /\
    method (script_env redirecting) test_api S_GET URL_ROOT [] [] false st0
    = (Val response_302, mkSt tt Settings_default
                           ([] ++ map EvRequest reqs ++ [EvRequest test_final])).
Proof.
  destruct (followed_redirecting 10 URL_ROOT) as [reqs [link' [F L]]].
  exists reqs. split; [exact L |].
  pose proof (method_redirect_walk (script_env redirecting) test_api S_GET
                URL_ROOT [] [] false st0) as W.
  cbv zeta in W. destruct W as [_ [_ [_ [X _]]]].
  rewrite (X reqs tt link' F). reflexivity.
Defined.

(** C3, as the specification states it, fails in its last part: after ten
    followed redirects the eleventh call goes to the original URL without
    [allow_redirects=False], and a [get] of the library follows redirects
    unless told otherwise. *)
Lemma fallback_follows_redirects :
  let reqs :=
    requests_of (trace (snd (method (script_env redirecting) test_api S_GET
                               URL_ROOT [] [] false st0))) in
  length reqs = 11%nat /\
  nth_error reqs 10 = Some test_final /\
  rq_url test_final = URL_ROOT /\
  follows_redirects test_final = true.
Proof. vm_compute. repeat split. Qed.

(** * More of the program *)

Section Selection.
Context {World : Type} (env : Env World).

Lemma order_stamp_parse od t st :
  order_stamp env od = Some t ->
  parse_funpay_date env (o_date od) st = (Val t, st).
Proof.
  unfold order_stamp, parse_funpay_date.
  destruct (o_date od) as [d | s]; [| discriminate].
  destruct (dt_timestamp env d) as [t' | e]; [| discriminate].
  intros E. inversion E; subst. reflexivity.
Qed.

(** On a page dated by [datetime] the inner loop is a pure selection: the
    state is untouched and the identifiers are the eligible ones, in page
    order, until the batch is full. *)
Lemma scan_page_selects cutoff max_count page :
  Forall (fun od => order_stamp env od <> None) page ->
  forall old batch st,
    len old < max_count ->
    exists batch',
      scan_page env cutoff max_count page old batch st
      = (Val (old ++ selected env cutoff (sent_order_ids (SETTINGS st))
                               (max_count - len old) page, batch'), st) /\
      (filter (eligible env cutoff (sent_order_ids (SETTINGS st))) page = [] ->
       batch' = batch ++ page_stamps env page).
Proof.
  unfold selected.
  induction 1 as [| od rest Hod _ IH]; intros old batch st Hlen.
  - exists batch. cbn [scan_page filter map page_stamps].
    rewrite firstn_nil, !app_nil_r. auto.
  - destruct (order_stamp env od) as [t |] eqn:Es; [| congruence].
    assert (Eel : eligible env cutoff (sent_order_ids (SETTINGS st)) od
                  = negb (num_eqb t 0) && num_ltb t cutoff
                    && negb (str_in (o_id od) (sent_order_ids (SETTINGS st))))
      by (unfold eligible; rewrite Es; reflexivity).
    cbn [scan_page filter page_stamps]. rewrite Es, Eel.
    unfold bind at 1. rewrite (order_stamp_parse od t st Es).
    destruct (num_eqb t 0) eqn:Ez; cbn [negb andb].
    + apply IH, Hlen.
    + unfold bind, read_settings. cbv zeta.
      destruct (num_ltb t cutoff && negb (str_in (o_id od) (sent_order_ids (SETTINGS st)))) eqn:El.
      * cbn [map].
        replace (Z.to_nat (max_count - len old))
          with (S (Z.to_nat (max_count - len old - 1))) by lia.
        cbn [firstn].
        assert (L : len (old ++ [o_id od]) = len old + 1)
          by (unfold len; rewrite length_app; cbn [length]; lia).
        destruct (len (old ++ [o_id od]) >=? max_count) eqn:G.
        -- exists (batch ++ [t]). split; [| discriminate].
           unfold ret. f_equal. f_equal.
           assert (Hz : Z.to_nat (max_count - len old - 1) = 0%nat)
             by (rewrite L in G; apply Z.geb_le in G; lia).
           rewrite Hz. reflexivity.
        -- destruct (IH (old ++ [o_id od]) (batch ++ [t]) st) as [b' [E _]].
           { rewrite L in *. rewrite Z.geb_leb in G. apply Z.leb_gt in G. lia. }
           exists b'. split; [| discriminate].
           rewrite E. rewrite <- app_assoc. cbn [app].
           rewrite L. replace (max_count - (len old + 1)) with (max_count - len old - 1) by lia.
           reflexivity.
      * assert (G : (len old >=? max_count) = false)
          by (rewrite Z.geb_leb; apply Z.leb_gt; lia).
        rewrite G.
        destruct (IH old (batch ++ [t]) st Hlen) as [b' [E B]].
        exists b'. split; [exact E |].
        intros F. rewrite (B F), <- app_assoc. reflexivity.
Qed.

(** The scan up to its loop, when the clock arithmetic works. *)
Lemma scanner_prelude age_hours max_count st w1 d c cutoff :
  datetime_now env (world st) = (w1, d) ->
  dt_sub_timedelta d 0 age_hours = Ok c ->
  dt_timestamp env c = Ok cutoff ->
  get_old_orders_for_ticket env age_hours max_count st
  = (r <- scan_pages env (Z.to_nat max_pages) cutoff max_count [] None 0 ;;
     ret (py_slice_to (fst r) max_count))
      (mkSt w1 (SETTINGS st) (trace st ++ [EvNow])).
Proof.
  intros Hn Hc Ht.
  unfold get_old_orders_for_ticket, bind at 1, now, call. rewrite Hn.
  unfold bind at 1. rewrite Hc. cbn [lift ret].
  unfold bind at 1. rewrite Ht. cbn [lift ret]. reflexivity.
Qed.

(** The body of the loop after its fetch. *)
Lemma scan_body_fetched cutoff max_count old start pc st w2 r :
  acc_get_sales env (world st) start = (w2, r) ->
  scan_body env cutoff max_count old start pc st
  = match r with
    | Raise _ => ret (Break old pc)
    | Ok None | Ok (Some (_, [])) => ret (Break old (pc + 1))
    | Ok (Some (next, (_ :: _) as page)) =>
        r <- scan_page env cutoff max_count page old [] ;;
        (if match snd r with
            | [] => false
            | t :: ts => num_geb (num_min t ts) cutoff
            end
         then ret (Break (fst r) (pc + 1))
         else if negb (truthy next) then ret (Break (fst r) (pc + 1))
         else sleep 1 ;;; ret (Continue (fst r) next (pc + 1)))
    end (mkSt w2 (SETTINGS st) (trace st ++ [EvGetSales start])).
Proof.
  intros Hf. unfold scan_body, bind at 1, try_except, bind at 1, call.
  rewrite Hf. destruct r as [[[next [| od page]] |] | e]; reflexivity.
Qed.

(** A loop that breaks in its first pass. *)
Lemma scan_pages_first_break cutoff max_count st ids pc st' :
  1 <= max_count ->
  scan_body env cutoff max_count [] None 0 st = (Val (Break ids pc), st') ->
  scan_pages env (Z.to_nat max_pages) cutoff max_count [] None 0 st
  = (Val (ids, pc), st').
Proof.
  intros Hm Hb. change (Z.to_nat max_pages) with 10%nat. cbn [scan_pages].
  assert (G : (len (@nil pystr) <? max_count) && (0 <? max_pages) = true).
  { apply andb_true_intro. split; [apply Z.ltb_lt; unfold len; cbn; lia | reflexivity]. }
  rewrite G. unfold bind. rewrite Hb. reflexivity.
Qed.

Lemma py_slice_to_firstn {A} (l : list A) n :
  0 <= n -> py_slice_to (firstn (Z.to_nat n) l) n = firstn (Z.to_nat n) l.
Proof.
  intros Hn. unfold py_slice_to.
  destruct (0 <=? n) eqn:E; [| apply Z.leb_gt in E; lia].
  rewrite firstn_firstn, Nat.min_id. reflexivity.
Qed.
End Selection.

(** X1. With a working clock and an order source whose first page is the last
    one (its cursor is falsy), all orders dated by a [datetime] that
    [timestamp()] accepts, the scanner reads the clock once, fetches once
    and returns the eligible orders of the page, in page order, cut at
    [max_count]: those whose timestamp is not 0 and before the cutoff and
    whose identifier is not in [sent_order_ids]. *)
Theorem single_page_selection {World} (env : Env World) age_hours max_count
        (st : St World) w1 d c cutoff w2 next page :
  datetime_now env (world st) = (w1, d) ->
  dt_sub_timedelta d 0 age_hours = Ok c ->
  dt_timestamp env c = Ok cutoff ->
  acc_get_sales env w1 None = (w2, Ok (Some (next, page))) ->
  truthy next = false ->
  Forall (fun od => order_stamp env od <> None) page ->
  1 <= max_count ->
  get_old_orders_for_ticket env age_hours max_count st
  = (Val (selected env cutoff (sent_order_ids (SETTINGS st)) max_count page),
     mkSt w2 (SETTINGS st) (trace st ++ [EvNow; EvGetSales None])).
Proof.
  intros Hn Hc Ht Hf Hnext Hp Hm.
  rewrite (scanner_prelude env _ _ _ _ _ _ _ Hn Hc Ht).
  set (st1 := mkSt w1 (SETTINGS st) (trace st ++ [EvNow])).
  assert (Hb : scan_body env cutoff max_count [] None 0 st1
               = (Val (Break (selected env cutoff (sent_order_ids (SETTINGS st))
                                       max_count page) 1),
                  mkSt w2 (SETTINGS st) (trace st ++ [EvNow; EvGetSales None]))).
  { rewrite (scan_body_fetched env _ _ _ _ _ st1 w2 _ Hf).
    cbn [SETTINGS trace st1]. rewrite <- app_assoc. cbn [app].
    destruct page as [| od page];
      [unfold selected; cbn [filter map]; rewrite firstn_nil; reflexivity |].
    set (st2 := mkSt w2 _ _).
    destruct (scan_page_selects env cutoff max_count (od :: page) Hp [] [] st2)
      as [b [E _]]; [unfold len; cbn; lia |].
    unfold bind. rewrite E. cbn [fst snd app SETTINGS st2].
    replace (max_count - len (@nil pystr)) with max_count
      by (unfold len; cbn; lia).
    rewrite Hnext. cbn [negb].
    destruct (match b with [] => false | _ => _ end); reflexivity. }
  unfold bind. rewrite (scan_pages_first_break env _ _ _ _ _ _ Hm Hb).
  cbn [ret fst]. unfold selected. rewrite py_slice_to_firstn by lia.
  reflexivity.
Qed.

Lemma py_slice_to_nil {A} n : py_slice_to (@nil A) n = [].
Proof. unfold py_slice_to. destruct (0 <=? n); apply firstn_nil. Qed.

(** The page of scenario A with [datetime] dates: A30 and C40 are selected. *)
Lemma single_page_selection_witness :
  get_old_orders_for_ticket (script_env (with_source (fun _ => Ok (Some (None, page_D)))))
                            24 10 st0
  = (Val (selected (script_env happy) cutoff_24 [] 10 page_D),
     mkSt tt Settings_default [EvNow; EvGetSales None]) /\
  selected (script_env happy) cutoff_24 [] 10 page_D = [py "A30"; py "C40"].
Proof.
  split; [| vm_compute; reflexivity].
  apply (single_page_selection
           (script_env (with_source (fun _ => Ok (Some (None, page_D)))))
           24 10 st0 tt noon (mkDatetime 2024 5 9 12 0 0 0) cutoff_24 tt None
           page_D).
  - reflexivity.
  - vm_compute; reflexivity.
  - reflexivity.
  - reflexivity.
  - reflexivity.
  - repeat constructor; discriminate.
  - lia.
Defined.

(** X2. When the first fetch raises, or gives a falsy result or an empty page,
    the scanner returns the empty list after that one fetch: the error of
    the order source is not raised to the caller. *)
Theorem first_fetch_fruitless {World} (env : Env World) age_hours max_count
        (st : St World) w1 d c cutoff w2 r :
  datetime_now env (world st) = (w1, d) ->
  dt_sub_timedelta d 0 age_hours = Ok c ->
  dt_timestamp env c = Ok cutoff ->
  acc_get_sales env w1 None = (w2, r) ->
  fruitless r ->
  1 <= max_count ->
  get_old_orders_for_ticket env age_hours max_count st
  = (Val [], mkSt w2 (SETTINGS st) (trace st ++ [EvNow; EvGetSales None])).
Proof.
  intros Hn Hc Ht Hf Hr Hm.
  rewrite (scanner_prelude env _ _ _ _ _ _ _ Hn Hc Ht).
  set (st1 := mkSt w1 (SETTINGS st) (trace st ++ [EvNow])).
  assert (Hb : exists pc,
             scan_body env cutoff max_count [] None 0 st1
             = (Val (Break [] pc),
                mkSt w2 (SETTINGS st) (trace st ++ [EvNow; EvGetSales None]))).
  { rewrite (scan_body_fetched env _ _ _ _ _ st1 w2 _ Hf).
    cbn [SETTINGS trace st1]. rewrite <- app_assoc. cbn [app].
    destruct r as [[[next [| od page]] |] | e]; try contradiction;
      eexists; reflexivity. }
  destruct Hb as [pc Hb].
  unfold bind. rewrite (scan_pages_first_break env _ _ _ _ _ _ Hm Hb).
  cbn [ret fst]. rewrite py_slice_to_nil. reflexivity.
Qed.

(** An order source that is down. *)
Lemma first_fetch_fruitless_witness :
  get_old_orders_for_ticket
    (script_env (with_source (fun _ => Raise (OtherError "RequestFailedError"))))
    24 10 st0
  = (Val [], mkSt tt Settings_default [EvNow; EvGetSales None]).
Proof.
  apply (first_fetch_fruitless
           (script_env (with_source (fun _ => Raise (OtherError "RequestFailedError"))))
           24 10 st0 tt noon (mkDatetime 2024 5 9 12 0 0 0) cutoff_24 tt
           (Raise (OtherError "RequestFailedError"))).
  - reflexivity.
  - vm_compute; reflexivity.
  - reflexivity.
  - reflexivity.
  - exact I.
  - lia.
Defined.

Lemma filter_none {A} (f : A -> bool) l :
  (forall a, In a l -> f a = false) -> filter f l = [].
Proof.
  induction l as [| a l IH]; intros H; cbn [filter]; [reflexivity |].
  rewrite (H a (or_introl eq_refl)). apply IH. intros b Hb. apply H. right; exact Hb.
Qed.

Lemma num_min_in t ts : In (num_min t ts) (t :: ts).
Proof.
  revert t. induction ts as [| b r IH]; intros t; cbn [num_min].
  - left; reflexivity.
  - destruct (IH (if num_ltb b t then b else t)) as [E | H].
    + rewrite <- E. destruct (num_ltb b t); [right; left | left]; reflexivity.
    + right; right; exact H.
Qed.

Lemma page_stamps_in {World} (env : Env World) page t :
  In t (page_stamps env page) ->
  exists od, In od page /\ order_stamp env od = Some t.
Proof.
  induction page as [| od rest IH]; cbn [page_stamps]; [intros [] |].
  destruct (order_stamp env od) as [t' |] eqn:E.
  - destruct (num_eqb t' 0).
    + intros H. destruct (IH H) as [od' [Hin Hs]]. exists od'. split; [right |]; auto.
    + intros [<- | H].
      * exists od. split; [left; reflexivity | exact E].
      * destruct (IH H) as [od' [Hin Hs]]. exists od'. split; [right |]; auto.
  - intros H. destruct (IH H) as [od' [Hin Hs]]. exists od'. split; [right |]; auto.
Qed.

(** X3. When every order of the first page is dated at or after the cutoff, and
    at least one timestamp is not 0, the scanner returns the empty list
    after that one fetch, whether or not the source names a next page. *)
Theorem newer_page_stops_scan {World} (env : Env World) age_hours max_count
        (st : St World) w1 d c cutoff w2 next page :
  datetime_now env (world st) = (w1, d) ->
  dt_sub_timedelta d 0 age_hours = Ok c ->
  dt_timestamp env c = Ok cutoff ->
  acc_get_sales env w1 None = (w2, Ok (Some (next, page))) ->
  Forall (fun od => exists t, order_stamp env od = Some t /\
                              num_geb t cutoff = true) page ->
  page_stamps env page <> [] ->
  1 <= max_count ->
  get_old_orders_for_ticket env age_hours max_count st
  = (Val [], mkSt w2 (SETTINGS st) (trace st ++ [EvNow; EvGetSales None])).
Proof.
  intros Hn Hc Ht Hf Hp Hs Hm.
  rewrite (scanner_prelude env _ _ _ _ _ _ _ Hn Hc Ht).
  set (st1 := mkSt w1 (SETTINGS st) (trace st ++ [EvNow])).
  assert (Hb : scan_body env cutoff max_count [] None 0 st1
               = (Val (Break [] 1),
                  mkSt w2 (SETTINGS st) (trace st ++ [EvNow; EvGetSales None]))).
  { rewrite (scan_body_fetched env _ _ _ _ _ st1 w2 _ Hf).
    cbn [SETTINGS trace st1]. rewrite <- app_assoc. cbn [app].
    destruct page as [| od page]; [reflexivity |].
    set (st2 := mkSt w2 _ _).
    assert (Hst : Forall (fun od => order_stamp env od <> None) (od :: page)).
    { eapply Forall_impl; [| exact Hp]. intros a [t [E _]]. congruence. }
    assert (Hno : filter (eligible env cutoff (sent_order_ids (SETTINGS st2)))
                         (od :: page) = []).
    { apply filter_none.
      intros a Ha. rewrite Forall_forall in Hp.
      destruct (Hp a Ha) as [t [E G]]. unfold eligible. rewrite E.
      unfold num_ltb. unfold num_geb in G. rewrite G.
      rewrite andb_false_r. reflexivity. }
    destruct (scan_page_selects env cutoff max_count (od :: page) Hst [] [] st2)
      as [b [E B]]; [unfold len; cbn; lia |].
    specialize (B Hno). cbn [app] in B. subst b.
    unfold bind. rewrite E. unfold selected. rewrite Hno.
    cbn [map fst snd app]. rewrite firstn_nil.
    destruct (page_stamps env (od :: page)) as [| t ts] eqn:Ps; [congruence |].
    assert (G : num_geb (num_min t ts) cutoff = true).
    { destruct (page_stamps_in env (od :: page) (num_min t ts)) as [a [Ha Ea]].
      - rewrite Ps. apply num_min_in.
      - rewrite Forall_forall in Hp. destruct (Hp a Ha) as [t' [E' G']].
        congruence. }
    rewrite G. reflexivity. }
  unfold bind. rewrite (scan_pages_first_break env _ _ _ _ _ _ Hm Hb).
  cbn [ret fst]. rewrite py_slice_to_nil. reflexivity.
Qed.

(** Two fresh orders and a cursor to a next page: the next page is not
    asked for. *)
Lemma newer_page_stops_scan_witness :
  get_old_orders_for_ticket
    (script_env (with_source (fun _ => Ok (Some (Some (py "next"), page_new)))))
    24 10 st0
  = (Val [], mkSt tt Settings_default [EvNow; EvGetSales None]).
Proof.
  apply (newer_page_stops_scan
           (script_env (with_source (fun _ => Ok (Some (Some (py "next"), page_new)))))
           24 10 st0 tt noon (mkDatetime 2024 5 9 12 0 0 0) cutoff_24 tt
           (Some (py "next")) page_new).
  - reflexivity.
  - vm_compute; reflexivity.
  - reflexivity.
  - reflexivity.
  - repeat constructor; eexists; split; vm_compute; reflexivity.
  - vm_compute; discriminate.
  - lia.
Defined.

Section Pacing.
Context {World : Type} (env : Env World).

Lemma sleeps_snoc tr ev :
  filter is_sleep (tr ++ [ev])
  = filter is_sleep tr ++ (if is_sleep ev then [ev] else []).
Proof. rewrite filter_app. cbn. destruct (is_sleep ev); reflexivity. Qed.

(** A pass of the loop body sleeps once when it goes on, and not at all
    when it breaks or raises. *)
Lemma scan_body_sleeps cutoff max_count old start pc st o st' :
  scan_body env cutoff max_count old start pc st = (o, st') ->
  filter is_sleep (trace st')
  = filter is_sleep (trace st)
    ++ match o with Val (Continue _ _ _) => [EvSleep 1] | _ => [] end.
Proof.
  destruct (acc_get_sales env (world st) start) as [w2 r] eqn:Hf.
  rewrite (scan_body_fetched env _ _ _ _ _ st w2 r Hf).
  set (st2 := mkSt w2 _ _).
  assert (S2 : filter is_sleep (trace st2) = filter is_sleep (trace st))
    by (unfold st2; cbn [trace]; rewrite sleeps_snoc; apply app_nil_r).
  clearbody st2.
  assert (Done : forall b, ret b st2 = (o, st') ->
            match b with Break _ _ => True | Continue _ _ _ => False end ->
            filter is_sleep (trace st')
            = filter is_sleep (trace st)
              ++ match o with Val (Continue _ _ _) => [EvSleep 1] | _ => [] end).
  { intros b E Hb. inversion E; subst. destruct b; [| contradiction].
    rewrite app_nil_r. exact S2. }
  destruct r as [[[next [| od page]] |] | e];
    try (intros H; apply (Done _ H I)).
  intros H. bind_step H r st3 E3;
    destruct (keeps_run _ _ _ _ _
                (keeps_scan_page env is_sleep eq_refl cutoff max_count
                   (od :: page) old []) E3) as [_ S3].
  - destruct (match snd r with [] => false | _ => _ end);
      [| destruct (negb (truthy next))].
    + inversion H; subst. rewrite app_nil_r. congruence.
    + inversion H; subst. rewrite app_nil_r. congruence.
    + unfold bind, sleep, emit, ret in H. inversion H; subst.
      cbn [trace]. rewrite sleeps_snoc. cbn. congruence.
  - inversion H; subst. rewrite app_nil_r. congruence.
  - inversion H; subst. rewrite app_nil_r. congruence.
Qed.

Lemma scan_pages_paced fuel :
  forall cutoff max_count old start pc st o st',
    scan_pages env fuel cutoff max_count old start pc st = (o, st') ->
    exists k,
      filter is_sleep (trace st')
      = filter is_sleep (trace st) ++ repeat (EvSleep 1) k /\
      (fetches (trace st') = fetches (trace st) + k \/
       fetches (trace st') = fetches (trace st) + k + 1)%nat.
Proof.
  induction fuel as [| fuel IH]; intros cutoff max_count old start pc st o st' H;
    cbn [scan_pages] in H;
    (destruct (_ && _);
     [| inversion H; subst; exists 0%nat; cbn [repeat];
        rewrite app_nil_r; split; [reflexivity | left; lia]]).
  - inversion H; subst. exists 0%nat. cbn [repeat]. rewrite app_nil_r.
    split; [reflexivity | left; lia].
  - bind_step H step st1 E1;
      pose proof (scan_body_sleeps _ _ _ _ _ _ _ _ E1) as S1;
      destruct (scan_body_spec env _ _ _ _ _ _ _ _ E1) as [_ [F1 _]].
    + destruct step as [old1 pc1 | old1 next pc1].
      * inversion H; subst. exists 0%nat. cbn [repeat].
        split; [exact S1 | right; lia].
      * destruct (IH _ _ _ _ _ _ _ _ H) as [k [S2 F2]].
        exists (S k). split.
        -- rewrite S2, S1, <- app_assoc. reflexivity.
        -- lia.
    + inversion H; subst. exists 0%nat. cbn [repeat].
      split; [exact S1 | right; lia].
    + inversion H; subst. exists 0%nat. cbn [repeat].
      split; [exact S1 | right; lia].
Qed.
End Pacing.

(** X4. Every sleep of a scan lasts one second, and the scan fetches as many
    pages as it sleeps or one more: a scan with [k] sleeps has [k] or
    [k + 1] fetches. *)
Theorem scanner_paces_fetches {World} (env : Env World) age_hours max_count
        (st : St World) :
  let st' := snd (get_old_orders_for_ticket env age_hours max_count st) in
  exists k,
    filter is_sleep (trace st')
    = filter is_sleep (trace st) ++ repeat (EvSleep 1) k /\
    (fetches (trace st') <= fetches (trace st) + k + 1)%nat /\
    (fetches (trace st) + k <= fetches (trace st'))%nat.
Proof.
  cbv zeta.
  destruct (get_old_orders_for_ticket env age_hours max_count st) as [o st']
    eqn:H.
  cbn [snd]. unfold get_old_orders_for_ticket in H.
  assert (Idle : forall st1 : St World,
            filter is_sleep (trace st1) = filter is_sleep (trace st) ->
            fetches (trace st1) = fetches (trace st) ->
            exists k,
              filter is_sleep (trace st1)
              = filter is_sleep (trace st) ++ repeat (EvSleep 1) k /\
              (fetches (trace st1) <= fetches (trace st) + k + 1)%nat /\
              (fetches (trace st) + k <= fetches (trace st1))%nat).
  { intros st1 S F. exists 0%nat. cbn [repeat]. rewrite app_nil_r.
    split; [exact S | lia]. }
  destruct (now_returns env st) as [d [st1 En]].
  destruct (keeps_run _ _ _ _ _ (keeps_now env is_sleep eq_refl) En) as [_ S1].
  destruct (keeps_run _ _ _ _ _ (keeps_now env is_get_sales eq_refl) En)
    as [_ F0].
  assert (F1 : fetches (trace st1) = fetches (trace st))
    by (unfold fetches; rewrite F0; reflexivity).
  clear F0.
  unfold bind in H at 1. rewrite En in H.
  unfold bind in H at 1.
  destruct (dt_sub_timedelta d 0 age_hours) as [c | e]; cbn [lift ret raise] in H;
    [| inversion H; subst; apply Idle; assumption].
  unfold bind in H at 1.
  destruct (dt_timestamp env c) as [cutoff | e]; cbn [lift ret raise] in H;
    [| inversion H; subst; apply Idle; assumption].
  bind_step H r st2 E;
    destruct (scan_pages_paced env _ _ _ _ _ _ _ _ _ E) as [k [S2 F2]];
    inversion H; subst; exists k; (split; [congruence | lia]).
Qed.

(** X5. A scan leaves [SETTINGS] as they are and does nothing to the outside
    but read the clock, fetch pages and sleep: no order lookup, no HTTP
    request, no save and no Telegram call, whatever the order source
    answers. *)
Theorem scanner_is_read_only {World} (env : Env World) age_hours max_count
        (st : St World) :
  let st' := snd (get_old_orders_for_ticket env age_hours max_count st) in
  SETTINGS st' = SETTINGS st /\
  filter is_outside_scan (trace st') = filter is_outside_scan (trace st).
Proof.
  apply (keeps_get_old_orders_for_ticket env is_outside_scan age_hours max_count
           eq_refl (fun _ => eq_refl) eq_refl st).
Qed.

Section MethodTrace.
Context {World : Type} (env : Env World).

(** The loop only issues requests, the first of them to [link]. *)
Lemma follow_redirects_trace mk hops :
  forall link st,
  exists links,
    trace (snd (follow_redirects env hops mk link st))
    = trace st ++ map EvRequest (map mk links) /\
    SETTINGS (snd (follow_redirects env hops mk link st)) = SETTINGS st /\
    (length links <= hops)%nat /\
    (hops <> 0%nat -> exists rest, links = link :: rest).
Proof.
  induction hops as [| n IH]; intros link st; cbn [follow_redirects].
  - exists []. cbn. rewrite app_nil_r. repeat split; [lia | congruence].
  - unfold bind, request.
    destruct (call_state (EvRequest (mk link))
                (fun w => requests_call env w (mk link)) st) as [Sc T].
    destruct (call _ _ st) as [[response | e |] st1]; cbn [snd] in *.
    + destruct (stops_following response).
      * exists [link]. cbn [ret snd map length]. repeat split; auto; [lia | eauto].
      * destruct (IH (opt_or (dict_get (resp_headers response) S_LOCATION) []) st1)
          as [links [T1 [S1 [L1 _]]]].
        exists (link :: links). rewrite T1, T, S1, <- app_assoc. cbn [map app length].
        repeat split; auto; [lia | eauto].
    + exists [link]. cbn [map length]. repeat split; auto; [lia | eauto].
    + exists [link]. cbn [map length]. repeat split; auto; [lia | eauto].
Qed.

(** A call of [method]: it only issues requests, at least one and at most
    eleven, all alike but for the URL, the first to [url] with the library's
    redirect following turned off. *)
Lemma method_trace self meth url headers payload excl st :
  exists r0 rest,
    trace (snd (method env self meth url headers payload excl st))
    = trace st ++ map EvRequest (r0 :: rest) /\
    SETTINGS (snd (method env self meth url headers payload excl st))
    = SETTINGS st /\
    Forall (built_by self meth (method_headers self headers excl) payload)
           (r0 :: rest) /\
    rq_url r0 = url /\ rq_allow_redirects r0 = Some false /\
    (length (r0 :: rest) <= 11)%nat.
Proof.
  unfold method, bind.
  set (hs := method_headers self headers excl).
  destruct (follow_redirects_trace (hop_request self meth hs payload) 10 url st)
    as [links [T [S [L F]]]].
  destruct (F ltac:(lia)) as [rest ->]. clear F.
  assert (B : Forall (built_by self meth hs payload)
                     (map (hop_request self meth hs payload) (url :: rest))).
  { apply Forall_forall. intros r Hr. apply in_map_iff in Hr.
    destruct Hr as [l [<- _]]. repeat split. }
  destruct (follow_redirects env 10 _ url st) as [[[response |] | e |] st1];
    cbn [snd] in *.
  - exists (hop_request self meth hs payload url),
           (map (hop_request self meth hs payload) rest).
    cbn [ret snd]. repeat split; auto.
    cbn [length] in *. rewrite length_map. lia.
  - destruct (call_state (EvRequest (final_request self meth hs payload url))
                (fun w => requests_call env w (final_request self meth hs payload url))
                st1) as [Sc Tc].
    unfold request.
    exists (hop_request self meth hs payload url),
           (map (hop_request self meth hs payload) rest
            ++ [final_request self meth hs payload url]).
    rewrite Tc, T, Sc, S, <- app_assoc.
    split; [| split; [reflexivity | split; [| split; [reflexivity | split; [reflexivity |]]]]].
    + cbn [map app]. rewrite map_app. reflexivity.
    + cbn [map] in B. inversion B; subst. constructor; [assumption |].
      apply Forall_app. split; [assumption |].
      constructor; [repeat split | constructor].
    + cbn [length] in *. rewrite length_app, length_map. cbn. lia.
  - exists (hop_request self meth hs payload url),
           (map (hop_request self meth hs payload) rest).
    repeat split; auto.
    cbn [length] in *. rewrite length_map. lia.
  - exists (hop_request self meth hs payload url),
           (map (hop_request self meth hs payload) rest).
    repeat split; auto.
    cbn [length] in *. rewrite length_map. lia.
Qed.
End MethodTrace.

(** ** Headers *)

Lemma str_eqb_refl a : str_eqb a a = true.
Proof. apply str_eqb_eq. reflexivity. Qed.

Lemma str_eqb_neq a b : a <> b -> str_eqb a b = false.
Proof.
  intros H. destruct (str_eqb a b) eqn:E; [| reflexivity].
  apply str_eqb_eq in E. contradiction.
Qed.

Lemma dict_get_set_same {V} (d : list (pystr * V)) k v :
  dict_get (dict_set d k v) k = Some v.
Proof.
  induction d as [| [k' v'] d IH]; cbn [dict_set dict_get].
  - rewrite str_eqb_refl. reflexivity.
  - destruct (str_eqb k' k) eqn:E; cbn [dict_get].
    + rewrite str_eqb_refl. reflexivity.
    + rewrite E. exact IH.
Qed.

Lemma dict_get_set_other {V} (d : list (pystr * V)) k k' v :
  k <> k' -> dict_get (dict_set d k v) k' = dict_get d k'.
Proof.
  intros Hk. induction d as [| [k0 v0] d IH]; cbn [dict_set dict_get].
  - rewrite (str_eqb_neq _ _ Hk). reflexivity.
  - destruct (str_eqb k0 k) eqn:E; cbn [dict_get].
    + apply str_eqb_eq in E. subst k0. rewrite !(str_eqb_neq _ _ Hk). reflexivity.
    + destruct (str_eqb k0 k'); [reflexivity | exact IH].
Qed.

(** The [Cookie] header of a call. *)
Lemma method_headers_cookie (self : FunPaySupportAPI)
      (headers : list (pystr * json)) (exclude_phpsessid : bool) :
  dict_get (method_headers self headers exclude_phpsessid) S_COOKIE
  = Some (JStr (py "golden_key=" ++ api_golden_key self ++ py "; cookie_prefs=1"
                ++ (if truthy (Some (phpsessid self)) && negb exclude_phpsessid
                    then py "; PHPSESSID=" ++ phpsessid self else []))).
Proof.
  unfold method_headers.
  assert (N : S_COOKIE <> S_USER_AGENT) by (vm_compute; discriminate).
  destruct (api_user_agent self) as [[| c ua] |]; cbn [truthy opt_or].
  - apply dict_get_set_same.
  - rewrite dict_get_set_other by congruence. apply dict_get_set_same.
  - apply dict_get_set_same.
Qed.

(** X6. The headers [method] sends: [Cookie] is always set to the golden key
    and [cookie_prefs=1], followed by the session id only when there is one
    and it is not excluded; [User-Agent] is the one of the account when that
    is truthy, otherwise the one the caller gave, if any; every other header
    is the caller's. *)
Theorem method_headers_lookup (self : FunPaySupportAPI)
        (headers : list (pystr * json)) (exclude_phpsessid : bool) :
  let sent := method_headers self headers exclude_phpsessid in
  dict_get sent S_COOKIE
  = Some (JStr (py "golden_key=" ++ api_golden_key self ++ py "; cookie_prefs=1"
                ++ (if truthy (Some (phpsessid self)) && negb exclude_phpsessid
                    then py "; PHPSESSID=" ++ phpsessid self else []))) /\
  dict_get sent S_USER_AGENT
  = (if truthy (api_user_agent self)
     then option_map JStr (api_user_agent self)
     else dict_get headers S_USER_AGENT) /\
  (forall k, k <> S_COOKIE -> k <> S_USER_AGENT ->
             dict_get sent k = dict_get headers k).
Proof.
  cbv zeta. unfold method_headers.
  assert (N : S_COOKIE <> S_USER_AGENT) by (vm_compute; discriminate).
  destruct (api_user_agent self) as [[| c ua] |]; cbn [truthy opt_or option_map].
  - split; [apply dict_get_set_same | split].
    + apply dict_get_set_other, N.
    + intros k Hc _. apply dict_get_set_other. congruence.
  - split; [| split].
    + rewrite dict_get_set_other by congruence. apply dict_get_set_same.
    + apply dict_get_set_same.
    + intros k Hc Hu. rewrite !dict_get_set_other by congruence. reflexivity.
  - split; [apply dict_get_set_same | split].
    + apply dict_get_set_other, N.
    + intros k Hc _. apply dict_get_set_other. congruence.
Qed.

(** X7. One call of [method] issues at least one request and nothing else; the
    first goes to the given URL with the following of redirects by the
    library turned off, and all of them carry the same verb, headers,
    payload and timeout. [SETTINGS] are untouched. *)
Theorem method_requests_alike {World} (env : Env World)
        (self : FunPaySupportAPI) (meth url : pystr)
        (headers : list (pystr * json)) (payload : list (pystr * option pystr))
        (exclude_phpsessid : bool) (st : St World) :
  let st' := snd (method env self meth url headers payload exclude_phpsessid st) in
  SETTINGS st' = SETTINGS st /\
  exists first rest,
    trace st' = trace st ++ map EvRequest (first :: rest) /\
    rq_url first = url /\
    rq_allow_redirects first = Some false /\
    Forall (built_by self meth
                     (method_headers self headers exclude_phpsessid) payload)
           (first :: rest).
Proof.
  cbv zeta.
  destruct (method_trace env self meth url headers payload exclude_phpsessid st)
    as [r0 [rest [T [S [B [U [A _]]]]]]].
  split; [exact S |]. exists r0, rest. auto.
Qed.

(** X8. [method] does not catch the errors of the transport: when a request of
    the redirect walk raises, after [k < 10] redirects that were followed,
    [method] raises the same error at once and issues no further request. *)
Theorem method_passes_transport_error {World} (env : Env World)
        (self : FunPaySupportAPI) (meth url : pystr)
        (headers : list (pystr * json)) (payload : list (pystr * option pystr))
        (exclude_phpsessid : bool) (st : St World)
        k reqs w1 link1 w2 e :
  let hop := hop_request self meth
               (method_headers self headers exclude_phpsessid) payload in
  (k < 10)%nat ->
  followed env hop k (world st) url reqs w1 link1 ->
  requests_call env w1 (hop link1) = (w2, Raise e) ->
  method env self meth url headers payload exclude_phpsessid st
  = (Exn e, mkSt w2 (SETTINGS st)
                 (trace st ++ map EvRequest (reqs ++ [hop link1]))).
Proof.
  cbv zeta. intros Hk F Hc.
  unfold method, bind.
  replace 10%nat with (k + S (9 - k))%nat by lia.
  rewrite (follow_redirects_followed env _ _ _ _ _ _ _ F (S (9 - k)) st eq_refl).
  cbn [follow_redirects]. unfold bind, request, call. cbn [world SETTINGS trace].
  rewrite Hc. rewrite map_app, app_assoc. reflexivity.
Qed.

(** A transport that is down: the first call raises and so does [method]. *)
Lemma method_passes_transport_error_witness :
  method (script_env flaky) test_api S_POST URL_CREATE_TICKET []
         [(K_ORDER, Some (py "bad3"))] false st0
  = (Exn (OtherError "ConnectionError"),
     mkSt tt Settings_default
          ([] ++ map EvRequest
                     ([] ++ [hop_request test_api S_POST
                               (method_headers test_api [] false)
                               [(K_ORDER, Some (py "bad3"))]
                               URL_CREATE_TICKET]))).
Proof.
  apply (method_passes_transport_error (script_env flaky) test_api S_POST
           URL_CREATE_TICKET [] [(K_ORDER, Some (py "bad3"))] false st0
           0%nat [] tt URL_CREATE_TICKET tt (OtherError "ConnectionError")).
  - lia.
  - constructor.
  - vm_compute; reflexivity.
Defined.

Section Session.
Context {World : Type} (env : Env World).

(** What a run of [method] says, for a run given by its result. *)
Lemma method_run self meth url headers payload excl st o st' :
  method env self meth url headers payload excl st = (o, st') ->
  exists r0 rest,
    trace st' = trace st ++ map EvRequest (r0 :: rest) /\
    SETTINGS st' = SETTINGS st /\
    Forall (built_by self meth (method_headers self headers excl) payload)
           (r0 :: rest) /\
    rq_url r0 = url /\ rq_allow_redirects r0 = Some false /\
    (length (r0 :: rest) <= 11)%nat.
Proof.
  intros H.
  pose proof (method_trace env self meth url headers payload excl st) as T.
  rewrite H in T. exact T.
Qed.

Lemma built_by_get_empty self hs r :
  built_by self S_GET hs [] r -> rq_method r = S_GET /\ rq_data r = [].
Proof. intros [M [_ [D _]]]. auto. Qed.
End Session.

(** X9. [FunPaySupportAPI.get] calls nothing but [requests.get], without
    payload and at most 22 times (two calls of [method], each of at most
    eleven calls of the library; what the library sends on its own when it
    follows redirects for the fallback call is not counted). The first call
    goes to the root of the support site with a [Cookie] of the golden key
    and [cookie_prefs=1] alone, without a session id. When [get] returns,
    the [csrf_token] of the client is the [csrfToken] entry of its
    [app_data], and the account and the golden key are those it was built
    with. *)
Theorem api_get_bootstrap {World} (env : Env World) (self : FunPaySupportAPI)
        (st : St World) o st' :
  api_get env self st = (o, st') ->
  SETTINGS st' = SETTINGS st /\
  (exists first rest,
      trace st' = trace st ++ map EvRequest (first :: rest) /\
      rq_url first = URL_ROOT /\
      dict_get (rq_headers first) S_COOKIE
      = Some (JStr (py "golden_key=" ++ api_golden_key self
                    ++ py "; cookie_prefs=1")) /\
      Forall (fun r => rq_method r = S_GET /\ rq_data r = []) (first :: rest) /\
      (length (first :: rest) <= 22)%nat) /\
  (forall api, o = Val api ->
     json_subscript (app_data api) S_CSRF_KEY = Ok (csrf_token api) /\
     funpay_account api = funpay_account self /\
     api_golden_key api = api_golden_key self).
Proof.
  unfold api_get. intros H.
  assert (C : forall r, built_by self S_GET (method_headers self [] true) [] r ->
            dict_get (rq_headers r) S_COOKIE
            = Some (JStr (py "golden_key=" ++ api_golden_key self
                          ++ py "; cookie_prefs=1"))).
  { intros r [_ [Hh _]]. rewrite Hh.
    rewrite (method_headers_cookie self [] true). rewrite andb_false_r, app_nil_r. reflexivity. }
  assert (G : forall self' hs l,
            Forall (built_by self' S_GET hs []) l ->
            Forall (fun r => rq_method r = S_GET /\ rq_data r = []) l).
  { intros self' hs l F. eapply Forall_impl; [| exact F].
    intros r B. eapply built_by_get_empty; exact B. }
  bind_step H r1 st1 E1;
    destruct (method_run env _ _ _ _ _ _ _ _ _ E1)
      as [q1 [rest1 [T1 [S1 [B1 [U1 [_ L1]]]]]]].
  all: assert (Req1 : exists first rest,
              trace st1 = trace st ++ map EvRequest (first :: rest) /\
              rq_url first = URL_ROOT /\
              dict_get (rq_headers first) S_COOKIE
              = Some (JStr (py "golden_key=" ++ api_golden_key self
                            ++ py "; cookie_prefs=1")) /\
              Forall (fun r => rq_method r = S_GET /\ rq_data r = [])
                     (first :: rest) /\
              (length (first :: rest) <= 22)%nat)
         by (exists q1, rest1;
             split; [exact T1 | split; [exact U1 | split; [| split]]];
             [apply C; inversion B1; assumption | eapply G; exact B1 | lia]).
  2,3: inversion H; subst;
       (split; [exact S1 | split; [exact Req1 | intros; discriminate]]).
  clear Req1.
  set (self1 := set_phpsessid self _) in *.
  bind_step H r2 st2 E2;
    destruct (method_run env _ _ _ _ _ _ _ _ _ E2)
      as [q2 [rest2 [T2 [S2 [B2 [_ [_ L2]]]]]]].
  all: assert (Tr : trace st2
              = trace st ++ map EvRequest (q1 :: rest1 ++ q2 :: rest2))
         by (rewrite T2, T1, <- app_assoc; cbn [map app];
             rewrite map_app; reflexivity).
  all: assert (Fa : Forall (fun r => rq_method r = S_GET /\ rq_data r = [])
                      (q1 :: rest1 ++ q2 :: rest2))
         by (change (q1 :: rest1 ++ q2 :: rest2)
               with ((q1 :: rest1) ++ q2 :: rest2);
             apply Forall_app; split; eapply G; eassumption).
  all: assert (Le : (length (q1 :: rest1 ++ q2 :: rest2) <= 22)%nat)
         by (cbn [length] in *; rewrite length_app; cbn [length]; lia).
  all: assert (Req : exists first rest,
              trace st2 = trace st ++ map EvRequest (first :: rest) /\
              rq_url first = URL_ROOT /\
              dict_get (rq_headers first) S_COOKIE
              = Some (JStr (py "golden_key=" ++ api_golden_key self
                            ++ py "; cookie_prefs=1")) /\
              Forall (fun r => rq_method r = S_GET /\ rq_data r = [])
                     (first :: rest) /\
              (length (first :: rest) <= 22)%nat)
         by (exists q1, (rest1 ++ q2 :: rest2);
             repeat split; auto; apply C; inversion B1; assumption).
  2,3: inversion H; subst;
       (split; [congruence | split; [exact Req | intros; discriminate]]).
  unfold bind in H at 1.
  destruct (bs_app_config env r2) as [data | e]; cbn [lift ret raise] in H;
    [| inversion H; subst;
       (split; [congruence | split; [exact Req | intros; discriminate]])].
  unfold bind in H at 1.
  destruct (json_subscript data S_CSRF_KEY) as [token | e] eqn:Ej;
    cbn [lift ret raise] in H;
    inversion H; subst;
    (split; [congruence | split; [exact Req |]]).
  - intros api Ea. inversion Ea; subst. cbn. auto.
  - intros; discriminate.
Qed.

(** Against the working portal: two calls, the first without a session. *)
Lemma api_get_bootstrap_witness :
  exists first rest,
    trace (snd (api_get (script_env happy) test_api st0))
    = [] ++ map EvRequest (first :: rest) /\
    dict_get (rq_headers first) S_COOKIE
    = Some (JStr (py "golden_key=" ++ py "key" ++ py "; cookie_prefs=1")).
Proof.
  destruct (api_get_bootstrap (script_env happy) test_api st0
              (fst (api_get (script_env happy) test_api st0))
              (snd (api_get (script_env happy) test_api st0)))
    as [_ [[first [rest [T [_ [C _]]]]] _]].
  - vm_compute; reflexivity.
  - exists first, rest. split; [exact T | exact C].
Defined.

Lemma ticket_payload_fields self order_id comment tok :
  dict_get (ticket_payload self order_id comment tok) K_TOKEN = Some tok /\
  dict_get (ticket_payload self order_id comment tok) K_ORDER
  = Some (Some (if truthy order_id then opt_or order_id [] else [])) /\
  dict_get (ticket_payload self order_id comment tok) K_REPORTER
  = Some (Some (username (funpay_account self))).
Proof. repeat split. Qed.

(** X10. [create_ticket] first reads the form of a new ticket with calls of
    [requests.get] without payload; [requests.post] is called only after a
    token was parsed from a response, its first call goes to the creation
    URL, and every call of it carries the payload of the ticket with that
    token. The whole exchange takes at most 22 calls of the library; what
    the library sends on its own when it follows redirects for a fallback
    call is not counted. *)
Theorem create_ticket_requests {World} (env : Env World)
        (self : FunPaySupportAPI) (order_id : option pystr) (comment : pystr)
        (st : St World) o st' :
  create_ticket env self order_id comment st = (o, st') ->
  ticket_exchange env self order_id comment (trace st) (trace st').
Proof.
  unfold create_ticket, get_ticket_token. intros H.
  unfold bind in H at 1. unfold bind in H at 1.
  destruct (method env self S_GET URL_NEW_TICKET _ [] false st)
    as [[r1 | e |] st1] eqn:E1;
    destruct (method_run env _ _ _ _ _ _ _ _ _ E1)
      as [q1 [rest1 [T1 [S1 [B1 [U1 [_ L1]]]]]]].
  all: assert (G1 : Forall (fun r => rq_method r = S_GET /\ rq_data r = [])
                      (q1 :: rest1))
         by (eapply Forall_impl; [| exact B1];
             intros r B; eapply built_by_get_empty; exact B).
  all: assert (Only : ticket_exchange env self order_id comment
                        (trace st) (trace st1))
         by (exists q1, rest1, [];
             rewrite app_nil_r;
             split; [exact T1 | split; [exact U1 | split; [exact G1 | split]]];
             [left; reflexivity | lia]).
  2,3: inversion H; subst; exact Only.
  destruct (bs_ticket_token env r1) as [token | e] eqn:Et;
    cbn [lift ret raise] in H;
    [| inversion H; subst; exact Only].
  clear Only.
  unfold bind in H at 1.
  change (method env self S_POST URL_CREATE_TICKET _ _ false st1)
    with (method env self S_POST URL_CREATE_TICKET
            [ (py "Origin", JStr (py "https://support.funpay.com"));
              (py "Accept", JStr (py "application/json"));
              (py "Content-Type",
               JStr (py "application/x-www-form-urlencoded; charset=UTF-8"));
              (py "X-Requested-With", JStr (py "XMLHttpRequest")) ]
            (ticket_payload self order_id comment token) false st1) in H.
  destruct (method env self S_POST URL_CREATE_TICKET _
              (ticket_payload self order_id comment token) false st1)
    as [[r2 | e |] st2] eqn:E2;
    destruct (method_run env _ _ _ _ _ _ _ _ _ E2)
      as [q2 [rest2 [T2 [S2 [B2 [U2 [_ L2]]]]]]].
  all: assert (Tr : trace st2
              = trace st ++ map EvRequest ((q1 :: rest1) ++ q2 :: rest2))
         by (rewrite T2, T1, <- app_assoc, map_app; reflexivity).
  all: assert (P2 : Forall (fun r =>
                      rq_method r = S_POST /\
                      rq_data r = ticket_payload self order_id comment token)
                      (q2 :: rest2))
         by (eapply Forall_impl; [| exact B2];
             intros r [M [_ [D _]]]; auto).
  all: assert (Both : ticket_exchange env self order_id comment
                        (trace st) (trace st2))
         by (exists q1, rest1, (q2 :: rest2);
             split; [exact Tr | split; [exact U1 | split; [exact G1 | split]]];
             [ right; exists r1, token;
               split; [exact Et | split; [eauto | exact P2]]
             | rewrite length_app; lia ]).
  - destruct (response_json env r2); cbn [lift ret raise] in H;
      inversion H; subst; exact Both.
  - inversion H; subst; exact Both.
  - inversion H; subst; exact Both.
Qed.

(** Against the working portal: the form is read, then the ticket is
    posted. *)
Lemma create_ticket_requests_witness :
  ticket_exchange (script_env happy) test_api (Some (py "A30"))
    (ticket_comment (py "A30")) (trace st0)
    (trace (snd (create_ticket (script_env happy) test_api (Some (py "A30"))
                   (ticket_comment (py "A30")) st0))).
Proof.
  apply (create_ticket_requests (script_env happy) test_api
           (Some (py "A30")) (ticket_comment (py "A30")) st0
           (Val json_ticket_sent)).
  vm_compute; reflexivity.
Defined.

(** X11. When the lookup of an order raises, or its status is not [PAID], the
    step for that order answers [False] after the lookup alone: no HTTP
    request is issued and [SETTINGS] are untouched. *)
Theorem unpaid_order_not_ticketed {World} (env : Env World) (acc : Account)
        (deal_id : pystr) (st : St World) w' r :
  acc_get_order env (world st) deal_id = (w', r) ->
  r <> Ok PAID ->
  _report_deal_problem_raw env acc deal_id st
  = (Val false, mkSt w' (SETTINGS st) (trace st ++ [EvGetOrder deal_id])).
Proof.
  intros Hg Hr.
  unfold _report_deal_problem_raw, try_except, bind, order_still_paid,
    try_except, bind, call.
  rewrite Hg. destruct r as [[| |] | e]; try congruence; reflexivity.
Qed.

(** A closed order and a lookup that fails: in both cases the step answers
    [False] after the lookup alone. *)
Lemma unpaid_order_not_ticketed_witness :
  _report_deal_problem_raw (script_env flaky) test_account (py "bad2") st0
  = (Val false, mkSt tt Settings_default ([] ++ [EvGetOrder (py "bad2")])) /\
  _report_deal_problem_raw (script_env flaky) test_account (py "bad1") st0
  = (Val false, mkSt tt Settings_default ([] ++ [EvGetOrder (py "bad1")])).
Proof.
  split.
  - apply (unpaid_order_not_ticketed (script_env flaky) test_account
             (py "bad2") st0 tt (Ok CLOSED)); [reflexivity | discriminate].
  - apply (unpaid_order_not_ticketed (script_env flaky) test_account
             (py "bad1") st0 tt (Raise (OtherError "RequestFailedError")));
      [reflexivity | discriminate].
Defined.

Section Budget.
Context {World : Type}.

Lemma calls_ret {A} (a : A) : calls_at_most 0 (@ret World A a).
Proof. intros st. cbn. lia. Qed.

Lemma calls_raise {A} e : calls_at_most 0 (@raise World A e).
Proof. intros st. cbn. lia. Qed.

Lemma calls_lift {A} (r : PyResult A) : calls_at_most 0 (@lift World A r).
Proof. destruct r; [apply calls_ret | apply calls_raise]. Qed.

Lemma calls_weaken {A} n n' (m : M World A) :
  (n <= n')%nat -> calls_at_most n m -> calls_at_most n' m.
Proof. intros Hn H st. specialize (H st). lia. Qed.

Lemma calls_bind {A B} n k (m : M World A) (f : A -> M World B) :
  calls_at_most n m -> (forall a, calls_at_most k (f a)) ->
  calls_at_most (n + k) (bind m f).
Proof.
  intros Hm Hf st. unfold bind. specialize (Hm st).
  destruct (m st) as [[a | e |] st1]; cbn [snd] in *; try lia.
  specialize (Hf a st1). lia.
Qed.

Lemma calls_try_except {A} n k (m : M World A) (h : PyExc -> M World A) :
  calls_at_most n m -> (forall e, calls_at_most k (h e)) ->
  calls_at_most (n + k) (try_except m h).
Proof.
  intros Hm Hh st. unfold try_except. specialize (Hm st).
  destruct (m st) as [[a | e |] st1]; cbn [snd] in *; try lia.
  specialize (Hh e st1). lia.
Qed.

Lemma calls_call_other {A} ev (f : World -> World * PyResult A) :
  is_request ev = false -> calls_at_most 0 (call ev f).
Proof.
  intros He st. destruct (call_state ev f st) as [_ T]. rewrite T.
  rewrite requests_of_app. destruct ev; try discriminate; cbn;
    rewrite app_nil_r; lia.
Qed.

Lemma calls_emit ev : is_request ev = false -> calls_at_most 0 (@emit World ev).
Proof.
  intros He st. cbn [emit snd trace].
  rewrite requests_of_app. destruct ev; try discriminate; cbn;
    rewrite app_nil_r; lia.
Qed.
End Budget.

Section StepBudget.
Context {World : Type} (env : Env World).

Lemma calls_method self meth url headers payload excl :
  calls_at_most 11 (method env self meth url headers payload excl).
Proof.
  intros st.
  destruct (method_trace env self meth url headers payload excl st)
    as [r0 [rest [T [_ [_ [_ [_ L]]]]]]].
  rewrite T, requests_of_app, requests_of_map, length_app. lia.
Qed.

Lemma calls_api_get self : calls_at_most 22 (api_get env self).
Proof.
  unfold api_get.
  apply (calls_bind 11 11); [apply calls_method | intros r1].
  apply (calls_bind 11 0); [apply calls_method | intros r2].
  apply (calls_bind 0 0); [apply calls_lift | intros d].
  apply (calls_bind 0 0); [apply calls_lift | intros t; apply calls_ret].
Qed.

Lemma calls_create_ticket self order_id comment :
  calls_at_most 22 (create_ticket env self order_id comment).
Proof.
  unfold create_ticket, get_ticket_token.
  apply (calls_bind 11 11).
  - apply (calls_bind 11 0); [apply calls_method | intros; apply calls_lift].
  - intros tok. apply (calls_bind 11 0);
      [apply calls_method | intros; apply calls_lift].
Qed.

Lemma calls_report_raw acc deal_id :
  calls_at_most 44 (_report_deal_problem_raw env acc deal_id).
Proof.
  unfold _report_deal_problem_raw.
  apply (calls_try_except 44 0); [| intros; apply calls_ret].
  apply (calls_bind 0 44).
  - unfold order_still_paid.
    apply (calls_try_except 0 0); [| intros; apply calls_ret].
    apply (calls_bind 0 0);
      [apply calls_call_other; reflexivity | intros; apply calls_ret].
  - intros paid. destruct (negb paid);
      [apply (calls_weaken 0); [lia | apply calls_ret] |].
    apply (calls_bind 22 22); [apply calls_api_get | intros api].
    apply (calls_bind 22 0);
      [apply calls_create_ticket | intros; apply calls_lift].
Qed.

Lemma report_from_budget acc ids :
  forall i reported st, 0 <= i ->
    (length (requests_of (trace (snd (report_from env acc i ids reported st))))
     <= length (requests_of (trace st)) + 44 * length ids)%nat /\
    filter is_sleep (trace (snd (report_from env acc i ids reported st)))
    = filter is_sleep (trace st)
      ++ repeat (EvSleep 2)
           (if 0 <? i then length ids else (length ids - 1)%nat).
Proof.
  induction ids as [| deal_id rest IH]; intros i reported st Hi.
  - cbn [report_from ret snd length repeat].
    destruct (0 <? i); cbn [repeat Nat.sub]; rewrite app_nil_r;
      (split; [lia | reflexivity]).
  - assert (Hs : exists st0,
               (if 0 <? i then sleep 2 else ret tt) st = (Val tt, st0) /\
               requests_of (trace st0) = requests_of (trace st) /\
               filter is_sleep (trace st0)
               = filter is_sleep (trace st)
                 ++ (if 0 <? i then [EvSleep 2] else [])).
    { destruct (0 <? i).
      - eexists. split; [reflexivity |]. cbn [trace].
        rewrite requests_of_app, sleeps_snoc. cbn. rewrite app_nil_r. auto.
      - exists st. rewrite app_nil_r. auto. }
    destruct Hs as [st0 [E0 [R0 S0]]].
    destruct (report_raw_returns env acc deal_id st0) as [b [st1 E1]].
    pose proof (calls_report_raw acc deal_id st0) as R1.
    destruct (keeps_report_raw env is_sleep acc deal_id
                (fun _ => eq_refl) eq_refl st0) as [_ S1].
    rewrite E1 in R1, S1. cbn [snd] in R1, S1.
    assert (Erun : report_from env acc i (deal_id :: rest) reported st
                   = report_from env acc (i + 1) rest
                       (if b then reported ++ [deal_id] else reported) st1).
    { cbn [report_from]. unfold bind. rewrite E0, E1. reflexivity. }
    rewrite Erun.
    destruct (IH (i + 1) (if b then reported ++ [deal_id] else reported) st1
                ltac:(lia)) as [R2 S2].
    assert (Hj : (0 <? i + 1) = true) by (apply Z.ltb_lt; lia).
    rewrite Hj in S2.
    split.
    + rewrite R0 in R1. cbn [length]. lia.
    + rewrite S2, S1, S0, <- app_assoc. f_equal.
      destruct (0 <? i).
      * reflexivity.
      * cbn [app length Nat.sub]. rewrite Nat.sub_0_r. reflexivity.
Qed.
End StepBudget.

(** X12. A batch calls the [requests] library at most 44 times for each
    identifier it is given: four calls of [method], each of at most eleven
    calls of [requests.get] or [requests.post]. What the library sends on
    its own when it follows redirects for a fallback call is not counted. *)
Theorem batch_request_budget {World} (env : Env World) (acc : Account)
        (orders_ids : list pystr) (st : St World) :
  (length (requests_of (trace (snd (report_deal_problems env acc orders_ids st))))
   <= length (requests_of (trace st)) + 44 * length orders_ids)%nat.
Proof.
  unfold report_deal_problems.
  apply (report_from_budget env acc orders_ids 0 [] st). lia.
Qed.

Lemma ledger_step_fields {World} (st st' : St World) touched :
  ledger_step st st' touched ->
  order_age_hours (SETTINGS st') = order_age_hours (SETTINGS st) /\
  max_orders_in_ticket (SETTINGS st') = max_orders_in_ticket (SETTINGS st) /\
  exists extra,
    sent_order_ids (SETTINGS st') = sent_order_ids (SETTINGS st) ++ extra.
Proof.
  destruct touched as [r |]; unfold ledger_step.
  - intros [_ [S _]]. rewrite S. cbn. eauto.
  - intros [S _]. rewrite S. repeat split. exists []. now rewrite app_nil_r.
Qed.

Lemma edit_time_fields {World} (env : Env World) text (st : St World) :
  let s' := SETTINGS (snd (edit_time_handler env text st)) in
  (s' = SETTINGS st \/
   exists val, 1 <= val <= 720 /\
     s' = mkSettings val (max_orders_in_ticket (SETTINGS st))
                     (sent_order_ids (SETTINGS st))).
Proof.
  cbv zeta. destruct (py_int env text) as [val | e] eqn:Hi.
  - destruct (Z_le_dec 1 val) as [H1 |]; [destruct (Z_le_dec val 720) |].
    + right. exists val. split; [lia |].
      apply (edit_time_accepts env text val st Hi). lia.
    + left. apply (edit_time_rejects env text st). intros v Hv. 
      assert (v = val) by congruence. lia.
    + left. apply (edit_time_rejects env text st). intros v Hv.
      assert (v = val) by congruence. lia.
  - left. apply (edit_time_rejects env text st). intros v Hv. congruence.
Qed.

Lemma edit_count_fields {World} (env : Env World) text (st : St World) :
  let s' := SETTINGS (snd (edit_count_handler env text st)) in
  (s' = SETTINGS st \/
   exists val, 1 <= val <= 50 /\
     s' = mkSettings (order_age_hours (SETTINGS st)) val
                     (sent_order_ids (SETTINGS st))).
Proof.
  cbv zeta. destruct (py_int env text) as [val | e] eqn:Hi.
  - destruct (Z_le_dec 1 val) as [H1 |]; [destruct (Z_le_dec val 50) |].
    + right. exists val. split; [lia |].
      apply (edit_count_accepts env text val st Hi). lia.
    + left. apply (edit_count_rejects env text st). intros v Hv. 
      assert (v = val) by congruence. lia.
    + left. apply (edit_count_rejects env text st). intros v Hv.
      assert (v = val) by congruence. lia.
  - left. apply (edit_count_rejects env text st). intros v Hv. congruence.
Qed.

(** X14. The bounds of [Settings] are an invariant of the handlers: when
    [order_age_hours] is within 1..720 and [max_orders_in_ticket] within
    1..50 before, they are so after a press of the send button and after
    either edit handler, for every text and every behaviour of the
    collaborators. *)
Theorem handlers_keep_bounds {World} (env : Env World) (acc : Account)
        (text : option pystr) (st : St World) :
  in_bounds (SETTINGS st) ->
  in_bounds (SETTINGS (snd (act_send_ticket env acc st))) /\
  in_bounds (SETTINGS (snd (edit_time_handler env text st))) /\
  in_bounds (SETTINGS (snd (edit_count_handler env text st))).
Proof.
  intros [Ha Hm]. split; [| split].
  - destruct (act_send_ticket env acc st) as [o st'] eqn:H.
    destruct (act_send_ticket_spec env acc st o st' H) as [_ [t [L _]]].
    destruct (ledger_step_fields st st' t L) as [A [B _]].
    cbn [snd]. unfold in_bounds. rewrite A, B. auto.
  - destruct (edit_time_fields env text st) as [-> | [v [Hv ->]]];
      unfold in_bounds; cbn; auto.
  - destruct (edit_count_fields env text st) as [-> | [v [Hv ->]]];
      unfold in_bounds; cbn; auto.
Qed.

Lemma handlers_keep_bounds_witness :
  in_bounds (SETTINGS (snd (act_send_ticket (script_env happy) test_account st0))) /\
  in_bounds (SETTINGS (snd (edit_time_handler (script_env happy)
                              (Some (py "9000")) st0))) /\
  in_bounds (SETTINGS (snd (edit_count_handler (script_env happy)
                              (Some (py "9000")) st0))).
Proof.
  apply (handlers_keep_bounds (script_env happy) test_account
           (Some (py "9000")) st0).
  unfold in_bounds. vm_compute. repeat split; discriminate.
Defined.

(** X15. No handler removes an identifier from the ledger: after a press of the
    send button [sent_order_ids] is its former value with a list appended,
    and the two edit handlers leave it as it is. *)
Theorem handlers_extend_ledger {World} (env : Env World) (acc : Account)
        (text : option pystr) (st : St World) :
  (exists extra,
      sent_order_ids (SETTINGS (snd (act_send_ticket env acc st)))
      = sent_order_ids (SETTINGS st) ++ extra) /\
  sent_order_ids (SETTINGS (snd (edit_time_handler env text st)))
  = sent_order_ids (SETTINGS st) /\
  sent_order_ids (SETTINGS (snd (edit_count_handler env text st)))
  = sent_order_ids (SETTINGS st).
Proof.
  split; [| split].
  - destruct (act_send_ticket env acc st) as [o st'] eqn:H.
    destruct (act_send_ticket_spec env acc st o st' H) as [_ [t [L _]]].
    destruct (ledger_step_fields st st' t L) as [_ [_ E]]. exact E.
  - destruct (edit_time_fields env text st) as [-> | [v [Hv ->]]]; reflexivity.
  - destruct (edit_count_fields env text st) as [-> | [v [Hv ->]]]; reflexivity.
Qed.

(** X16. A value inside the bounds is assigned before the settings are saved:
    when the save raises, the new value stays in [SETTINGS] although the
    user is sent the message for a wrong number. *)
Theorem failed_save_keeps_value {World} (env : Env World)
        (text : option pystr) (val : Z) (st : St World) :
  py_int env text = Ok val ->
  (forall w s, exists w' e, settings_dump env w s = (w', Raise e)) ->
  (1 <= val <= 720 ->
   let st' := snd (edit_time_handler env text st) in
   order_age_hours (SETTINGS st') = val /\
   exists tail,
     filter is_bot (trace st')
     = filter is_bot (trace st) ++ EvBot (SendMessage S_BAD_HOURS) :: tail) /\
  (1 <= val <= 50 ->
   let st' := snd (edit_count_handler env text st) in
   max_orders_in_ticket (SETTINGS st') = val /\
   exists tail,
     filter is_bot (trace st')
     = filter is_bot (trace st) ++ EvBot (SendMessage S_BAD_COUNT) :: tail).
Proof.
  intros Hi Hd. split; intros Hb; cbv zeta.
  - unfold edit_time_handler. run_handler. rewrite Hi.
    assert (B : (1 <=? val) && (val <=? 720) = true)
      by (apply andb_true_intro; split; apply Z.leb_le; lia).
    rewrite B. cbn [SETTINGS world trace fst snd].
    match goal with
    | |- context [settings_dump ?e ?w ?s] =>
        destruct (Hd w s) as [w' [e' ->]]
    end.
    answers; cbn [SETTINGS world trace fst snd order_age_hours];
      (split; [reflexivity |]);
      repeat rewrite filter_app; cbn [filter is_bot app];
      repeat rewrite app_nil_r; repeat rewrite <- app_assoc;
      cbn [app]; eexists; reflexivity.
  - unfold edit_count_handler. run_handler. rewrite Hi.
    assert (B : (1 <=? val) && (val <=? 50) = true)
      by (apply andb_true_intro; split; apply Z.leb_le; lia).
    rewrite B. cbn [SETTINGS world trace fst snd].
    match goal with
    | |- context [settings_dump ?e ?w ?s] =>
        destruct (Hd w s) as [w' [e' ->]]
    end.
    answers; cbn [SETTINGS world trace fst snd max_orders_in_ticket];
      (split; [reflexivity |]);
      repeat rewrite filter_app; cbn [filter is_bot app];
      repeat rewrite app_nil_r; repeat rewrite <- app_assoc;
      cbn [app]; eexists; reflexivity.
Qed.

(** A value inside both ranges, on a storage that cannot be written. *)
Lemma failed_save_keeps_value_witness :
  order_age_hours
    (SETTINGS (snd (edit_time_handler (script_env read_only_disk)
                      (Some (py "30")) st0))) = 30 /\
  max_orders_in_ticket
    (SETTINGS (snd (edit_count_handler (script_env read_only_disk)
                      (Some (py "30")) st0))) = 30.
Proof.
  pose proof (failed_save_keeps_value (script_env read_only_disk)
                (Some (py "30")) 30 st0 eq_refl
                (fun w s => ex_intro _ w (ex_intro _ _ eq_refl))) as [T C].
  split.
  - apply T. lia.
  - apply C. lia.
Defined.

(** X17. A text [int] refuses is answered like a number out of range: the
    settings are untouched, and the only things done are the message for a
    wrong number and, when sending it did not raise, the clearing of the
    state. *)
Theorem unreadable_text_rejected {World} (env : Env World)
        (text : option pystr) (e : PyExc) (st : St World) :
  py_int env text = Raise e ->
  let reply (msg : pystr) :=
    EvBot (SendMessage msg)
    :: match snd (bot_call env (world st) (SendMessage msg)) with
       | Ok _ => [EvBot ClearState]
       | Raise _ => []
       end in
  SETTINGS (snd (edit_time_handler env text st)) = SETTINGS st /\
  trace (snd (edit_time_handler env text st)) = trace st ++ reply S_BAD_HOURS /\
  SETTINGS (snd (edit_count_handler env text st)) = SETTINGS st /\
  trace (snd (edit_count_handler env text st)) = trace st ++ reply S_BAD_COUNT.
Proof.
  intros Hi. cbv zeta.
  unfold edit_time_handler, edit_count_handler. run_handler. rewrite Hi.
  cbn [SETTINGS world trace fst snd].
  destruct (bot_call env (world st) (SendMessage S_BAD_HOURS)) as [w1 [[] | e1]];
  destruct (bot_call env (world st) (SendMessage S_BAD_COUNT)) as [w2 [[] | e2]];
  cbn [SETTINGS world trace fst snd];
  answers; cbn [SETTINGS world trace fst snd];
  repeat rewrite <- app_assoc; cbn [app]; auto.
Qed.

(** Letters in place of a number. *)
Lemma unreadable_text_rejected_witness :
  SETTINGS (snd (edit_time_handler (script_env happy) (Some (py "soon")) st0))
  = Settings_default /\
  trace (snd (edit_count_handler (script_env happy) (Some (py "soon")) st0))
  = [EvBot (SendMessage S_BAD_COUNT); EvBot ClearState].
Proof.
  pose proof (unreadable_text_rejected (script_env happy) (Some (py "soon"))
                ValueError st0 eq_refl) as [S [_ [_ T]]].
  split; [exact S | exact T].
Defined.

Lemma requests_of_filter tr :
  length (requests_of tr) = length (filter is_request tr).
Proof.
  induction tr as [| ev tr IH]; [reflexivity |].
  destruct ev; cbn; auto.
Qed.

Section Press.
Context {World : Type} (env : Env World).

(** What a step that neither looks up an order nor sends a request leaves
    of the two records. *)
Lemma quiet_run {A} (m : M World A) st o st' :
  keeps is_get_order m -> keeps is_request m -> m st = (o, st') ->
  filter is_get_order (trace st') = filter is_get_order (trace st) /\
  length (requests_of (trace st')) = length (requests_of (trace st)).
Proof.
  intros K1 K2 E.
  destruct (keeps_run _ _ _ _ _ K1 E) as [_ G].
  destruct (keeps_run _ _ _ _ _ K2 E) as [_ R].
  split; [exact G |]. rewrite !requests_of_filter, R. reflexivity.
Qed.

Lemma merge_reported_quiet reported st o st' :
  merge_reported env reported st = (o, st') ->
  filter is_get_order (trace st') = filter is_get_order (trace st) /\
  length (requests_of (trace st')) = length (requests_of (trace st)).
Proof.
  unfold merge_reported. destruct (0 <? len reported).
  - unfold bind, read_settings, write_settings, SETTINGS_save, read_settings,
      bind, call. cbn [SETTINGS world trace].
    destruct (settings_dump env (world st) _) as [w' [[] | e]];
      intros H; inversion H; subst; cbn [SETTINGS trace];
      rewrite filter_app, requests_of_app; cbn; rewrite !app_nil_r; auto.
  - cbn. intros H. inversion H; subst. auto.
Qed.

Lemma press_lookups acc st orders reported st' :
  act_send_ticket env acc st = (Val (orders, reported), st') ->
  filter is_get_order (trace st')
  = filter is_get_order (trace st) ++ map EvGetOrder orders /\
  (length (requests_of (trace st'))
   <= length (requests_of (trace st)) + 44 * length orders)%nat.
Proof.
  unfold act_send_ticket. intros H.
  assert (Qb : forall c s o s', bot env c s = (o, s') ->
            filter is_get_order (trace s') = filter is_get_order (trace s) /\
            length (requests_of (trace s')) = length (requests_of (trace s))).
  { intros c s o s'. apply quiet_run; apply keeps_bot; reflexivity. }
  assert (Qe : forall t s o s', _edit env t s = (o, s') ->
            filter is_get_order (trace s') = filter is_get_order (trace s) /\
            length (requests_of (trace s')) = length (requests_of (trace s))).
  { intros t s o s'. apply quiet_run; apply keeps_edit; reflexivity. }
  bind_step H u1 st1 E1; try discriminate.
  destruct (Qb _ _ _ _ E1) as [G1 R1].
  unfold bind in H at 1. unfold _main_text at 1, bind at 1, read_settings at 1 in H.
  cbn [ret] in H.
  bind_step H u2 st2 E2; try discriminate.
  destruct (Qe _ _ _ _ E2) as [G2 R2].
  unfold bind in H at 1. unfold read_settings at 1 in H.
  bind_step H os st3 E3; try discriminate.
  cbn [SETTINGS world trace fst snd] in *.
  assert (Q3 : filter is_get_order (trace st3) = filter is_get_order (trace st2) /\
               length (requests_of (trace st3)) = length (requests_of (trace st2))).
  { eapply quiet_run; [| | exact E3];
      apply keeps_get_old_orders_for_ticket; auto. }
  destruct Q3 as [G3 R3].
  destruct os as [| o1 os].
  - unfold bind in H at 1. unfold _main_text at 1, bind at 1, read_settings at 1 in H.
    cbn [ret] in H.
    bind_step H u4 st4 E4; try discriminate.
    destruct (Qe _ _ _ _ E4) as [G4 R4].
    inversion H; subst. cbn [map length]. rewrite app_nil_r.
    split; [congruence | lia].
  - bind_step H rep st4 E4; try discriminate.
    unfold report_deal_problems in E4.
    destruct (report_from_spec env acc (o1 :: os) 0 [] st3)
      as [extra [st4' [E4' [_ [_ [G4 _]]]]]].
    destruct (report_from_budget env acc (o1 :: os) 0 [] st3 ltac:(lia))
      as [R4 _].
    rewrite E4 in E4', R4. inversion E4'; subst st4'. cbn [snd] in R4.
    unfold bind in H at 1. unfold _main_text at 1, bind at 1, read_settings at 1 in H.
    cbn [ret] in H.
    bind_step H u5 st5 E5; try discriminate.
    destruct (Qe _ _ _ _ E5) as [G5 R5].
    bind_step H u6 st6 E6; try discriminate.
    assert (Q6 : filter is_get_order (trace st6) = filter is_get_order (trace st5) /\
                 length (requests_of (trace st6)) = length (requests_of (trace st5))).
    { eapply quiet_run; [| | exact E6];
        (apply keeps_try_except;
         [apply keeps_bot; reflexivity | intros; apply keeps_ret]). }
    destruct Q6 as [G6 R6].
    bind_step H u7 st7 E7; try discriminate.
    destruct (merge_reported_quiet _ _ _ _ E7) as [G7 R7].
    inversion H; subst.
    split; [congruence | lia].
Qed.
End Press.

(** X18. A press of the send button that runs to its end has looked up exactly
    the orders its scan returned, each once and in that order, and has
    called the [requests] library at most 44 times for each of them (a call
    for which the library follows redirects itself counts once); with no
    order found it looks up nothing and calls nothing. *)
Theorem press_tickets_scanned_orders {World} (env : Env World) (acc : Account)
        (st : St World) orders reported st' :
  act_send_ticket env acc st = (Val (orders, reported), st') ->
  filter is_get_order (trace st')
  = filter is_get_order (trace st) ++ map EvGetOrder orders /\
  (length (requests_of (trace st'))
   <= length (requests_of (trace st)) + 44 * length orders)%nat.
Proof. apply press_lookups. Qed.

Lemma press_tickets_scanned_orders_witness :
  filter is_get_order
    (trace (snd (act_send_ticket (script_env happy) test_account st0)))
  = filter is_get_order (trace st0)
    ++ map EvGetOrder [py "A30"; py "C40"].
Proof.
  apply (press_tickets_scanned_orders (script_env happy) test_account st0
           [py "A30"; py "C40"] [py "A30"; py "C40"]).
  vm_compute. reflexivity.
Defined.

Section OneOrder.
Context {World : Type} (env : Env World).

Lemma method_get_requests self url headers excl st o st' :
  method env self S_GET url headers [] excl st = (o, st') ->
  exists l, trace st' = trace st ++ map EvRequest l /\ Forall plain_get l.
Proof.
  intros H.
  destruct (method_run env _ _ _ _ _ _ _ _ _ H)
    as [q [rest [T [_ [B _]]]]].
  exists (q :: rest). split; [exact T |].
  eapply Forall_impl; [| exact B].
  intros r Hr. eapply built_by_get_empty; exact Hr.
Qed.

Lemma api_get_requests self st o st' :
  api_get env self st = (o, st') ->
  (exists l, trace st' = trace st ++ map EvRequest l /\ Forall plain_get l) /\
  (forall api, o = Val api -> funpay_account api = funpay_account self).
Proof.
  unfold api_get. intros H.
  bind_step H r1 st1 E1;
    destruct (method_get_requests _ _ _ _ _ _ _ E1) as [l1 [T1 F1]].
  2,3: inversion H; subst; split; [eauto | intros; discriminate].
  bind_step H r2 st2 E2;
    destruct (method_get_requests _ _ _ _ _ _ _ E2) as [l2 [T2 F2]].
  all: assert (R : exists l, trace st2 = trace st ++ map EvRequest l /\
                             Forall plain_get l)
         by (exists (l1 ++ l2); rewrite T2, T1, <- app_assoc, map_app;
             split; [reflexivity | apply Forall_app; auto]).
  2,3: inversion H; subst; split; [exact R | intros; discriminate].
  unfold bind in H at 1.
  destruct (bs_app_config env r2) as [data | e]; cbn [lift ret raise] in H;
    [| inversion H; subst; split; [exact R | intros; discriminate]].
  unfold bind in H at 1.
  destruct (json_subscript data S_CSRF_KEY) as [token | e];
    cbn [lift ret raise] in H; inversion H; subst;
    (split; [exact R |]).
  - intros api Ea. inversion Ea; subst. reflexivity.
  - intros; discriminate.
Qed.

Lemma create_ticket_posts self order_id comment st o st' :
  create_ticket env self order_id comment st = (o, st') ->
  exists l, trace st' = trace st ++ map EvRequest l /\
            Forall (fun r => plain_get r \/ ticket_post self order_id comment r) l.
Proof.
  unfold create_ticket, get_ticket_token. intros H.
  unfold bind in H at 1. unfold bind in H at 1.
  destruct (method env self S_GET URL_NEW_TICKET _ [] false st)
    as [[r1 | e |] st1] eqn:E1;
    destruct (method_get_requests _ _ _ _ _ _ _ E1) as [l1 [T1 F1]].
  all: assert (Only : exists l, trace st1 = trace st ++ map EvRequest l /\
            Forall (fun r => plain_get r \/ ticket_post self order_id comment r) l)
         by (exists l1; split; [exact T1 |];
             eapply Forall_impl; [| exact F1]; intros; left; assumption).
  2,3: inversion H; subst; exact Only.
  destruct (bs_ticket_token env r1) as [token | e];
    cbn [lift ret raise] in H; [| inversion H; subst; exact Only].
  clear Only.
  unfold bind in H at 1.
  destruct (method env self S_POST URL_CREATE_TICKET _ _ false st1)
    as [[r2 | e |] st2] eqn:E2;
    destruct (method_run env _ _ _ _ _ _ _ _ _ E2)
      as [q2 [rest2 [T2 [_ [B2 _]]]]].
  all: assert (Both : exists l, trace st2 = trace st ++ map EvRequest l /\
            Forall (fun r => plain_get r \/ ticket_post self order_id comment r) l)
         by (exists (l1 ++ q2 :: rest2);
             rewrite T2, T1, <- app_assoc, map_app;
             split; [reflexivity |];
             apply Forall_app; split;
             [ eapply Forall_impl; [| exact F1]; intros; left; assumption
             | eapply Forall_impl; [| exact B2];
               intros r [M [_ [D _]]]; right; split; [exact M |];
               exists token; exact D ]).
  - destruct (response_json env r2); cbn [lift ret raise] in H;
      inversion H; subst; exact Both.
  - inversion H; subst; exact Both.
  - inversion H; subst; exact Both.
Qed.

Lemma ticket_post_about acc api deal_id r :
  funpay_account api = acc ->
  ticket_post api (Some deal_id) (ticket_comment deal_id) r ->
  about_order acc deal_id r.
Proof.
  intros Ha [M [token D]]. right. rewrite D, <- Ha.
  split; [exact M |]. repeat split.
  change (dict_get (ticket_payload api (Some deal_id) (ticket_comment deal_id)
                      token) K_ORDER)
    with (Some (Some (if truthy (Some deal_id) then deal_id else []))).
  destruct deal_id; reflexivity.
Qed.

Lemma report_raw_requests acc deal_id st :
  exists added,
    requests_of (trace (snd (_report_deal_problem_raw env acc deal_id st)))
    = requests_of (trace st) ++ added /\
    Forall (about_order acc deal_id) added.
Proof.
  unfold _report_deal_problem_raw.
  assert (Inner : forall o st',
             (paid <- order_still_paid env deal_id ;;
              if negb paid then ret false
              else
                support_api <- api_get env (FunPaySupportAPI_init acc) ;;
                response <- create_ticket env support_api (Some deal_id)
                                          (ticket_comment deal_id) ;;
                lift (response_is_success env response)) st = (o, st') ->
             exists added,
               requests_of (trace st') = requests_of (trace st) ++ added /\
               Forall (about_order acc deal_id) added).
  { intros o st' H.
    unfold bind in H at 1.
    destruct (order_still_paid env deal_id st) as [[paid | e |] st1] eqn:E1.
    2,3: exfalso; revert E1; unfold order_still_paid, try_except, bind, call;
         destruct (acc_get_order env (world st) deal_id) as [w [s | x]];
         discriminate.
    assert (T1 : requests_of (trace st1) = requests_of (trace st)).
    { revert E1. unfold order_still_paid, try_except, bind, call.
      destruct (acc_get_order env (world st) deal_id) as [w [s | x]];
        intros E; inversion E; subst; cbn [trace];
        rewrite requests_of_app; cbn; apply app_nil_r. }
    destruct (negb paid).
    { inversion H; subst. exists []. rewrite app_nil_r. auto. }
    bind_step H api st2 E2;
      destruct (api_get_requests _ _ _ _ E2) as [[l2 [T2 F2]] A2].
    all: assert (R2 : exists added,
                   requests_of (trace st2) = requests_of (trace st) ++ added /\
                   Forall (about_order acc deal_id) added)
           by (exists l2; rewrite T2, requests_of_app, requests_of_map, T1;
               split; [reflexivity |];
               eapply Forall_impl; [| exact F2]; intros; left; assumption).
    2,3: inversion H; subst; exact R2.
    clear R2. specialize (A2 api eq_refl). cbn [funpay_account FunPaySupportAPI_init] in A2.
    bind_step H resp st3 E3;
      destruct (create_ticket_posts _ _ _ _ _ _ E3) as [l3 [T3 F3]].
    all: assert (R3 : exists added,
                   requests_of (trace st3) = requests_of (trace st) ++ added /\
                   Forall (about_order acc deal_id) added)
           by (exists (l2 ++ l3);
               rewrite T3, T2, !requests_of_app, !requests_of_map, T1, app_assoc;
               split; [reflexivity |];
               apply Forall_app; split;
               [ eapply Forall_impl; [| exact F2]; intros; left; assumption
               | eapply Forall_impl; [| exact F3];
                 intros r [G | P];
                 [left; exact G | eapply ticket_post_about; eassumption] ]).
    2,3: inversion H; subst; exact R3.
    destruct (response_is_success env resp); cbn [lift ret raise] in H;
      inversion H; subst; exact R3. }
  unfold try_except.
  match goal with
  | |- context [snd (match ?m st with _ => _ end)] =>
      pose proof (Inner (fst (m st)) (snd (m st)) (surjective_pairing _)) as I;
      clear Inner; destruct (m st) as [[b | e |] st']
  end; cbn [ret fst snd] in *; exact I.
Qed.
End OneOrder.

(** X19. Whatever the portal answers, every request of the step for [deal_id]
    is a [get] without payload or a [post] of a ticket in the name of the
    account, whose order field is [deal_id] and whose comment is the fixed
    sentence about [deal_id]. *)
Theorem ticket_names_its_order {World} (env : Env World) (acc : Account)
        (deal_id : pystr) (st : St World) :
  exists added,
    requests_of (trace (snd (_report_deal_problem_raw env acc deal_id st)))
    = requests_of (trace st) ++ added /\
    Forall (about_order acc deal_id) added.
Proof. apply report_raw_requests. Qed.

Section Cursors.
Context {World : Type} (env : Env World).

(** A pass of the loop body fetches once, from [start]; when the loop goes
    on, the next cursor is truthy. *)
Lemma scan_body_cursor cutoff max_count old start pc st o st' :
  scan_body env cutoff max_count old start pc st = (o, st') ->
  filter is_get_sales (trace st')
  = filter is_get_sales (trace st) ++ [EvGetSales start] /\
  (forall old' next pc', o = Val (Continue old' next pc') ->
                         truthy next = true).
Proof.
  destruct (acc_get_sales env (world st) start) as [w2 r] eqn:Hf.
  rewrite (scan_body_fetched env _ _ _ _ _ st w2 r Hf).
  set (st2 := mkSt w2 _ _).
  assert (S2 : filter is_get_sales (trace st2)
               = filter is_get_sales (trace st) ++ [EvGetSales start])
    by (unfold st2; cbn [trace]; rewrite filter_app; reflexivity).
  clearbody st2.
  assert (Done : forall ids n, ret (Break ids n) st2 = (o, st') ->
            filter is_get_sales (trace st')
            = filter is_get_sales (trace st) ++ [EvGetSales start] /\
            (forall old' next pc', o = Val (Continue old' next pc') ->
                                   truthy next = true)).
  { intros ids n E. inversion E; subst. split; [exact S2 | intros; discriminate]. }
  destruct r as [[[next [| od page]] |] | e];
    try (intros H; apply (Done _ _ H)).
  intros H. bind_step H r st3 E3;
    destruct (keeps_run _ _ _ _ _
                (keeps_scan_page env is_get_sales eq_refl cutoff max_count
                   (od :: page) old []) E3) as [_ S3].
  - destruct (match snd r with [] => false | _ => _ end);
      [| destruct (truthy next) eqn:Tn; cbn [negb] in H].
    + inversion H; subst. split; [congruence | intros; discriminate].
    + unfold bind, sleep, emit, ret in H. inversion H; subst.
      cbn [trace]. rewrite filter_app. cbn. rewrite app_nil_r.
      split; [congruence |]. intros ? ? ? E. inversion E; subst. exact Tn.
    + inversion H; subst. split; [congruence | intros; discriminate].
  - inversion H; subst. split; [congruence | intros; discriminate].
  - inversion H; subst. split; [congruence | intros; discriminate].
Qed.

Lemma scan_pages_cursors fuel :
  forall cutoff max_count old start pc st o st',
    scan_pages env fuel cutoff max_count old start pc st = (o, st') ->
    exists l,
      filter is_get_sales (trace st')
      = filter is_get_sales (trace st) ++ map EvGetSales l /\
      (l = [] \/
       exists rest, l = start :: rest /\
                    Forall (fun c => truthy c = true) rest).
Proof.
  induction fuel as [| fuel IH]; intros cutoff max_count old start pc st o st' H;
    cbn [scan_pages] in H;
    (destruct (_ && _);
     [| inversion H; subst; exists []; cbn [map];
        rewrite app_nil_r; split; [reflexivity | left; reflexivity]]).
  - inversion H; subst. exists []. cbn [map]. rewrite app_nil_r.
    split; [reflexivity | left; reflexivity].
  - bind_step H step st1 E1;
      destruct (scan_body_cursor _ _ _ _ _ _ _ _ E1) as [F1 C1].
    + destruct step as [old1 pc1 | old1 next pc1].
      * inversion H; subst. exists [start].
        split; [exact F1 | right; exists []; split; [reflexivity | constructor]].
      * specialize (C1 _ _ _ eq_refl).
        destruct (IH _ _ _ _ _ _ _ _ H) as [l [F2 Hl]].
        exists (start :: l). split.
        -- rewrite F2, F1, <- app_assoc. reflexivity.
        -- right. exists l. split; [reflexivity |].
           destruct Hl as [-> | [rest [-> Fr]]]; constructor; assumption.
    + inversion H; subst. exists [start].
      split; [exact F1 | right; exists []; split; [reflexivity | constructor]].
    + inversion H; subst. exists [start].
      split; [exact F1 | right; exists []; split; [reflexivity | constructor]].
Qed.
End Cursors.

(** X20. Only the first fetch of a scan has no cursor: every later fetch carries
    a truthy cursor, so a scan never starts again from the first page. *)
Theorem scanner_follows_cursors {World} (env : Env World) age_hours max_count
        (st : St World) :
  exists cursors,
    filter is_get_sales
      (trace (snd (get_old_orders_for_ticket env age_hours max_count st)))
    = filter is_get_sales (trace st) ++ map EvGetSales cursors /\
    cursor_chain None cursors.
Proof.
  destruct (get_old_orders_for_ticket env age_hours max_count st) as [o st']
    eqn:H.
  cbn [snd]. unfold get_old_orders_for_ticket in H.
  assert (Idle : forall st1 : St World,
            filter is_get_sales (trace st1) = filter is_get_sales (trace st) ->
            exists cursors,
              filter is_get_sales (trace st1)
              = filter is_get_sales (trace st) ++ map EvGetSales cursors /\
              cursor_chain None cursors).
  { intros st1 S. exists []. cbn [map]. rewrite app_nil_r.
    split; [exact S | left; reflexivity]. }
  destruct (now_returns env st) as [d [st1 En]].
  destruct (keeps_run _ _ _ _ _ (keeps_now env is_get_sales eq_refl) En)
    as [_ F1].
  unfold bind in H at 1. rewrite En in H.
  unfold bind in H at 1.
  destruct (dt_sub_timedelta d 0 age_hours) as [c | e]; cbn [lift ret raise] in H;
    [| inversion H; subst; apply Idle; assumption].
  unfold bind in H at 1.
  destruct (dt_timestamp env c) as [cutoff | e]; cbn [lift ret raise] in H;
    [| inversion H; subst; apply Idle; assumption].
  bind_step H r st2 E;
    destruct (scan_pages_cursors env _ _ _ _ _ _ _ _ _ E) as [l [F2 Hl]];
    inversion H; subst; exists l; (split; [congruence | exact Hl]).
Qed.

Section BatchTrace.
Context {World : Type} (env : Env World).

(** The step looks the order up and then only calls the transport. *)
Lemma report_raw_trace acc deal_id (st : St World) :
  exists seg,
    order_segment deal_id seg /\
    trace (snd (_report_deal_problem_raw env acc deal_id st)) = trace st ++ seg.
Proof.
  unfold _report_deal_problem_raw.
  assert (Inner : forall o st',
             (paid <- order_still_paid env deal_id ;;
              if negb paid then ret false
              else
                support_api <- api_get env (FunPaySupportAPI_init acc) ;;
                response <- create_ticket env support_api (Some deal_id)
                                          (ticket_comment deal_id) ;;
                lift (response_is_success env response)) st = (o, st') ->
             exists seg,
               order_segment deal_id seg /\ trace st' = trace st ++ seg).
  { intros o st' H.
    unfold bind in H at 1.
    destruct (order_still_paid env deal_id st) as [[paid | e |] st1] eqn:E1.
    2,3: exfalso; revert E1; unfold order_still_paid, try_except, bind, call;
         destruct (acc_get_order env (world st) deal_id) as [w [s | x]];
         discriminate.
    assert (T1 : trace st1 = trace st ++ [EvGetOrder deal_id]).
    { revert E1. unfold order_still_paid, try_except, bind, call.
      destruct (acc_get_order env (world st) deal_id) as [w [s | x]];
        intros E; inversion E; subst; reflexivity. }
    assert (Seg : forall (st2 : St World) l,
               trace st2 = trace st1 ++ map EvRequest l ->
               exists seg,
                 order_segment deal_id seg /\ trace st2 = trace st ++ seg).
    { intros st2 l T. exists (EvGetOrder deal_id :: map EvRequest l).
      split; [exists l; reflexivity |].
      rewrite T, T1, <- app_assoc. reflexivity. }
    destruct (negb paid).
    { inversion H; subst. apply (Seg st' []). cbn [map].
      rewrite app_nil_r. reflexivity. }
    bind_step H api st2 E2;
      destruct (api_get_requests env _ _ _ _ E2) as [[l2 [T2 _]] _].
    2,3: inversion H; subst; apply (Seg st' l2); exact T2.
    bind_step H resp st3 E3;
      destruct (create_ticket_posts env _ _ _ _ _ _ E3) as [l3 [T3 _]].
    all: assert (T : trace st3 = trace st1 ++ map EvRequest (l2 ++ l3))
           by (rewrite T3, T2, <- app_assoc, map_app; reflexivity).
    2,3: inversion H; subst; apply (Seg st' (l2 ++ l3)); exact T.
    destruct (response_is_success env resp); cbn [lift ret raise] in H;
      inversion H; subst; apply (Seg st' (l2 ++ l3)); exact T. }
  unfold try_except.
  match goal with
  | |- context [snd (match ?m st with _ => _ end)] =>
      pose proof (Inner (fst (m st)) (snd (m st)) (surjective_pairing _)) as I;
      clear Inner; destruct (m st) as [[b | e |] st']
  end; cbn [ret fst snd] in *; exact I.
Qed.

(** The loop from index [i]: a sleep of two seconds stands before every
    step when [i] is positive, before every step but the first when [i]
    is zero. *)
Lemma report_from_trace acc ids :
  forall i reported (st : St World), 0 <= i ->
  exists segs,
    Forall2 order_segment ids segs /\
    trace (snd (report_from env acc i ids reported st))
    = trace st ++ (if 0 <? i then flat_map (cons (EvSleep 2)) segs
                   else joined (EvSleep 2) segs).
Proof.
  induction ids as [| deal_id rest IH]; intros i reported st Hi.
  - exists []. split; [constructor |]. cbn [report_from ret snd].
    destruct (0 <? i); cbn; rewrite app_nil_r; reflexivity.
  - assert (E0 : (if 0 <? i then sleep 2 else ret tt) st
                 = (Val tt, if 0 <? i then snd (sleep 2 st) else st))
      by (destruct (0 <? i); reflexivity).
    set (st0 := if 0 <? i then snd (sleep 2 st) else st) in *.
    destruct (report_raw_returns env acc deal_id st0) as [b [st1 E1]].
    destruct (report_raw_trace acc deal_id st0) as [seg [Hseg T1]].
    rewrite E1 in T1. cbn [snd] in T1.
    assert (Erun : report_from env acc i (deal_id :: rest) reported st
                   = report_from env acc (i + 1) rest
                       (if b then reported ++ [deal_id] else reported) st1).
    { cbn [report_from]. unfold bind. rewrite E0, E1. reflexivity. }
    rewrite Erun.
    destruct (IH (i + 1) (if b then reported ++ [deal_id] else reported) st1
                ltac:(lia)) as [segs [F T2]].
    assert (Hj : (0 <? i + 1) = true) by (apply Z.ltb_lt; lia).
    rewrite Hj in T2.
    exists (seg :: segs). split; [constructor; assumption |].
    rewrite T2, T1. unfold st0.
    destruct (0 <? i); cbn [sleep emit snd trace flat_map joined app];
      rewrite <- ?app_assoc; reflexivity.
Qed.
End BatchTrace.

(** X13. A batch is the steps of its orders, in order, with one sleep of two
    seconds between two consecutive steps and no other sleep: the batch
    sleeps before every order but the first, whatever the outcome of each
    order, and so [n - 1] times for [n] identifiers. *)
Theorem batch_pacing {World} (env : Env World) (acc : Account)
        (orders_ids : list pystr) (st : St World) :
  (exists segs,
      Forall2 order_segment orders_ids segs /\
      trace (snd (report_deal_problems env acc orders_ids st))
      = trace st ++ joined (EvSleep 2) segs) /\
  filter is_sleep (trace (snd (report_deal_problems env acc orders_ids st)))
  = filter is_sleep (trace st)
    ++ repeat (EvSleep 2) (length orders_ids - 1).
Proof.
  unfold report_deal_problems. split.
  - destruct (report_from_trace env acc orders_ids 0 [] st ltac:(lia))
      as [segs [F T]].
    exists segs. split; [exact F | exact T].
  - apply (report_from_budget env acc orders_ids 0 [] st). lia.
Qed.
